(** * GanesaEseva2 backend: routes, document models and access guard

A shallow embedding of the Express routers (forms, form categories,
form subcategories, customers, message templates), of the Mongoose
schemas they store into, and of the [protect] middleware, followed by
the properties of the specification that were checked on them.

Conventions of the embedding:
- a request field that the JavaScript reads as "a string or
  [undefined]" is an [option string]; JavaScript truthiness of such a
  value is [JS.truthy];
- an [await]ed call that may throw is a computation in [Async]: it
  threads the document store and either resolves or rejects with an
  exception; [tryCatch] is the [try { ... } catch (err) { ... }] that
  wraps every handler body;
- [Date.now()] and the identifier Mongoose gives a new document are
  inputs of the request ([now], [freshId]);
- strings are sequences of one-byte characters, so [trim] knows the
  ASCII white space only;
- a string that Mongoose takes for an identifier is cast by
  [castObjectId]; an identifier is its 24 lower-case hexadecimal
  digits. *)

From Stdlib Require Import String Ascii List ZArith Bool Lia DecimalString.
From Stdlib Require Import Permutation Sorted.
Import ListNotations.
Open Scope string_scope.
Open Scope Z_scope.
Set Warnings "-register-all".

(** ** JavaScript strings *)

Module JS.

(** White space removed by [String.prototype.trim] (ASCII part). *)
Definition is_ws (c : ascii) : bool :=
  let n := nat_of_ascii c in
  Nat.eqb n 32 || (Nat.leb 9 n && Nat.leb n 13).

Fixpoint trimStart (s : string) : string :=
  match s with
  | EmptyString => EmptyString
  | String c r => if is_ws c then trimStart r else s
  end.

Fixpoint trimEnd (s : string) : string :=
  match s with
  | EmptyString => EmptyString
  | String c r =>
      let r' := trimEnd r in
      if (r' =? "")%string && is_ws c then EmptyString else String c r'
  end.

Definition trim (s : string) : string := trimEnd (trimStart s).

(** [s.startsWith(p)] *)
Definition startsWith (s p : string) : bool := String.prefix p s.

(** Truthiness of a value that is [undefined] or a string. *)
Definition truthy (v : option string) : bool :=
  match v with
  | Some s => negb (s =? "")%string
  | None => false
  end.

(** [arr.includes(x)] on an array of strings. *)
Definition includes (arr : list string) (x : string) : bool :=
  existsb (String.eqb x) arr.

(** [s.split(sep)] for a one-character separator. *)
Fixpoint split (sep : ascii) (s : string) : list string :=
  match s with
  | EmptyString => [EmptyString]
  | String c r =>
      if Ascii.eqb c sep then EmptyString :: split sep r
      else match split sep r with
           | h :: t => String c h :: t
           | [] => [String c EmptyString]
           end
  end.

(** A JSON value of a request body, as far as the handlers and the
    casts of the schemas tell values apart. *)
Inductive Value :=
| Str (s : string)
| Null
| Num (n : Z)
| Bool (b : bool)
| Compound.   (* an array or an object *)

(** Truthiness of a JSON value. *)
Definition truthyValue (v : Value) : bool :=
  match v with
  | Str s => negb (s =? "")%string
  | Null => false
  | Num n => negb (n =? 0)%Z
  | Bool b => b
  | Compound => true
  end.

(** [a || b] on strings-or-undefined with a string default. *)
Definition orElse (v : option string) (d : string) : string :=
  match v with
  | Some s => if (s =? "")%string then d else s
  | None => d
  end.

End JS.

(** ** Identifiers of the document store *)

Definition ObjectId := string.

Module ObjectIdCast.

Definition isHex (c : ascii) : bool :=
  let n := nat_of_ascii c in
  (Nat.leb 48 n && Nat.leb n 57)
  || (Nat.leb 97 n && Nat.leb n 102)
  || (Nat.leb 65 n && Nat.leb n 70).

Definition lowerHex (c : ascii) : ascii :=
  let n := nat_of_ascii c in
  if Nat.leb 65 n && Nat.leb n 70 then ascii_of_nat (n + 32) else c.

Fixpoint allHex (s : string) : bool :=
  match s with
  | EmptyString => true
  | String c r => isHex c && allHex r
  end.

Fixpoint lower (s : string) : string :=
  match s with
  | EmptyString => EmptyString
  | String c r => String (lowerHex c) (lower r)
  end.

(** The hexadecimal digit of a number below 16, in lower case. *)
Definition hexDigit (n : nat) : ascii :=
  ascii_of_nat (if Nat.ltb n 10 then 48 + n else 87 + n).

(** [ObjectId.toHexString] on the bytes that a 12-character string
    gives. *)
Fixpoint hexOfBytes (s : string) : string :=
  match s with
  | EmptyString => EmptyString
  | String c r =>
      let n := nat_of_ascii c in
      String (hexDigit (n / 16)) (String (hexDigit (n mod 16)) (hexOfBytes r))
  end.

(** Mongoose casts a string to an ObjectId when it is 24 hexadecimal
    digits, and also (up to Mongoose 7, the versions that still have the
    [findByIdAndRemove] these routes call) when it is any 12 characters,
    which are then the twelve bytes of the identifier; anything else is
    a [CastError].  An identifier is kept as its lower-case hexadecimal
    string. *)
Definition castObjectId (s : string) : option ObjectId :=
  if Nat.eqb (String.length s) 24 && allHex s then Some (lower s)
  else if Nat.eqb (String.length s) 12 then Some (hexOfBytes s)
  else None.

End ObjectIdCast.
Export ObjectIdCast.

(** ** Stored documents (the Mongoose schemas) *)

(** The user collection belongs to the access guard; the routes read the
    identity and the two fields that [populate] selects. *)
Module UserDoc.
Record t := mk {
  _id : ObjectId;
  name : string;
  email : string;
  role : string
}.
End UserDoc.

(** models/FormCategory: [timestamps: true], [name] unique. *)
Module CategoryDoc.
Record t := mk {
  _id : ObjectId;
  name : string;
  description : option string;
  isActive : bool;
  createdBy : ObjectId;
  updatedBy : option ObjectId;
  createdAt : Z;
  updatedAt : Z
}.
End CategoryDoc.

(** One embedded field definition of a subcategory; a path that was never
    given stays undefined in the stored subdocument. *)
Module FieldDoc.
Record t := mk {
  name : option string;
  fieldType : option string;
  options : list string;
  required : bool
}.
End FieldDoc.

(** models/FormSubCategory: [timestamps: true], compound unique index on
    (name, categoryId). *)
Module SubCategoryDoc.
Record t := mk {
  _id : ObjectId;
  name : string;
  categoryId : ObjectId;
  description : option string;
  isActive : bool;
  fields : list FieldDoc.t;
  createdBy : ObjectId;
  updatedBy : option ObjectId;
  createdAt : Z;
  updatedAt : Z
}.
End SubCategoryDoc.

(** models/Form: [name] and [url] unique. *)
Module FormDoc.
Record t := mk {
  _id : ObjectId;
  name : string;
  url : string;
  createdAt : Z;
  updatedAt : Z
}.
End FormDoc.

(** models/MessageTemplate. *)
Module TemplateDoc.
Record t := mk {
  _id : ObjectId;
  name : string;
  subject : string;
  content : string;
  type : string;
  createdAt : Z;
  updatedAt : Z
}.
End TemplateDoc.

(** Modelled from the spec: models/Customer.js is not among the sources;
    a customer carries the fields that the routes and section 3 of the
    specification name. *)
Module AddressDoc.
Record t := mk {
  line1 : option string;
  city : option string;
  state : option string
}.
End AddressDoc.

Module CustomerDoc.
Record t := mk {
_id : ObjectId;
name : option string;
phone : option string;
email : option string;
address : AddressDoc.t;
serviceCategoryUrl : option string;
createdAt : Z
}.
End CustomerDoc.

(** ** The document store *)

Record Store := mkStore {
  users : list UserDoc.t;
  formCategories : list CategoryDoc.t;
  formSubCategories : list SubCategoryDoc.t;
  forms : list FormDoc.t;
  customers : list CustomerDoc.t;
  messageTemplates : list TemplateDoc.t
}.

Definition emptyStore : Store := mkStore [] [] [] [] [] [].

(** ** Exceptions and asynchronous store calls *)

Inductive Exn :=
| CastError (kind : string)
| ValidationError (errors : list (string * string))
| MongoServerError (code : Z) (key : string)
| ReferenceError (ident : string)
| TypeError.

Inductive Outcome (A : Type) :=
| Resolved (a : A)
| Rejected (e : Exn).
Arguments Resolved {A} a.
Arguments Rejected {A} e.

Definition Async (A : Type) : Type := Store -> Outcome A * Store.

Definition ret {A} (a : A) : Async A := fun st => (Resolved a, st).

Definition throw {A} (e : Exn) : Async A := fun st => (Rejected e, st).

Definition bind {A B} (m : Async A) (k : A -> Async B) : Async B :=
  fun st =>
    match m st with
    | (Resolved a, st') => k a st'
    | (Rejected e, st') => (Rejected e, st')
    end.

Declare Scope async_scope.
Delimit Scope async_scope with async.
Notation "x <- m ;; k" := (bind m (fun x => k))
  (at level 61, m at next level, right associativity) : async_scope.
Notation "m ;;; k" := (bind m (fun _ => k))
  (at level 61, right associativity) : async_scope.
Open Scope async_scope.

(** [try { body } catch (err) { handler }] around a handler body. *)
Definition tryCatch {R} (body : Async R) (handler : Exn -> R) (st : Store)
  : R * Store :=
  match body st with
  | (Resolved r, st') => (r, st')
  | (Rejected e, st') => (handler e, st')
  end.

(** ** Collections and the query interface of a model *)

Class Collection (D : Type) := {
  coll : Store -> list D;
  setColl : list D -> Store -> Store;
  idOf : D -> ObjectId
}.

#[export] Instance users_coll : Collection UserDoc.t := {
  coll := users;
  setColl l st := mkStore l (formCategories st) (formSubCategories st)
                          (forms st) (customers st) (messageTemplates st);
  idOf := UserDoc._id
}.

#[export] Instance categories_coll : Collection CategoryDoc.t := {
  coll := formCategories;
  setColl l st := mkStore (users st) l (formSubCategories st)
                          (forms st) (customers st) (messageTemplates st);
  idOf := CategoryDoc._id
}.

#[export] Instance subcategories_coll : Collection SubCategoryDoc.t := {
  coll := formSubCategories;
  setColl l st := mkStore (users st) (formCategories st) l
                          (forms st) (customers st) (messageTemplates st);
  idOf := SubCategoryDoc._id
}.

#[export] Instance forms_coll : Collection FormDoc.t := {
  coll := forms;
  setColl l st := mkStore (users st) (formCategories st) (formSubCategories st)
                          l (customers st) (messageTemplates st);
  idOf := FormDoc._id
}.

#[export] Instance customers_coll : Collection CustomerDoc.t := {
  coll := customers;
  setColl l st := mkStore (users st) (formCategories st) (formSubCategories st)
                          (forms st) l (messageTemplates st);
  idOf := CustomerDoc._id
}.

#[export] Instance templates_coll : Collection TemplateDoc.t := {
  coll := messageTemplates;
  setColl l st := mkStore (users st) (formCategories st) (formSubCategories st)
                          (forms st) (customers st) l;
  idOf := TemplateDoc._id
}.

Module Query.
Section Generic.
Context {D : Type} `{Collection D}.

Definition hasId (oid : ObjectId) (d : D) : bool := (idOf d =? oid)%string.

(** [Model.find(filter)] *)
Definition find (filter : D -> bool) : Async (list D) :=
  fun st => (Resolved (List.filter filter (coll st)), st).

(** [Model.findOne(filter)]: the first match in store order. *)
Definition findOne (filter : D -> bool) : Async (option D) :=
  fun st => (Resolved (List.find filter (coll st)), st).

(** [Model.findById(id)]: the identifier is cast first. *)
Definition findById (id : string) : Async (option D) :=
  match castObjectId id with
  | None => throw (CastError "ObjectId")
  | Some oid => findOne (hasId oid)
  end.

(** [Model.findByIdAndDelete(id)] / [Model.findByIdAndRemove(id)] *)
Definition findByIdAndDelete (id : string) : Async (option D) :=
  match castObjectId id with
  | None => throw (CastError "ObjectId")
  | Some oid =>
      fun st =>
        match List.find (hasId oid) (coll st) with
        | None => (Resolved None, st)
        | Some d =>
            (Resolved (Some d),
             setColl (List.filter (fun x => negb (hasId oid x)) (coll st)) st)
        end
  end.

(** Insertion of a new document at the end of the collection. *)
Definition insertOne (d : D) : Async D :=
  fun st => (Resolved d, setColl (coll st ++ [d]) st).

(** Replacement in place of the document that has the identifier of [d]. *)
Definition replaceOne (d : D) : Async D :=
  fun st =>
    (Resolved d,
     setColl (List.map (fun x => if hasId (idOf d) x then d else x) (coll st)) st).

End Generic.
End Query.

(** ** Requests and responses *)

Inductive Json :=
| JNull
| JBool (b : bool)
| JStr (s : string)
| JArr (items : list Json)
| JObj (members : list (string * Json))
| JErrorMessage (e : Exn).   (* [error.message] of a caught exception *)

(** [{ errors: [{ msg }] }] *)
Definition errorsOf (msgs : list string) : Json :=
  JObj [("errors", JArr (List.map (fun m => JObj [("msg", JStr m)]) msgs))].

(** A reference replaced by [populate(path, 'name')] or
    [populate(path, 'name email')]. *)
Record Populated := mkPopulated {
  p_category : option string;
  p_createdBy : option (string * string);
  p_updatedBy : option (string * string)
}.

(** The customer fields kept by [.select('name phone email address')]. *)
Record CustomerProjection := mkProjection {
  pr_id : ObjectId;
  pr_name : option string;
  pr_phone : option string;
  pr_email : option string;
  pr_address : AddressDoc.t
}.

Inductive Body :=
| Text (s : string)
| Data (j : Json)
| OneForm (f : FormDoc.t)
| ManyForms (l : list FormDoc.t)
| OneCategory (c : CategoryDoc.t)
| ManyCategories (l : list (CategoryDoc.t * Populated))
| OneSubCategory (s : option (SubCategoryDoc.t * Populated))
| ManySubCategories (l : list (SubCategoryDoc.t * Populated))
| OneCustomer (c : CustomerDoc.t)
| ManyCustomers (l : list CustomerDoc.t)
| ProjectedCustomers (l : list CustomerProjection)
| OneTemplate (t : TemplateDoc.t)
| ManyTemplates (l : list TemplateDoc.t).

Record Response := mkResponse {
  status : Z;
  payload : Body
}.

(** [res.json(x)] and [res.status(n).json(x)] / [.send(x)] *)
Definition json (b : Body) : Response := mkResponse 200 b.
Definition statusJson (n : Z) (b : Body) : Response := mkResponse n b.

Inductive Method := GET | POST | PUT | DELETE.

Definition Method_eqb (a b : Method) : bool :=
  match a, b with
  | GET, GET | POST, POST | PUT, PUT | DELETE, DELETE => true
  | _, _ => false
  end.

Record Request (B : Type) := mkRequest {
  method : Method;
  path : list string;                 (* path below the router's mount point *)
  authorization : option string;      (* req.headers.authorization *)
  cookieToken : option string;        (* req.cookies?.token *)
  query : list (string * string);     (* req.query *)
  body : B;                           (* req.body *)
  now : Z;                            (* Date.now() while the request is served *)
  freshId : ObjectId                  (* identifier given to a new document *)
}.
Arguments method {B} _.
Arguments path {B} _.
Arguments authorization {B} _.
Arguments cookieToken {B} _.
Arguments query {B} _.
Arguments body {B} _.
Arguments now {B} _.
Arguments freshId {B} _.

Fixpoint lookupStr (k : string) (l : list (string * string)) : option string :=
  match l with
  | [] => None
  | (k', v) :: r => if (k' =? k)%string then Some v else lookupStr k r
  end.

(** ** Routers *)

Inductive Segment :=
| Lit (s : string)
| Param (name : string).

(** Express matches a route path segment by segment; [:name] takes any
    non-empty segment. *)
Fixpoint matchPath (pat : list Segment) (p : list string)
  : option (list (string * string)) :=
  match pat, p with
  | [], [] => Some []
  | Lit s :: pat', x :: p' =>
      if (s =? x)%string then matchPath pat' p' else None
  | Param n :: pat', x :: p' =>
      if (x =? "")%string then None
      else match matchPath pat' p' with
           | Some ps => Some ((n, x) :: ps)
           | None => None
           end
  | _, _ => None
  end.

(** What a middleware does with a request: answer it, or call [next()]
    after setting [req.user]. *)
Inductive Passage :=
| Halt (r : Response)
| Next (user : UserDoc.t).

Definition Middleware (B : Type) : Type := Request B -> Store -> Passage.

Definition Handler (B : Type) : Type :=
  list (string * string) -> Request B -> option UserDoc.t -> Store -> Response * Store.

Record Route (B : Type) := mkRoute {
  r_method : Method;
  r_path : list Segment;
  r_guards : list (Middleware B);
  r_handler : Handler B
}.
Arguments mkRoute {B} _ _ _ _.
Arguments r_method {B} _.
Arguments r_path {B} _.
Arguments r_guards {B} _.
Arguments r_handler {B} _.

Definition Router (B : Type) : Type := list (Route B).

Fixpoint runGuards {B} (gs : list (Middleware B)) (req : Request B)
  (user : option UserDoc.t) (st : Store) : Response + option UserDoc.t :=
  match gs with
  | [] => inr user
  | g :: gs' =>
      match g req st with
      | Halt r => inl r
      | Next u => runGuards gs' req (Some u) st
      end
  end.

Definition runRoute {B} (r : Route B) (params : list (string * string))
  (req : Request B) (st : Store) : Response * Store :=
  match runGuards (r_guards r) req None st with
  | inl resp => (resp, st)
  | inr user => r_handler r params req user st
  end.

(** Routes are tried in the order in which they were registered; the first
    one whose method and path match serves the request. *)
Fixpoint dispatch {B} (router : Router B) (req : Request B) (st : Store)
  : Response * Store :=
  match router with
  | [] => (statusJson 404 (Text "Not Found"), st)
  | r :: rest =>
      if Method_eqb (r_method r) (method req) then
        match matchPath (r_path r) (path req) with
        | Some params => runRoute r params req st
        | None => dispatch rest req st
        end
      else dispatch rest req st
  end.

(** [req.params.id] *)
Definition param_id (params : list (string * string)) : string :=
  match lookupStr "id" params with
  | Some v => v
  | None => ""
  end.

(** ** Registration of routes *)

(** A value handed to [router.METHOD(path, ...)] before the handler: a
    middleware function, or something that cannot be called (here, the
    namespace object of a module, with the names it exports). *)
Inductive Callback (B : Type) :=
| Callable (m : Middleware B)
| ModuleNamespace (exports : list string).
Arguments Callable {B} m.
Arguments ModuleNamespace {B} exports.

(** One call [router.METHOD(path, callbacks, handler)] of a module. *)
Record Registration (B : Type) := mkRegistration {
  g_method : Method;
  g_path : list Segment;
  g_callbacks : list (Callback B);
  g_handler : Handler B
}.
Arguments mkRegistration {B} _ _ _ _.
Arguments g_method {B} _.
Arguments g_path {B} _.
Arguments g_callbacks {B} _.
Arguments g_handler {B} _.

(** The middleware of a registration, when every callback is a
    function. *)
Fixpoint functions {B} (cs : list (Callback B)) : option (list (Middleware B)) :=
  match cs with
  | [] => Some []
  | Callable m :: rest => option_map (cons m) (functions rest)
  | ModuleNamespace _ :: _ => None
  end.

(** What the evaluation of a router module gives: the router it exports,
    or an exception thrown by one of its [router.METHOD] calls. *)
Inductive Mounted (B : Type) :=
| Exported (router : Router B)
| Thrown (m : Method) (p : list Segment).
Arguments Exported {B} router.
Arguments Thrown {B} m p.

(** Express checks the callbacks of [router.METHOD] when the route is
    registered and throws on one that is not a function; the module is
    evaluated top down, so the first such call ends it and nothing is
    exported. *)
Fixpoint mount {B} (calls : list (Registration B)) : Mounted B :=
  match calls with
  | [] => Exported []
  | g :: rest =>
      match functions (g_callbacks g) with
      | None => Thrown (g_method g) (g_path g)
      | Some guards =>
          match mount rest with
          | Exported router =>
              Exported (mkRoute (g_method g) (g_path g) guards (g_handler g) :: router)
          | Thrown m p => Thrown m p
          end
      end
  end.

(** ** middleware/auth.js *)

Record JwtPayload := mkJwt {
  jwt_id : string;
  jwt_iat : Z
}.

Module User.
Definition findById : string -> Async (option UserDoc.t) := Query.findById.
End User.

Section AccessGuard.

(** [jwt.verify(token, secret)]: [None] when it throws. *)
Variable jwt_verify : string -> option JwtPayload.
(** [currentUser.changedPasswordAfter(iat)], a method of the User model. *)
Variable changedPasswordAfter : UserDoc.t -> Z -> bool.

Definition unauthorized (message : string) : Response :=
  statusJson 401 (Data (JObj [("success", JBool false); ("message", JStr message)])).

(** The token read from the header or, failing that, from the cookie. *)
Definition getToken {B} (req : Request B) : option string :=
  match authorization req with
  | Some h =>
      if JS.truthy (Some h) && JS.startsWith h "Bearer"
      then nth_error (JS.split " " h) 1
      else cookieToken req
  | None => cookieToken req
  end.

Definition protect {B} : Middleware B := fun req st =>
  let token := getToken req in
  if negb (JS.truthy token) then
    Halt (unauthorized "Not authorized to access this route. No token provided.")
  else
    let invalid :=
      Halt (unauthorized "Not authorized to access this route. Invalid token.") in
    match jwt_verify (JS.orElse token "") with
    | None => invalid
    | Some decoded =>
        match fst (User.findById (jwt_id decoded) st) with
        | Rejected _ => invalid
        | Resolved None =>
            Halt (unauthorized "The user belonging to this token no longer exists.")
        | Resolved (Some currentUser) =>
            if changedPasswordAfter currentUser (jwt_iat decoded) then
              Halt (unauthorized "User recently changed password! Please log in again.")
            else Next currentUser
        end
    end.

End AccessGuard.

(** ** Schema validation shared by the models *)

Module Schema.

(** The [trim] setter of a String path. *)
Definition trimmed (v : option string) : option string := option_map JS.trim v.

Definition valueOf (v : option string) : string :=
  match v with Some s => s | None => "" end.

(** [required: true] on a String path: the value must be a non-empty
    string. *)
Definition requiredError (p : string) (v : option string)
  : list (string * string) :=
  if JS.truthy v then [] else [(p, "Path `" ++ p ++ "` is required.")].

(** [enum: [...]]: validators do not run on an undefined value. *)
Definition enumError (p : string) (values : list string) (v : option string)
  : list (string * string) :=
  match v with
  | None => []
  | Some s =>
      if JS.includes values s then []
      else [(p, "`" ++ s ++ "` is not a valid enum value for path `" ++ p ++ "`.")]
  end.

Definition duplicateKey {A} (key : string) : Async A :=
  throw (MongoServerError 11000 key).

End Schema.

(** ** models/MessageTemplate.js *)

Module MessageTemplate.
Import Schema.

(** The object given to [new MessageTemplate({...})], and the update
    object given to [findByIdAndUpdate]. *)
Record Fields := mkFields {
  name : option string;
  subject : option string;
  content : option string;
  type : option string
}.

Definition typeEnum : list string := ["ALERT"; "NOTIFICATION"; "PROMOTIONAL"].

Definition cast (d : Fields) : Fields :=
  mkFields (trimmed (name d)) (trimmed (subject d)) (trimmed (content d)) (type d).

(** Validation of a whole document (on [save]). *)
Definition validate (d : Fields) : list (string * string) :=
  requiredError "name" (name d) ++ requiredError "subject" (subject d)
  ++ requiredError "content" (content d) ++ enumError "type" typeEnum (type d).

(** Update validators ([runValidators: true]) look at the paths the
    update sets. *)
Definition validateSet (p : string) (v : option string) : list (string * string) :=
  match v with
  | None => []
  | Some _ => requiredError p v
  end.

Definition validateUpdate (u : Fields) : list (string * string) :=
  validateSet "name" (name u) ++ validateSet "subject" (subject u)
  ++ validateSet "content" (content u) ++ enumError "type" typeEnum (type u).

(** [messageTemplateSchema.pre('save', ...)]: [this.updatedAt = Date.now()] *)
Definition preSave (now : Z) (t : TemplateDoc.t) : TemplateDoc.t :=
  TemplateDoc.mk (TemplateDoc._id t) (TemplateDoc.name t) (TemplateDoc.subject t)
    (TemplateDoc.content t) (TemplateDoc.type t) (TemplateDoc.createdAt t) now.

(** [new MessageTemplate(d).save()]: defaults, validation, the save hook,
    insertion. *)
Definition save (d : Fields) (now : Z) (id : ObjectId) : Async TemplateDoc.t :=
  let d := cast d in
  let ty := match type d with None => Some "ALERT" | Some s => Some s end in
  let d := mkFields (name d) (subject d) (content d) ty in
  match validate d with
  | [] =>
      Query.insertOne
        (preSave now
           (TemplateDoc.mk id (valueOf (name d)) (valueOf (subject d))
              (valueOf (content d)) (valueOf (type d)) now now))
  | errs => throw (ValidationError errs)
  end.

Definition orKeep (v : option string) (old : string) : string :=
  match v with Some s => s | None => old end.

(** The paths of the update replace the stored values; nothing else of
    the document is touched. *)
Definition applyUpdate (u : Fields) (t : TemplateDoc.t) : TemplateDoc.t :=
  TemplateDoc.mk (TemplateDoc._id t)
    (orKeep (name u) (TemplateDoc.name t))
    (orKeep (subject u) (TemplateDoc.subject t))
    (orKeep (content u) (TemplateDoc.content t))
    (orKeep (type u) (TemplateDoc.type t))
    (TemplateDoc.createdAt t) (TemplateDoc.updatedAt t).

(** [findByIdAndUpdate(id, update, { new: true, runValidators: true })].
    It is a query: document middleware such as [pre('save')] does not
    run, and this schema registers no query middleware and no
    [timestamps] option. *)
Definition findByIdAndUpdate (id : string) (u : Fields)
  : Async (option TemplateDoc.t) :=
  match castObjectId id with
  | None => throw (CastError "ObjectId")
  | Some oid =>
      let u := cast u in
      match validateUpdate u with
      | [] =>
          found <- Query.findOne (Query.hasId oid) ;;
          match found with
          | None => ret None
          | Some t =>
              t' <- Query.replaceOne (applyUpdate u t) ;;
              ret (Some t')
          end
      | errs => throw (ValidationError errs)
      end
  end.

Definition findById : string -> Async (option TemplateDoc.t) := Query.findById.
Definition findByIdAndDelete : string -> Async (option TemplateDoc.t) :=
  Query.findByIdAndDelete.
Definition find : (TemplateDoc.t -> bool) -> Async (list TemplateDoc.t) :=
  Query.find.

End MessageTemplate.

(** ** Sorting of query results *)

Section Sorting.
Context {D : Type}.
Variable before : D -> D -> bool.

Fixpoint insertSorted (x : D) (l : list D) : list D :=
  match l with
  | [] => [x]
  | y :: r => if before x y then x :: l else y :: insertSorted x r
  end.

Definition sortWith (l : list D) : list D :=
  List.fold_right insertSorted [] l.
End Sorting.

(** [.sort({ createdAt: -1 })] *)
Definition newestFirst {D} (createdAt : D -> Z) : list D -> list D :=
  sortWith (fun a b => createdAt b <=? createdAt a).

(** ** routes/messageTemplates (second module of the customers file) *)

Module MessageTemplates.
Import MessageTemplate.

Definition Req := Request MessageTemplate.Fields.

Definition serverError (e : Exn) : Response :=
  statusJson 500
    (Data (JObj [("message", JStr "Server error"); ("error", JErrorMessage e)])).

Definition notFound : Response :=
  statusJson 404 (Data (JObj [("message", JStr "Message template not found")])).

(** [router.get('/')] *)
Definition list : Handler Fields := fun _ req _ =>
  tryCatch
    (templates <- MessageTemplate.find (fun _ => true) ;;
     ret (json (ManyTemplates (newestFirst TemplateDoc.createdAt templates))))
    serverError.

(** [router.post('/')] *)
Definition create : Handler Fields := fun _ req _ =>
  tryCatch
    (let name := name (body req) in
     let subject := subject (body req) in
     let content := content (body req) in
     let type := match type (body req) with
                 | None => Some "ALERT"
                 | Some t => Some t
                 end in
     if negb (JS.truthy name) || negb (JS.truthy subject) || negb (JS.truthy content)
     then ret (statusJson 400
                 (Data (JObj [("message", JStr "Name, subject, and content are required")])))
     else
       savedTemplate <-
         MessageTemplate.save (mkFields name subject content type) (now req) (freshId req) ;;
       ret (statusJson 201 (OneTemplate savedTemplate)))
    serverError.

(** [if (x) updateData.x = x] *)
Definition provided (v : option string) : option string :=
  if JS.truthy v then v else None.

(** [router.put('/:id')] *)
Definition update : Handler Fields := fun params req _ =>
  tryCatch
    (let updateData :=
       mkFields (provided (name (body req))) (provided (subject (body req)))
                (provided (content (body req))) (provided (type (body req))) in
     updatedTemplate <- MessageTemplate.findByIdAndUpdate (param_id params) updateData ;;
     match updatedTemplate with
     | None => ret notFound
     | Some t => ret (json (OneTemplate t))
     end)
    serverError.

(** [router.delete('/:id')] *)
Definition remove : Handler Fields := fun params req _ =>
  tryCatch
    (deletedTemplate <- MessageTemplate.findByIdAndDelete (param_id params) ;;
     match deletedTemplate with
     | None => ret notFound
     | Some _ =>
         ret (json (Data (JObj [("message", JStr "Message template deleted successfully")])))
     end)
    serverError.

(** [router.post('/:id/test')]: the handler logs what would be sent and
    answers with the template's subject and content. *)
Definition sendTest : Handler Fields := fun params req _ =>
  tryCatch
    (template <- MessageTemplate.findById (param_id params) ;;
     match template with
     | None => ret notFound
     | Some t =>
         ret (json (Data (JObj
                [("success", JBool true);
                 ("message", JStr "Test message sent successfully");
                 ("template",
                  JObj [("subject", JStr (TemplateDoc.subject t));
                        ("content", JStr (TemplateDoc.content t))])])))
     end)
    serverError.

Definition router : Router Fields :=
  [ mkRoute GET [] [] list;
    mkRoute POST [] [] create;
    mkRoute PUT [Param "id"] [] update;
    mkRoute DELETE [Param "id"] [] remove;
    mkRoute POST [Param "id"; Lit "test"] [] sendTest ].

End MessageTemplates.

(** ** models/Form.js *)

Module Form.
Import Schema.

Record Fields := mkFields {
  name : option string;
  url : option string
}.

(** An equality condition [{ path: v }] of a filter on a trimmed String
    path; an undefined [v] selects no stored form. *)
Definition matches (v : option string) (stored : string) : bool :=
  match trimmed v with
  | Some s => (s =? stored)%string
  | None => false
  end.

(** [{ $or: [{ name }, { url }] }] *)
Definition nameOrUrl (name url : option string) (f : FormDoc.t) : bool :=
  matches name (FormDoc.name f) || matches url (FormDoc.url f).

Definition validate (d : Fields) : list (string * string) :=
  requiredError "name" (name d) ++ requiredError "url" (url d).

(** The two unique indexes: the key another form already holds. *)
Definition clash (self : ObjectId) (n u : string) (l : list FormDoc.t)
  : option string :=
  if existsb (fun f => negb (Query.hasId self f) && (FormDoc.name f =? n)%string) l
  then Some "name"
  else if existsb (fun f => negb (Query.hasId self f) && (FormDoc.url f =? u)%string) l
  then Some "url"
  else None.

(** [formSchema.pre('save', ...)]: [this.updatedAt = Date.now()] *)
Definition preSave (now : Z) (f : FormDoc.t) : FormDoc.t :=
  FormDoc.mk (FormDoc._id f) (FormDoc.name f) (FormDoc.url f) (FormDoc.createdAt f) now.

Definition store (isNew : bool) (f : FormDoc.t) : Async FormDoc.t :=
  fun st =>
    match clash (FormDoc._id f) (FormDoc.name f) (FormDoc.url f) (forms st) with
    | Some key => duplicateKey key st
    | None => if isNew then Query.insertOne f st else Query.replaceOne f st
    end.

(** [new Form({ name, url }).save()] *)
Definition save (d : Fields) (now : Z) (id : ObjectId) : Async FormDoc.t :=
  let d := mkFields (trimmed (name d)) (trimmed (url d)) in
  match validate d with
  | [] => store true (preSave now (FormDoc.mk id (valueOf (name d)) (valueOf (url d)) now now))
  | errs => throw (ValidationError errs)
  end.

(** [form.name = name; form.url = url; await form.save()] *)
Definition assignAndSave (form : FormDoc.t) (d : Fields) (now : Z)
  : Async FormDoc.t :=
  let d := mkFields (trimmed (name d)) (trimmed (url d)) in
  match validate d with
  | [] =>
      store false
        (preSave now
           (FormDoc.mk (FormDoc._id form) (valueOf (name d)) (valueOf (url d))
              (FormDoc.createdAt form) (FormDoc.updatedAt form)))
  | errs => throw (ValidationError errs)
  end.

Definition find : (FormDoc.t -> bool) -> Async (list FormDoc.t) := Query.find.
Definition findOne : (FormDoc.t -> bool) -> Async (option FormDoc.t) := Query.findOne.
Definition findById : string -> Async (option FormDoc.t) := Query.findById.
Definition findByIdAndDelete : string -> Async (option FormDoc.t) :=
  Query.findByIdAndDelete.

End Form.

(** ** routes/forms.js *)

Module Forms.

Record ReqBody := mkBody {
  name : option string;
  url : option string;
  id : option string
}.

Section Guarded.
Variable jwt_verify : string -> option JwtPayload.
Variable changedPasswordAfter : UserDoc.t -> Z -> bool.

Definition serverError (_ : Exn) : Response := statusJson 500 (Text "Server Error").

Definition duplicate : Response :=
  statusJson 400 (Data (JObj [("msg", JStr "A form with this name or URL already exists")])).

(** [router.get('/')], sorted by name. *)
Definition list : Handler ReqBody := fun _ req _ =>
  tryCatch
    (forms <- Form.find (fun _ => true) ;;
     ret (json (ManyForms
            (sortWith (fun a b => String.leb (FormDoc.name a) (FormDoc.name b)) forms))))
    serverError.

(** [router.post('/')]: the [check(...)] chains are registered but the
    handler never reads [validationResult]. *)
Definition createOrUpdate : Handler ReqBody := fun _ req _ =>
  tryCatch
    (let name := name (body req) in
     let url := url (body req) in
     form <- Form.findOne (Form.nameOrUrl name url) ;;
     if JS.truthy (id (body req)) then
       let id := Schema.valueOf (id (body req)) in
       form <- Form.findById id ;;
       match form with
       | None => ret (statusJson 404 (Data (JObj [("msg", JStr "Form not found")])))
       | Some form =>
           existingForm <-
             Form.findOne (fun f => negb (Query.hasId (FormDoc._id form) f)
                                    && Form.nameOrUrl name url f) ;;
           match existingForm with
           | Some _ => ret duplicate
           | None =>
               form <- Form.assignAndSave form (Form.mkFields name url) (now req) ;;
               ret (json (OneForm form))
           end
       end
     else
       match form with
       | Some _ => ret duplicate
       | None =>
           form <- Form.save (Form.mkFields name url) (now req) (freshId req) ;;
           ret (json (OneForm form))
       end)
    serverError.

(** [router.delete('/:id')] *)
Definition remove : Handler ReqBody := fun params req _ =>
  tryCatch
    (form <- Form.findById (param_id params) ;;
     match form with
     | None => ret (statusJson 404 (Data (JObj [("message", JStr "Form not found")])))
     | Some _ =>
         Form.findByIdAndDelete (param_id params) ;;;
         ret (json (Data (JObj [("message", JStr "Form removed")])))
     end)
    (fun _ => statusJson 500 (Data (JObj [("message", JStr "Server Error")]))).

Definition router : Router ReqBody :=
  [ mkRoute GET [] [protect jwt_verify changedPasswordAfter] list;
    mkRoute POST [] [protect jwt_verify changedPasswordAfter] createOrUpdate;
    mkRoute DELETE [Param "id"] [protect jwt_verify changedPasswordAfter] remove ].

End Guarded.
End Forms.

(** ** models/FormCategory.js *)

Module FormCategory.
Import Schema.

(** The object given to [new FormCategory({...})]. *)
Record Draft := mkDraft {
  name : option string;
  description : option string;
  createdBy : ObjectId
}.

(** The [$set] object of an update. *)
Record Update := mkUpdate {
  u_name : option string;
  u_updatedBy : ObjectId;
  u_description : option string;
  u_isActive : option bool
}.

(** [{ name }] as a filter: the value is cast with the path's setter. *)
Definition named (v : option string) (c : CategoryDoc.t) : bool :=
  match trimmed v with
  | Some s => (s =? CategoryDoc.name c)%string
  | None => false
  end.

(** The unique index on [name]. *)
Definition clash (self : ObjectId) (n : string) (l : list CategoryDoc.t) : bool :=
  existsb (fun c => negb (Query.hasId self c) && (CategoryDoc.name c =? n)%string) l.

(** [new FormCategory(d).save()]; [timestamps: true] stamps both dates. *)
Definition save (d : Draft) (now : Z) (id : ObjectId) : Async CategoryDoc.t :=
  let name := trimmed (name d) in
  match requiredError "name" name with
  | [] =>
      fun st =>
        if clash id (valueOf name) (formCategories st) then duplicateKey "name" st
        else
          Query.insertOne
            (CategoryDoc.mk id (valueOf name) (trimmed (description d)) true
               (createdBy d) None now now) st
  | errs => throw (ValidationError errs)
  end.

Definition applyUpdate (u : Update) (now : Z) (c : CategoryDoc.t) : CategoryDoc.t :=
  CategoryDoc.mk (CategoryDoc._id c)
    (match trimmed (u_name u) with Some s => s | None => CategoryDoc.name c end)
    (match trimmed (u_description u) with
     | Some s => Some s
     | None => CategoryDoc.description c
     end)
    (match u_isActive u with Some b => b | None => CategoryDoc.isActive c end)
    (CategoryDoc.createdBy c)
    (Some (u_updatedBy u))
    (CategoryDoc.createdAt c)
    now.

(** [findByIdAndUpdate(id, { $set: u }, { new: true })]: no validators
    run; [timestamps: true] refreshes [updatedAt]. *)
Definition findByIdAndUpdate (id : string) (u : Update) (now : Z)
  : Async (option CategoryDoc.t) :=
  match castObjectId id with
  | None => throw (CastError "ObjectId")
  | Some oid =>
      found <- Query.findOne (Query.hasId oid) ;;
      match found with
      | None => ret None
      | Some c =>
          let c' := applyUpdate u now c in
          fun st =>
            if clash oid (CategoryDoc.name c') (formCategories st)
            then duplicateKey "name" st
            else (t <- Query.replaceOne c' ;; ret (Some t)) st
      end
  end.

Definition find : (CategoryDoc.t -> bool) -> Async (list CategoryDoc.t) := Query.find.
Definition findOne : (CategoryDoc.t -> bool) -> Async (option CategoryDoc.t) :=
  Query.findOne.
Definition findById : string -> Async (option CategoryDoc.t) := Query.findById.
Definition findByIdAndRemove : string -> Async (option CategoryDoc.t) :=
  Query.findByIdAndDelete.

End FormCategory.

(** ** models/FormSubCategory.js *)

Module FormSubCategory.
Import Schema.

(** A candidate field definition as it arrives in the request body. *)
Record FieldInput := mkField {
  name : option string;
  fieldType : option string;
  options : option (list string);
  required : option bool
}.

Record Draft := mkDraft {
  d_name : option string;
  d_categoryId : option string;
  d_description : option string;
  d_fields : list FieldInput;
  d_createdBy : ObjectId
}.

Record Update := mkUpdate {
  u_name : option string;
  u_categoryId : option string;
  u_fields : list FieldInput;
  u_updatedBy : ObjectId;
  u_description : option string;
  u_isActive : option bool
}.

Definition fieldTypeEnum : list string :=
  ["text"; "number"; "date"; "select"; "checkbox"; "radio"; "textarea"].

(** Casting of one embedded field: the [trim] setters and the default of
    [required]. *)
Definition castField (f : FieldInput) : FieldDoc.t :=
  FieldDoc.mk (trimmed (name f)) (fieldType f)
    (match options f with Some l => List.map JS.trim l | None => [] end)
    (match required f with Some b => b | None => false end).

Definition index (i : nat) : string := NilZero.string_of_uint (Nat.to_uint i).

(** Validators of the embedded schema: [name] required, [fieldType]
    required and in the enum. *)
Definition validateField (i : nat) (f : FieldDoc.t) : list (string * string) :=
  (requiredError ("fields." ++ index i ++ ".name") (FieldDoc.name f)
   ++ requiredError ("fields." ++ index i ++ ".fieldType") (FieldDoc.fieldType f)
   ++ enumError ("fields." ++ index i ++ ".fieldType") fieldTypeEnum (FieldDoc.fieldType f))%list.

Fixpoint validateFields (i : nat) (l : list FieldDoc.t) : list (string * string) :=
  match l with
  | [] => []
  | f :: r => (validateField i f ++ validateFields (S i) r)%list
  end.

(** [{ name, categoryId }] as a filter. *)
Definition inCategory (oid : ObjectId) (s : SubCategoryDoc.t) : bool :=
  (SubCategoryDoc.categoryId s =? oid)%string.

Definition named (v : option string) (s : SubCategoryDoc.t) : bool :=
  match trimmed v with
  | Some n => (n =? SubCategoryDoc.name s)%string
  | None => false
  end.

Definition nameAndCategory (name : option string) (categoryId : string)
  (s : SubCategoryDoc.t) : bool :=
  match castObjectId categoryId with
  | Some oid => named name s && inCategory oid s
  | None => false
  end.

(** The compound unique index on (name, categoryId). *)
Definition clash (self : ObjectId) (n : string) (cat : ObjectId)
  (l : list SubCategoryDoc.t) : bool :=
  existsb (fun s => negb (Query.hasId self s)
                    && (SubCategoryDoc.name s =? n)%string && inCategory cat s) l.

(** [new FormSubCategory(d).save()] *)
Definition save (d : Draft) (now : Z) (id : ObjectId) : Async SubCategoryDoc.t :=
  let name := trimmed (d_name d) in
  let fields := List.map castField (d_fields d) in
  match d_categoryId d with
  | None => throw (ValidationError (requiredError "categoryId" None))
  | Some c =>
      match castObjectId c with
      | None => throw (ValidationError [("categoryId", "Cast to ObjectId failed")])
      | Some cat =>
          match (requiredError "name" name ++ validateFields 0 fields)%list with
          | [] =>
              fun st =>
                if clash id (valueOf name) cat (formSubCategories st)
                then duplicateKey "name_1_categoryId_1" st
                else
                  Query.insertOne
                    (SubCategoryDoc.mk id (valueOf name) cat (trimmed (d_description d))
                       true fields (d_createdBy d) None now now) st
          | errs => throw (ValidationError errs)
          end
      end
  end.

Definition applyUpdate (u : Update) (cat : ObjectId) (now : Z)
  (s : SubCategoryDoc.t) : SubCategoryDoc.t :=
  SubCategoryDoc.mk (SubCategoryDoc._id s)
    (match trimmed (u_name u) with Some n => n | None => SubCategoryDoc.name s end)
    cat
    (match trimmed (u_description u) with
     | Some x => Some x
     | None => SubCategoryDoc.description s
     end)
    (match u_isActive u with Some b => b | None => SubCategoryDoc.isActive s end)
    (List.map castField (u_fields u))
    (SubCategoryDoc.createdBy s)
    (Some (u_updatedBy u))
    (SubCategoryDoc.createdAt s)
    now.

(** [findByIdAndUpdate(id, { $set: u }, { new: true })]: the update is
    cast, but no [runValidators] option is given, so the schema
    validators do not run. *)
Definition findByIdAndUpdate (id : string) (u : Update) (now : Z)
  : Async (option SubCategoryDoc.t) :=
  match castObjectId id, castObjectId (valueOf (u_categoryId u)) with
  | Some oid, Some cat =>
      found <- Query.findOne (Query.hasId oid) ;;
      match found with
      | None => ret None
      | Some s =>
          let s' := applyUpdate u cat now s in
          fun st =>
            if clash oid (SubCategoryDoc.name s') cat (formSubCategories st)
            then duplicateKey "name_1_categoryId_1" st
            else (t <- Query.replaceOne s' ;; ret (Some t)) st
      end
  | _, _ => throw (CastError "ObjectId")
  end.

Definition find : (SubCategoryDoc.t -> bool) -> Async (list SubCategoryDoc.t) :=
  Query.find.
Definition findOne : (SubCategoryDoc.t -> bool) -> Async (option SubCategoryDoc.t) :=
  Query.findOne.
Definition findById : string -> Async (option SubCategoryDoc.t) := Query.findById.
Definition findByIdAndRemove : string -> Async (option SubCategoryDoc.t) :=
  Query.findByIdAndDelete.

End FormSubCategory.

(** ** [populate] *)

Module Populate.

Definition userRef (st : Store) (oid : ObjectId) : option (string * string) :=
  match List.find (Query.hasId oid) (users st) with
  | Some u => Some (UserDoc.name u, UserDoc.email u)
  | None => None
  end.

Definition categoryName (st : Store) (oid : ObjectId) : option string :=
  match List.find (Query.hasId oid) (formCategories st) with
  | Some c => Some (CategoryDoc.name c)
  | None => None
  end.

Definition optUser (st : Store) (o : option ObjectId) : option (string * string) :=
  match o with Some oid => userRef st oid | None => None end.

(** [.populate('createdBy', 'name email').populate('updatedBy', 'name email')] *)
Definition category (c : CategoryDoc.t) : Async (CategoryDoc.t * Populated) :=
  fun st =>
    (Resolved (c, mkPopulated None (userRef st (CategoryDoc.createdBy c))
                    (optUser st (CategoryDoc.updatedBy c))), st).

(** [populate] of a subcategory on the paths asked for. *)
Definition subcategory (withCreator withUpdater : bool) (s : SubCategoryDoc.t)
  : Async (SubCategoryDoc.t * Populated) :=
  fun st =>
    (Resolved
       (s, mkPopulated
             (categoryName st (SubCategoryDoc.categoryId s))
             (if withCreator then userRef st (SubCategoryDoc.createdBy s) else None)
             (if withUpdater then optUser st (SubCategoryDoc.updatedBy s) else None)),
     st).

Fixpoint each {A B} (f : A -> Async B) (l : list A) : Async (list B) :=
  match l with
  | [] => ret []
  | a :: r => b <- f a ;; bs <- each f r ;; ret (b :: bs)
  end.

End Populate.

(** ** express-validator checks read through [validationResult(req)] *)

Module Validator.

(** [check(field, msg).not().isEmpty()] *)
Definition notEmpty (msg : string) (v : option string) : list string :=
  if JS.truthy v then [] else [msg].

(** [check(field, msg).isArray()] *)
Definition isArray {A} (msg : string) (v : option (list A)) : list string :=
  match v with Some _ => [] | None => [msg] end.

Definition isEmpty (errors : list string) : bool :=
  match errors with [] => true | _ => false end.

End Validator.

(** [req.user], set by the access guard. *)
Definition currentUser (user : option UserDoc.t) : Async UserDoc.t :=
  match user with
  | Some u => ret u
  | None => throw TypeError
  end.

(** ** routes/formSubCategories (second module of routes/forms.js) *)

Module FormSubCategories.
Import FormSubCategory.

Record ReqBody := mkBody {
  name : option string;
  categoryId : option string;
  description : option string;
  fields : option (list FieldInput);
  isActive : option bool
}.

Definition serverError (_ : Exn) : Response := statusJson 500 (Text "Server Error").

Definition notFound : Response :=
  statusJson 404 (Data (JObj [("msg", JStr "Form subcategory not found")])).

Definition categoryNotFound : Response :=
  statusJson 404 (Data (JObj [("msg", JStr "Form category not found")])).

Definition duplicateName : Response :=
  statusJson 400
    (Data (errorsOf
       ["Form subcategory with this name already exists in the selected category"])).

(** [if (err.kind === 'ObjectId') return 404; else 500] *)
Definition notFoundOnBadId (e : Exn) : Response :=
  match e with
  | CastError "ObjectId" => notFound
  | _ => serverError e
  end.

Definition validationErrors (b : ReqBody) : list string :=
  (Validator.notEmpty "Name is required" (name b)
   ++ Validator.notEmpty "Category ID is required" (categoryId b)
   ++ Validator.isArray "Fields array is required" (fields b))%list.

Definition choiceTypes : list string := ["select"; "radio"; "checkbox"].

(** [!field.options || field.options.length === 0] *)
Definition noOptions (f : FieldInput) : bool :=
  match options f with
  | None => true
  | Some l => Nat.eqb (List.length l) 0
  end.

(** The body of the [for (const field of fields)] loop of the create and
    of the update handler (the two loops are the same text): the
    response the loop returns on this field, if it returns. *)
Definition refusal (field : FieldInput) : option Response :=
  if negb (JS.truthy (FormSubCategory.name field))
     || negb (JS.truthy (fieldType field))
  then Some (statusJson 400
               (Data (errorsOf ["Field name and type are required for all fields"])))
  else if JS.includes choiceTypes (Schema.valueOf (fieldType field))
          && noOptions field
  then Some (statusJson 400
               (Data (errorsOf
                  ["Options are required for field type: "
                   ++ Schema.valueOf (fieldType field)])))
  else None.

(** The loop: the response of the first field that is refused, if any. *)
Fixpoint validateFields (fields : list FieldInput) : option Response :=
  match fields with
  | [] => None
  | field :: rest =>
      match refusal field with
      | Some response => Some response
      | None => validateFields rest
      end
  end.

Definition fieldsOf (b : ReqBody) : list FieldInput :=
  match fields b with Some l => l | None => [] end.

(** [router.get('/')] with the optional [categoryId] filter. *)
Definition list : Handler ReqBody := fun _ req _ =>
  tryCatch
    (let categoryId := lookupStr "categoryId" (query req) in
     subcategories <-
       (if JS.truthy categoryId then
          match castObjectId (Schema.valueOf categoryId) with
          | Some oid => FormSubCategory.find (inCategory oid)
          | None => throw (CastError "ObjectId")
          end
        else FormSubCategory.find (fun _ => true)) ;;
     populated <- Populate.each (Populate.subcategory true true) subcategories ;;
     ret (json (ManySubCategories
            (newestFirst (fun p => SubCategoryDoc.createdAt (fst p)) populated))))
    serverError.

(** [router.get('/:id')] *)
Definition get : Handler ReqBody := fun params req _ =>
  tryCatch
    (subcategory <- FormSubCategory.findById (param_id params) ;;
     match subcategory with
     | None => ret notFound
     | Some s =>
         p <- Populate.subcategory true true s ;;
         ret (json (OneSubCategory (Some p)))
     end)
    notFoundOnBadId.

(** [router.post('/')] *)
Definition create : Handler ReqBody := fun _ req user st =>
  let errors := validationErrors (body req) in
  if negb (Validator.isEmpty errors) then
    (statusJson 400 (Data (errorsOf errors)), st)
  else
    tryCatch
      (let name := name (body req) in
       let categoryId := categoryId (body req) in
       let description := description (body req) in
       let fields := fieldsOf (body req) in
       category <- FormCategory.findById (Schema.valueOf categoryId) ;;
       match category with
       | None => ret categoryNotFound
       | Some _ =>
           existingSubCategory <-
             FormSubCategory.findOne (nameAndCategory name (Schema.valueOf categoryId)) ;;
           match existingSubCategory with
           | Some _ => ret duplicateName
           | None =>
               match validateFields fields with
               | Some refusal => ret refusal
               | None =>
                   u <- currentUser user ;;
                   subcategory <-
                     FormSubCategory.save
                       (mkDraft name categoryId (Some (JS.orElse description ""))
                          fields (UserDoc._id u))
                       (now req) (freshId req) ;;
                   found <- FormSubCategory.findOne
                              (Query.hasId (SubCategoryDoc._id subcategory)) ;;
                   match found with
                   | None => ret (json (OneSubCategory None))
                   | Some s =>
                       p <- Populate.subcategory true false s ;;
                       ret (json (OneSubCategory (Some p)))
                   end
               end
           end
       end)
      serverError st.

(** [router.put('/:id')] *)
Definition update : Handler ReqBody := fun params req user st =>
  let errors := validationErrors (body req) in
  if negb (Validator.isEmpty errors) then
    (statusJson 400 (Data (errorsOf errors)), st)
  else
    tryCatch
      (let name := name (body req) in
       let categoryId := categoryId (body req) in
       let fields := fieldsOf (body req) in
       subcategory <- FormSubCategory.findById (param_id params) ;;
       match subcategory with
       | None => ret notFound
       | Some subcategory =>
           category <- FormCategory.findById (Schema.valueOf categoryId) ;;
           match category with
           | None => ret categoryNotFound
           | Some _ =>
               existingSubCategory <-
                 (if negb (Schema.valueOf name =? SubCategoryDoc.name subcategory)%string
                     || negb (Schema.valueOf categoryId
                              =? SubCategoryDoc.categoryId subcategory)%string
                  then FormSubCategory.findOne
                         (fun s => nameAndCategory name (Schema.valueOf categoryId) s
                                   && negb (Query.hasId (SubCategoryDoc._id subcategory) s))
                  else ret None) ;;
               match existingSubCategory with
               | Some _ => ret duplicateName
               | None =>
                   match validateFields fields with
                   | Some refusal => ret refusal
                   | None =>
                       u <- currentUser user ;;
                       let subcategoryFields :=
                         mkUpdate name categoryId fields (UserDoc._id u)
                           (description (body req)) (isActive (body req)) in
                       updated <- FormSubCategory.findByIdAndUpdate
                                    (param_id params) subcategoryFields (now req) ;;
                       match updated with
                       | None => ret (json (OneSubCategory None))
                       | Some s =>
                           p <- Populate.subcategory false true s ;;
                           ret (json (OneSubCategory (Some p)))
                       end
                   end
               end
           end
       end)
      serverError st.

(** [router.delete('/:id')]; the check for dependent forms is commented
    out in the source. *)
Definition remove : Handler ReqBody := fun params req _ =>
  tryCatch
    (subcategory <- FormSubCategory.findById (param_id params) ;;
     match subcategory with
     | None => ret notFound
     | Some _ =>
         FormSubCategory.findByIdAndRemove (param_id params) ;;;
         ret (json (Data (JObj [("msg", JStr "Form subcategory removed")])))
     end)
    notFoundOnBadId.

(** [const auth = require('../middleware/auth')].  middleware/auth.js
    exports [protect] and [authorize] by name and has no default export,
    so what [require] gives is the namespace object of that module: not
    the guard, and not a function. *)
Definition auth : Callback ReqBody := ModuleNamespace ["protect"; "authorize"].

(** The [router.METHOD] calls of the module, in their order, with [guard]
    for the value of the name [auth]. *)
Definition registrations (guard : Callback ReqBody)
  : Datatypes.list (Registration ReqBody) :=
  [ mkRegistration GET [] [guard] list;
    mkRegistration GET [Param "id"] [guard] get;
    mkRegistration POST [] [guard] create;
    mkRegistration PUT [Param "id"] [guard] update;
    mkRegistration DELETE [Param "id"] [guard] remove ].

(** [module.exports = router] *)
Definition router : Mounted ReqBody := mount (registrations auth).

End FormSubCategories.

(** ** routes/formCategories (third module of routes/forms.js) *)

Module FormCategories.

Record ReqBody := mkBody {
  name : option string;
  description : option string;
  isActive : option bool
}.

(** The bindings the module declares at its top: [express], [router],
    [{ check, validationResult }], [auth] and [FormCategory]. *)
Definition moduleScope : list string :=
  ["express"; "router"; "check"; "validationResult"; "auth"; "FormCategory"].

(** Evaluation of a free identifier of a handler: an identifier that the
    module does not bind throws a [ReferenceError]. *)
Definition resolve (ident : string) : Async unit :=
  if JS.includes moduleScope ident then ret tt else throw (ReferenceError ident).

Definition serverError (_ : Exn) : Response := statusJson 500 (Text "Server Error").

Definition notFound : Response :=
  statusJson 404 (Data (JObj [("msg", JStr "Form category not found")])).

Definition hasDependents : Response :=
  statusJson 400
    (Data (errorsOf
       ["Cannot delete category with existing subcategories. Please delete subcategories first."])).

Definition validationErrors (b : ReqBody) : list string :=
  Validator.notEmpty "Name is required" (name b).

(** [router.get('/')] *)
Definition list : Handler ReqBody := fun _ req _ =>
  tryCatch
    (resolve "FormCategory" ;;;
     categories <- FormCategory.find (fun _ => true) ;;
     populated <- Populate.each Populate.category categories ;;
     ret (json (ManyCategories
            (newestFirst (fun p => CategoryDoc.createdAt (fst p)) populated))))
    serverError.

(** [router.post('/')] *)
Definition create : Handler ReqBody := fun _ req user st =>
  let errors := validationErrors (body req) in
  if negb (Validator.isEmpty errors) then
    (statusJson 400 (Data (errorsOf errors)), st)
  else
    tryCatch
      (let name := name (body req) in
       let description := description (body req) in
       resolve "FormCategory" ;;;
       category <- FormCategory.findOne (FormCategory.named name) ;;
       match category with
       | Some _ =>
           ret (statusJson 400 (Data (errorsOf ["Form category already exists"])))
       | None =>
           u <- currentUser user ;;
           category <-
             FormCategory.save
               (FormCategory.mkDraft name (Some (JS.orElse description ""))
                  (UserDoc._id u))
               (now req) (freshId req) ;;
           ret (json (OneCategory category))
       end)
      serverError st.

(** [router.put('/:id')] *)
Definition update : Handler ReqBody := fun params req user st =>
  let errors := validationErrors (body req) in
  if negb (Validator.isEmpty errors) then
    (statusJson 400 (Data (errorsOf errors)), st)
  else
    tryCatch
      (let name := name (body req) in
       resolve "FormCategory" ;;;
       category <- FormCategory.findById (param_id params) ;;
       match category with
       | None => ret notFound
       | Some category =>
           existingCategory <-
             (if negb (Schema.valueOf name =? CategoryDoc.name category)%string
              then FormCategory.findOne (FormCategory.named name)
              else ret None) ;;
           match existingCategory with
           | Some _ =>
               ret (statusJson 400
                      (Data (errorsOf ["Form category with this name already exists"])))
           | None =>
               u <- currentUser user ;;
               let categoryFields :=
                 FormCategory.mkUpdate name (UserDoc._id u)
                   (description (body req)) (isActive (body req)) in
               updated <- FormCategory.findByIdAndUpdate
                            (param_id params) categoryFields (now req) ;;
               match updated with
               | None => ret (json (Data JNull))
               | Some c => ret (json (OneCategory c))
               end
           end
       end)
      serverError st.

(** [router.delete('/:id')].  The handler names [FormSubCategory], which
    this module never requires. *)
Definition remove : Handler ReqBody := fun params req _ =>
  tryCatch
    (resolve "FormCategory" ;;;
     category <- FormCategory.findById (param_id params) ;;
     match category with
     | None => ret notFound
     | Some category =>
         resolve "FormSubCategory" ;;;
         subcategories <-
           FormSubCategory.find
             (FormSubCategory.inCategory (CategoryDoc._id category)) ;;
         if Nat.ltb 0 (List.length subcategories) then ret hasDependents
         else
           FormCategory.findByIdAndRemove (param_id params) ;;;
           ret (json (Data (JObj [("msg", JStr "Form category removed")])))
     end)
    serverError.

(** [const auth = require('../middleware/auth')]: as in the
    subcategories module, the namespace object of middleware/auth.js,
    which is not a function. *)
Definition auth : Callback ReqBody := ModuleNamespace ["protect"; "authorize"].

(** The [router.METHOD] calls of the module, in their order, with [guard]
    for the value of the name [auth]. *)
Definition registrations (guard : Callback ReqBody)
  : Datatypes.list (Registration ReqBody) :=
  [ mkRegistration GET [] [guard] list;
    mkRegistration POST [] [guard] create;
    mkRegistration PUT [Param "id"] [guard] update;
    mkRegistration DELETE [Param "id"] [guard] remove ].

(** [module.exports = router] *)
Definition router : Mounted ReqBody := mount (registrations auth).

End FormCategories.

(** ** routes/customers (first module of the customers file) *)

Module Customers.

(** [req.body], which both handlers spread whole into the data they hand
    to Mongoose: the keys of the five paths that the routes read or
    search (the handlers look at the value of [serviceCategoryUrl], which
    may be any JSON value; the other four go to Mongoose as they are),
    and every other key of the body ([_id], [createdAt], ...). *)
Record ReqBody := mkBody {
  name : option string;
  phone : option string;
  email : option string;
  address : option AddressDoc.t;
  serviceCategoryUrl : option JS.Value;
  rest : list (string * JS.Value)
}.

(** The [serviceCategoryUrl] entry of [updateData]: the key may be
    missing, or present and [undefined], or present with a string. *)
Inductive Entry :=
| Missing
| Undefined
| Value (s : string).

(** The block of the create handler on [customerData.serviceCategoryUrl]:
    the result is the value left in [customerData] ([None] once the key
    is deleted or when it never was there). *)
Definition normalizeOnCreate (serviceCategoryUrl : option string) : option string :=
  if JS.truthy serviceCategoryUrl then
    let trimmed := JS.trim (Schema.valueOf serviceCategoryUrl) in
    if (trimmed =? "")%string then None
    else if negb (JS.startsWith trimmed "http") then Some ("https://" ++ trimmed)
    else Some trimmed
  else serviceCategoryUrl.

(** The block of the update handler on [updateData.serviceCategoryUrl]. *)
Definition normalizeOnUpdate (serviceCategoryUrl : option string) : Entry :=
  match serviceCategoryUrl with
  | None => Missing
  | Some s =>
      if JS.truthy serviceCategoryUrl && negb (JS.trim s =? "")%string then
        let trimmed := JS.trim s in
        if negb (JS.startsWith trimmed "http") then Value ("https://" ++ trimmed)
        else Value trimmed
      else Undefined
  end.

(** What the String path [serviceCategoryUrl] holds for a falsy value
    that is not a string: [null] stays absent, [0] and [false] are cast
    to their strings. *)
Definition castFalsy (v : JS.Value) : option string :=
  match v with
  | JS.Num _ => Some "0"
  | JS.Bool _ => Some "false"
  | _ => None
  end.

(** The create block on any value of the key: it runs on a truthy value
    and calls [trim] on it, which only a string has; a falsy value goes
    to Mongoose as it is. *)
Definition urlOnCreate (v : option JS.Value) : Async (option string) :=
  match v with
  | None => ret None
  | Some (JS.Str s) => ret (normalizeOnCreate (Some s))
  | Some other =>
      if JS.truthyValue other then throw TypeError else ret (castFalsy other)
  end.

(** The update block on any value of the key: a truthy value that is not
    a string has no [trim]; a falsy one is set to [undefined]. *)
Definition urlOnUpdate (v : option JS.Value) : Async Entry :=
  match v with
  | None => ret Missing
  | Some (JS.Str s) => ret (normalizeOnUpdate (Some s))
  | Some other =>
      if JS.truthyValue other then throw TypeError else ret Undefined
  end.

Definition details (errors : list (string * string)) : Json :=
  JObj (List.map (fun e => (fst e, JStr (snd e))) errors).

Definition validationFailed (errors : list (string * string)) : Response :=
  statusJson 400
    (Data (JObj [("error", JStr "Validation failed"); ("details", details errors)])).

(** The [catch] block shared by the create and the update handler. *)
Definition onError (error : Exn) : Response :=
  match error with
  | MongoServerError 11000 field =>
      statusJson 400
        (Data (JObj [("error", JStr "Duplicate key error");
                     ("message", JStr (field ++ " already exists"));
                     ("field", JStr field)]))
  | ValidationError errors => validationFailed errors
  | _ =>
      statusJson 500
        (Data (JObj [("error", JStr "Server error"); ("message", JErrorMessage error)]))
  end.

Definition serverError (_ : Exn) : Response :=
  statusJson 500 (Data (JObj [("error", JStr "Server error")])).

Definition notFound : Response :=
  statusJson 404 (Data (JObj [("error", JStr "Customer not found")])).

Definition project (c : CustomerDoc.t) : CustomerProjection :=
  mkProjection (CustomerDoc._id c) (CustomerDoc.name c) (CustomerDoc.phone c)
    (CustomerDoc.email c) (CustomerDoc.address c).

Section WithSchema.

(** The validators and unique indexes of models/Customer.js, which is
    not among the sources, and the collaborators of the store.
    [validateSync] is [customer.validateSync()] for the document built
    from the data: the errors of the validators and of the casts of its
    keys. *)
Variable validateSync : ReqBody -> CustomerDoc.t -> list (string * string).
Variable validateUpdate : ReqBody -> list (string * string).
(** The unique indexes of the collection, that of [_id] among them. *)
Variable uniqueClash : CustomerDoc.t -> list CustomerDoc.t -> option string.
(** [{ $regex: q, $options: 'i' }]: the test the pattern compiles to,
    [None] when it is not a regular expression. *)
Variable regex_i : string -> option (string -> bool).
(** What an update that sets a path to [undefined] leaves in the stored
    document, from the value stored before. *)
Variable setToUndefined : option string -> option string.
(** What the other keys of the data make of the identifier and the
    creation date of a new document, from the fresh identifier and the
    time of the request: the schema decides which keys are paths and how
    their values are cast. *)
Variable onCreate : list (string * JS.Value) -> ObjectId * Z -> ObjectId * Z.
(** What an update with these other keys makes of the creation date of
    the stored document, or the error of the store (the identifier of a
    stored document cannot be changed, a value may not cast). *)
Variable onUpdate : list (string * JS.Value) -> CustomerDoc.t -> Outcome Z.

(** [new Customer(customerData)] *)
Definition construct (data : ReqBody) (url : option string) (now : Z) (id : ObjectId)
  : CustomerDoc.t :=
  let stamp := onCreate (rest data) (id, now) in
  CustomerDoc.mk (fst stamp) (name data) (phone data) (email data)
    (match address data with
     | Some a => a
     | None => AddressDoc.mk None None None
     end)
    url (snd stamp).

Definition save (data : ReqBody) (c : CustomerDoc.t) : Async CustomerDoc.t :=
  match validateSync data c with
  | [] =>
      fun st =>
        match uniqueClash c (customers st) with
        | Some key => Schema.duplicateKey key st
        | None => Query.insertOne c st
        end
  | errs => throw (ValidationError errs)
  end.

Definition orKeep {A} (v : option A) (old : option A) : option A :=
  match v with Some x => Some x | None => old end.

Definition applyUpdate (data : ReqBody) (url : Entry) (createdAt : Z)
  (c : CustomerDoc.t) : CustomerDoc.t :=
  CustomerDoc.mk (CustomerDoc._id c)
    (orKeep (name data) (CustomerDoc.name c))
    (orKeep (phone data) (CustomerDoc.phone c))
    (orKeep (email data) (CustomerDoc.email c))
    (match address data with Some a => a | None => CustomerDoc.address c end)
    (match url with
     | Missing => CustomerDoc.serviceCategoryUrl c
     | Undefined => setToUndefined (CustomerDoc.serviceCategoryUrl c)
     | Value s => Some s
     end)
    createdAt.

(** [findByIdAndUpdate(id, updateData, { new: true, runValidators: true,
    context: 'query' })] *)
Definition findByIdAndUpdate (id : string) (data : ReqBody) (url : Entry)
  : Async (option CustomerDoc.t) :=
  match castObjectId id with
  | None => throw (CastError "ObjectId")
  | Some oid =>
      match validateUpdate data with
      | [] =>
          found <- Query.findOne (Query.hasId oid) ;;
          match found with
          | None => ret None
          | Some c =>
              match onUpdate (rest data) c with
              | Rejected e => throw e
              | Resolved createdAt =>
                  let c' := applyUpdate data url createdAt c in
                  fun st =>
                    match uniqueClash c' (customers st) with
                    | Some key => Schema.duplicateKey key st
                    | None => (t <- Query.replaceOne c' ;; ret (Some t)) st
                    end
              end
          end
      | errs => throw (ValidationError errs)
      end
  end.

(** [router.get('/')] *)
Definition list : Handler ReqBody := fun _ req _ =>
  tryCatch
    (customers <- Query.find (fun _ : CustomerDoc.t => true) ;;
     ret (json (ManyCustomers (newestFirst CustomerDoc.createdAt customers))))
    serverError.

(** [router.get('/:id')] *)
Definition get : Handler ReqBody := fun params req _ =>
  tryCatch
    (customer <- Query.findById (param_id params) ;;
     match customer with
     | None => ret notFound
     | Some c => ret (json (OneCustomer c))
     end)
    serverError.

Definition fieldMatches (test : string -> bool) (v : option string) : bool :=
  match v with Some s => test s | None => false end.

(** The [$or] of the six [$regex] conditions. *)
Definition searchQuery (test : string -> bool) (c : CustomerDoc.t) : bool :=
  fieldMatches test (CustomerDoc.name c)
  || fieldMatches test (CustomerDoc.phone c)
  || fieldMatches test (CustomerDoc.email c)
  || fieldMatches test (AddressDoc.line1 (CustomerDoc.address c))
  || fieldMatches test (AddressDoc.city (CustomerDoc.address c))
  || fieldMatches test (AddressDoc.state (CustomerDoc.address c)).

(** [router.get('/search')] *)
Definition search : Handler ReqBody := fun _ req _ =>
  tryCatch
    (let q := lookupStr "q" (query req) in
     if negb (JS.truthy q) then
       ret (statusJson 400 (Data (JObj [("error", JStr "Search query is required")])))
     else
       match regex_i (Schema.valueOf q) with
       | None => throw (MongoServerError 51091 "$regex")
       | Some test =>
           customers <- Query.find (searchQuery test) ;;
           ret (json (ProjectedCustomers (List.map project (firstn 10 customers))))
       end)
    serverError.

(** [router.post('/')] *)
Definition create : Handler ReqBody := fun _ req _ =>
  tryCatch
    (let customerData := body req in
     serviceCategoryUrl <- urlOnCreate (serviceCategoryUrl customerData) ;;
     let customer := construct customerData serviceCategoryUrl (now req) (freshId req) in
     match validateSync customerData customer with
     | e :: errors => ret (validationFailed (e :: errors))
     | [] =>
         savedCustomer <- save customerData customer ;;
         ret (statusJson 201 (OneCustomer savedCustomer))
     end)
    onError.

(** [router.put('/:id')] *)
Definition update : Handler ReqBody := fun params req _ =>
  tryCatch
    (let updateData := body req in
     serviceCategoryUrl <- urlOnUpdate (serviceCategoryUrl updateData) ;;
     customer <- findByIdAndUpdate (param_id params) updateData serviceCategoryUrl ;;
     match customer with
     | None => ret notFound
     | Some c => ret (json (OneCustomer c))
     end)
    onError.

(** [router.delete('/:id')] *)
Definition remove : Handler ReqBody := fun params req _ =>
  tryCatch
    (customer <- Query.findByIdAndDelete (D := CustomerDoc.t) (param_id params) ;;
     match customer with
     | None => ret notFound
     | Some _ => ret (json (Data (JObj [("message", JStr "Customer deleted successfully")])))
     end)
    serverError.

(** The routes in the order of their registration; none has a guard. *)
Definition router : Router ReqBody :=
  [ mkRoute GET [] [] list;
    mkRoute GET [Param "id"] [] get;
    mkRoute GET [Lit "search"] [] search;
    mkRoute POST [] [] create;
    mkRoute PUT [Param "id"] [] update;
    mkRoute DELETE [Param "id"] [] remove ].

End WithSchema.
End Customers.

(** ** The rules of the specification, as it words them *)

Module SpecWords.
Import FormSubCategory.

(** Section 4.1: the name is non-empty after trimming, the type is one
    of the seven enumerated values, and a choice type comes with a
    non-empty options sequence. *)
Definition fieldAccepted (f : FieldInput) : bool :=
  JS.truthy (Schema.trimmed (name f))
  && JS.includes fieldTypeEnum (Schema.valueOf (fieldType f))
  && (if JS.includes ["select"; "radio"; "checkbox"] (Schema.valueOf (fieldType f))
      then match options f with Some (_ :: _) => true | _ => false end
      else true).


(** A stored field definition has a present (non-empty) name and a type
    among the seven. *)
Definition storedFieldValid (f : FieldDoc.t) : bool :=
  JS.truthy (FieldDoc.name f)
  && JS.includes fieldTypeEnum (Schema.valueOf (FieldDoc.fieldType f)).

End SpecWords.

(** ** What the route-level loop asks of a field *)

Module FieldRules.
Import FormSubCategory.

(** A string that is there and is not empty. *)
Definition present (v : option string) : Prop :=
  exists s, v = Some s /\ s <> "".

Definition hasOptions (f : FieldInput) : Prop :=
  exists o os, options f = Some (o :: os).

Definition accepted (f : FieldInput) : Prop :=
  present (name f) /\ present (fieldType f)
  /\ (forall t, fieldType f = Some t -> In t FormSubCategories.choiceTypes -> hasOptions f).


End FieldRules.

(** ** Requests without a usable credential *)

Module Credential.

(** The Authorization header is no bearer header: it is absent, or does
    not begin with "Bearer". *)
Definition noBearer (header : option string) : Prop :=
  match header with
  | Some h => JS.startsWith h "Bearer" = false
  | None => True
  end.


(** The request carries [token] as its credential: in the header
    [Authorization: Bearer <token>], or, when there is no bearer header,
    in the cookie. *)
Definition carries {B} (req : Request B) (token : string) : Prop :=
  token <> ""
  /\ ((authorization req = Some ("Bearer " ++ token)
       /\ ~ In " "%char (list_ascii_of_string token))
      \/ (noBearer (authorization req) /\ cookieToken req = Some token)).

(** The request carries a credential and [jwt.verify] throws on it. *)
Definition invalid {B} (jwt_verify : string -> option JwtPayload)
  (req : Request B) : Prop :=
  exists token, carries req token /\ jwt_verify token = None.



End Credential.

(** ** Sample data *)

Module Sample.

Definition adminId : ObjectId := "64b0000000000000000000aa".
Definition categoryId : ObjectId := "64b000000000000000000001".
Definition subCategoryId : ObjectId := "64b000000000000000000002".
Definition templateId : ObjectId := "64b000000000000000000003".
Definition customerId : ObjectId := "64b000000000000000000004".
Definition unusedId : ObjectId := "64b0000000000000000000ff".

Definition admin : UserDoc.t :=
  UserDoc.mk adminId "Admin" "admin@example.com" "admin".

Definition licences : CategoryDoc.t :=
  CategoryDoc.mk categoryId "Licences" None true adminId None 10 10.

Definition textField : FieldDoc.t := FieldDoc.mk (Some "holder") (Some "text") [] false.

Definition renewals : SubCategoryDoc.t :=
  SubCategoryDoc.mk subCategoryId "Renewals" categoryId None true [textField]
    adminId None 20 20.

Definition welcome : TemplateDoc.t :=
  TemplateDoc.mk templateId "Welcome" "Hello" "Welcome aboard" "ALERT" 100 100.

Definition smith : CustomerDoc.t :=
  CustomerDoc.mk customerId (Some "John Smith") (Some "5550100")
    (Some "john@example.com") (AddressDoc.mk (Some "1 Main St") (Some "Salem") None)
    None 30.

(** A store with one category and no subcategory. *)
Definition oneCategory : Store := mkStore [admin] [licences] [] [] [] [].

(** The same with a subcategory in the category. *)
Definition withSubCategory : Store := mkStore [admin] [licences] [renewals] [] [] [].

Definition withTemplate : Store := mkStore [admin] [] [] [] [] [welcome].

Definition withCustomer : Store := mkStore [admin] [] [] [] [smith] [].

(** A request that carries no credential, served at time 200. *)
Definition request {B} (m : Method) (p : list string)
  (q : list (string * string)) (b : B) : Request B :=
  mkRequest B m p None None q b 200 unusedId.

(** A field whose type is not one of the seven. *)
Definition oddField : FormSubCategory.FieldInput :=
  FormSubCategory.mkField (Some "colour") (Some "foo") None None.

Definition plainField : FormSubCategory.FieldInput :=
  FormSubCategory.mkField (Some "holder") (Some "text") None None.

(** Collaborators for the sample runs: no token verifies, no password
    was changed; a customer schema that accepts everything; a pattern
    matcher that knows no pattern. *)
Definition noToken : string -> option JwtPayload := fun _ => None.
Definition neverChanged : UserDoc.t -> Z -> bool := fun _ _ => false.
Definition anyCustomer : Customers.ReqBody -> CustomerDoc.t -> list (string * string) :=
  fun _ _ => [].
Definition anyUpdate : Customers.ReqBody -> list (string * string) := fun _ => [].
Definition noClash : CustomerDoc.t -> list CustomerDoc.t -> option string :=
  fun _ _ => None.
Definition noPattern : string -> option (string -> bool) := fun _ => None.
Definition dropped : option string -> option string := fun _ => None.
(** A strict schema without a path for any further key of the body. *)
Definition noPath : list (string * JS.Value) -> ObjectId * Z -> ObjectId * Z :=
  fun _ stamp => stamp.
Definition untouched : list (string * JS.Value) -> CustomerDoc.t -> Outcome Z :=
  fun _ c => Resolved (CustomerDoc.createdAt c).

(** A verifier that knows one token, issued to the admin at time 50. *)
Definition adminToken : string -> option JwtPayload :=
  fun token => if (token =? "admin-token")%string then Some (mkJwt adminId 50) else None.

(** A request that carries the given header and cookie. *)
Definition requestWith {B} (header cookie : option string) (m : Method)
  (p : list string) (b : B) : Request B :=
  mkRequest B m p header cookie [] b 200 unusedId.

End Sample.

(** ** Conditions on the store that the routes maintain *)

Module Invariant.

(** No document of the collection has the identifier yet. *)
Definition fresh {D} `{Collection D} (id : ObjectId) (st : Store) : Prop :=
  ~ In id (List.map idOf (coll st)).

(** models/Form.js: identifiers, names and urls are unique. *)
Definition formsUnique (st : Store) : Prop :=
  NoDup (List.map FormDoc._id (forms st))
  /\ NoDup (List.map FormDoc.name (forms st))
  /\ NoDup (List.map FormDoc.url (forms st)).

(** models/FormCategory: identifiers and names are unique. *)
Definition categoriesUnique (st : Store) : Prop :=
  NoDup (List.map CategoryDoc._id (formCategories st))
  /\ NoDup (List.map CategoryDoc.name (formCategories st)).

(** models/FormSubCategory: identifiers are unique, and so are the pairs
    (name, categoryId). *)
Definition subCategoriesUnique (st : Store) : Prop :=
  NoDup (List.map SubCategoryDoc._id (formSubCategories st))
  /\ NoDup (List.map (fun s => (SubCategoryDoc.name s, SubCategoryDoc.categoryId s))
              (formSubCategories st)).

(** Every subcategory belongs to a stored category. *)
Definition referential (st : Store) : Prop :=
  forall s, In s (formSubCategories st) ->
            exists c, In c (formCategories st)
                      /\ CategoryDoc._id c = SubCategoryDoc.categoryId s.

(** What one request does to a collection: nothing; or one insertion,
    at the end, of a document with the fresh identifier and the initial
    value of the kept paths; or the replacement in place of one stored
    document by one with the same identifier and the same kept paths; or
    the removal of documents. *)
Definition oneWrite {D K} (id : D -> ObjectId) (kept : D -> K)
  (freshId : ObjectId) (init : K) (old new : list D) : Prop :=
  new = old
  \/ (exists d, id d = freshId /\ kept d = init /\ new = (old ++ [d])%list)
  \/ (exists d d', In d old /\ id d' = id d /\ kept d' = kept d
                   /\ new = List.map (fun x => if (id x =? id d)%string then d' else x) old)
  \/ (exists p, new = List.filter p old).

End Invariant.

(** * Properties *)

(** ** Strings and truthiness *)

Lemma truthy_present (v : option string) :
  JS.truthy v = true <-> FieldRules.present v.
Proof.
  unfold JS.truthy, FieldRules.present. destruct v as [s|].
  - destruct (String.eqb_spec s ""); simpl; split.
    + discriminate.
    + intros (s' & Hs & Hne). injection Hs as <-. contradiction.
    + intros _. exists s. split; [reflexivity | assumption].
    + reflexivity.
  - split; [discriminate | intros (s & Hs & _); discriminate].
Qed.

Lemma includes_In (l : list string) (x : string) :
  JS.includes l x = true <-> In x l.
Proof.
  unfold JS.includes. rewrite existsb_exists. split.
  - intros (y & Hy & E). apply String.eqb_eq in E. subst. assumption.
  - intros H. exists x. split; [assumption | apply String.eqb_refl].
Qed.

(** ** The field validation loop of the subcategory routes *)

Lemma noOptions_hasOptions (f : FormSubCategory.FieldInput) :
  FormSubCategories.noOptions f = false <-> FieldRules.hasOptions f.
Proof.
  unfold FormSubCategories.noOptions, FieldRules.hasOptions.
  destruct (FormSubCategory.options f) as [[|o os]|]; simpl; split;
    try discriminate; try (intros (o' & os' & H); discriminate).
  - intros _. exists o, os. reflexivity.
  - reflexivity.
Qed.

Lemma refusal_accepted (f : FormSubCategory.FieldInput) :
  FormSubCategories.refusal f = None <-> FieldRules.accepted f.
Proof.
  unfold FormSubCategories.refusal, FieldRules.accepted.
  destruct (JS.truthy (FormSubCategory.name f)) eqn:Hn; cbn [negb orb].
  2:{ split; [discriminate|]. intros (Hp & _). apply truthy_present in Hp. congruence. }
  destruct (JS.truthy (FormSubCategory.fieldType f)) eqn:Ht; cbn [negb orb].
  2:{ split; [discriminate|]. intros (_ & Hp & _). apply truthy_present in Hp. congruence. }
  apply truthy_present in Hn. apply truthy_present in Ht.
  destruct Ht as (t & Et & Hne). rewrite Et. cbn [Schema.valueOf].
  destruct (JS.includes FormSubCategories.choiceTypes t) eqn:Hc; cbn [andb].
  - destruct (FormSubCategories.noOptions f) eqn:Ho.
    + split; [discriminate|]. intros (_ & _ & H).
      apply includes_In in Hc. specialize (H t eq_refl Hc).
      apply noOptions_hasOptions in H. congruence.
    + split; [|reflexivity]. intros _. repeat split; try assumption.
      * exists t. split; [reflexivity | assumption].
      * intros t' Et' _. apply noOptions_hasOptions. assumption.
  - split; [|reflexivity]. intros _. repeat split; try assumption.
    + exists t. split; [reflexivity | assumption].
    + intros t' Et' Hin. injection Et' as <-. apply includes_In in Hin. congruence.
Qed.

(** C4 (as stated, refuted).  A field named "colour" of type "foo" passes
    the loop of the routes although "foo" is not one of the seven
    enumerated types: acceptance by the loop is not equivalent to the
    three rules of the specification. *)
Lemma validateFields_accepts_unknown_type :
  ~ (forall fields,
        FormSubCategories.validateFields fields = None
        <-> forallb SpecWords.fieldAccepted fields = true).
Proof.
  intros H. specialize (H [Sample.oddField]).
  destruct H as [H _]. specialize (H eq_refl). vm_compute in H. discriminate.
Qed.

(** C4 (amended).  The loop accepts a sequence of candidate fields exactly
    when every field has a non-empty name (as given, untrimmed), a
    non-empty fieldType (any string) and, when the fieldType is select,
    radio or checkbox, a non-empty options sequence; otherwise its answer
    is the refusal of the first field, in input order, that breaks one of
    these. *)
Theorem validateFields_first_refusal (fields : list FormSubCategory.FieldInput) :
  (FormSubCategories.validateFields fields = None
   <-> Forall FieldRules.accepted fields)
  /\ (forall response,
        FormSubCategories.validateFields fields = Some response ->
        exists before field rest,
          fields = (before ++ field :: rest)%list
          /\ Forall FieldRules.accepted before
          /\ ~ FieldRules.accepted field
          /\ FormSubCategories.refusal field = Some response
          /\ status response = 400).
Proof.
  induction fields as [|f fs [IHa IHr]]; simpl.
  - split; [split; auto|discriminate].
  - destruct (FormSubCategories.refusal f) as [r|] eqn:Hf.
    + split.
      * split; [discriminate|]. intros H. inversion H as [|? ? Hacc _]; subst.
        apply refusal_accepted in Hacc. congruence.
      * intros response E. injection E as <-.
        exists [], f, fs. repeat split; auto.
        -- intros Hacc. apply refusal_accepted in Hacc. congruence.
        -- unfold FormSubCategories.refusal in Hf.
           repeat match type of Hf with
                  | (if ?c then _ else _) = _ => destruct c
                  end; inversion Hf; reflexivity.
    + apply refusal_accepted in Hf. split.
      * rewrite IHa. split; intros H.
        -- constructor; assumption.
        -- inversion H; assumption.
      * intros response E.
        destruct (IHr response E) as (before & field & rest & -> & Hb & Hn & Hr & Hs).
        exists (f :: before), field, rest. repeat split; auto.
Qed.

(** ** Deleting a form category *)

Lemma resolve_FormSubCategory (st : Store) :
  FormCategories.resolve "FormSubCategory" st
  = (Rejected (ReferenceError "FormSubCategory"), st).
Proof. reflexivity. Qed.

(** Whatever the identifier and the store, the delete handler of the
    categories module leaves the store as it was: either the category is
    not found, or the handler stops at the unbound [FormSubCategory]. *)
Lemma remove_category_keeps_store params req user (st : Store) :
  snd (FormCategories.remove params req user st) = st
  /\ status (fst (FormCategories.remove params req user st)) <> 200.
Proof.
  unfold FormCategories.remove, tryCatch, bind.
  cbn [FormCategories.resolve FormCategories.moduleScope JS.includes existsb
       String.eqb Ascii.eqb Bool.eqb orb ret throw].
  unfold FormCategory.findById, Query.findById.
  destruct (castObjectId (param_id params)) as [oid|]; cbn [throw].
  2:{ split; [reflexivity | discriminate]. }
  unfold Query.findOne.
  destruct (find (Query.hasId oid) (coll st)) as [c|]; cbn.
  - split; [reflexivity | discriminate].
  - split; [reflexivity | discriminate].
Qed.

(** C1 (the code departs from the claim).  With one category and no
    subcategory in the store, deleting that category answers 500 "Server
    Error" and the category stays; with a subcategory in it the answer is
    the same 500, not the 400 of HasDependents.  An identifier that is
    not in the store is answered 404. *)
Theorem deleteCategory_stops_at_unbound_model :
  let req := Sample.request DELETE [Sample.categoryId] []
               (FormCategories.mkBody None None None) in
  FormCategories.remove [("id", Sample.categoryId)] req (Some Sample.admin)
    Sample.oneCategory
  = (statusJson 500 (Text "Server Error"), Sample.oneCategory)
  /\ FormCategories.remove [("id", Sample.categoryId)] req (Some Sample.admin)
       Sample.withSubCategory
     = (statusJson 500 (Text "Server Error"), Sample.withSubCategory)
  /\ FormCategories.remove [("id", Sample.unusedId)] req (Some Sample.admin)
       Sample.oneCategory
     = (FormCategories.notFound, Sample.oneCategory).
Proof. repeat split. Qed.

(** ** Searching customers *)

Section CustomerRoutes.
Variable validateSync : Customers.ReqBody -> CustomerDoc.t -> list (string * string).
Variable validateUpdate : Customers.ReqBody -> list (string * string).
Variable uniqueClash : CustomerDoc.t -> list CustomerDoc.t -> option string.
Variable regex_i : string -> option (string -> bool).
Variable setToUndefined : option string -> option string.
Variable onCreate : list (string * JS.Value) -> ObjectId * Z -> ObjectId * Z.
Variable onUpdate : list (string * JS.Value) -> CustomerDoc.t -> Outcome Z.

Let router :=
  Customers.router validateSync validateUpdate uniqueClash regex_i setToUndefined
    onCreate onUpdate.

(** C3 (the code departs from the claim).  [GET /search] never reaches
    the search handler: the route [/:id] is registered before it and
    takes the request with [id = "search"], which is no ObjectId, so
    every search, whatever its query and whatever the store holds, is
    answered 500 "Server error". *)
Theorem search_is_shadowed_by_get_by_id
  (authorization cookie : option string) (query : list (string * string))
  (body : Customers.ReqBody) (now : Z) (freshId : ObjectId) (st : Store) :
  dispatch router
    (mkRequest _ GET ["search"] authorization cookie query body now freshId) st
  = (statusJson 500 (Data (JObj [("error", JStr "Server error")])), st).
Proof. reflexivity. Qed.

(** The handler that the route table never selects does refuse an empty
    query with 400. *)
Lemma search_handler_requires_query params req user (st : Store) :
  JS.truthy (lookupStr "q" (query req)) = false ->
  Customers.search regex_i params req user st
  = (statusJson 400 (Data (JObj [("error", JStr "Search query is required")])), st).
Proof.
  intros H. unfold Customers.search, tryCatch. rewrite H. reflexivity.
Qed.

End CustomerRoutes.

(** ** Message templates: what an update touches *)

(** No update of a template changes any stored [updatedAt]. *)
Lemma applyUpdate_keeps_updatedAt (u : MessageTemplate.Fields) (t : TemplateDoc.t) :
  TemplateDoc.updatedAt (MessageTemplate.applyUpdate u t) = TemplateDoc.updatedAt t.
Proof. reflexivity. Qed.

(** The save hook does refresh it: the hook exists, the update route does
    not go through it. *)
Lemma preSave_refreshes_updatedAt (now : Z) (t : TemplateDoc.t) :
  TemplateDoc.updatedAt (MessageTemplate.preSave now t) = now.
Proof. reflexivity. Qed.

(** The sibling schemas: a category update stamps [updatedAt]. *)
Lemma category_update_refreshes_updatedAt u now c :
  CategoryDoc.updatedAt (FormCategory.applyUpdate u now c) = now.
Proof. reflexivity. Qed.

(** C6 (the code departs from the claim).  The template "Welcome" was last
    updated at time 100.  A PUT at time 200 that carries only
    [subject: "new"] is answered 200; name and content are unchanged and
    the subject is "new", but the stored [updatedAt] is still 100. *)
Theorem template_update_keeps_old_updatedAt :
  let req := Sample.request PUT [Sample.templateId] []
               (MessageTemplate.mkFields None (Some "new") None None) in
  let updated := TemplateDoc.mk Sample.templateId "Welcome" "new" "Welcome aboard"
                   "ALERT" 100 100 in
  now req = 200
  /\ MessageTemplates.update [("id", Sample.templateId)] req None Sample.withTemplate
     = (json (OneTemplate updated),
        mkStore [Sample.admin] [] [] [] [] [updated])
  /\ TemplateDoc.updatedAt updated <> now req.
Proof. repeat split. discriminate. Qed.

(** ** Subcategories: what reaches the store *)

(** C10 (the code departs from the claim).  The subcategory "Renewals" is
    updated with one field of type "foo".  The loop of the route accepts
    the field, [findByIdAndUpdate] runs no validator, the answer is 200
    and the stored subcategory now holds a field whose type is not one of
    the seven. *)
Theorem subcategory_update_stores_unknown_type :
  let req := Sample.request PUT [Sample.subCategoryId] []
               (FormSubCategories.mkBody (Some "Renewals") (Some Sample.categoryId)
                  None (Some [Sample.oddField]) None) in
  let result := FormSubCategories.update [("id", Sample.subCategoryId)] req
                  (Some Sample.admin) Sample.withSubCategory in
  status (fst result) = 200
  /\ List.map SubCategoryDoc.fields (formSubCategories (snd result))
     = [[FieldDoc.mk (Some "colour") (Some "foo") [] false]]
  /\ forallb (fun s => forallb SpecWords.storedFieldValid (SubCategoryDoc.fields s))
       (formSubCategories (snd result)) = false.
Proof. repeat split. Qed.

(** ** Queries *)

Lemma hasId_true {D} `{Collection D} (oid : ObjectId) (d : D) :
  Query.hasId oid d = true <-> idOf d = oid.
Proof. unfold Query.hasId. apply String.eqb_eq. Qed.

Lemma find_absent {A} (p : A -> bool) (l : list A) :
  (forall x, In x l -> p x = false) -> List.find p l = None.
Proof.
  induction l as [|a l IH]; intros H; simpl; [reflexivity|].
  rewrite (H a (or_introl eq_refl)). apply IH. intros x Hx. apply H. right. exact Hx.
Qed.

Lemma find_present {A} (p : A -> bool) (l : list A) :
  (exists x, In x l /\ p x = true) ->
  exists y, List.find p l = Some y /\ In y l /\ p y = true.
Proof.
  induction l as [|a l IH]; intros (x & Hin & Hp); simpl; [contradiction|].
  destruct (p a) eqn:Ha.
  - exists a. repeat split; auto.
  - destruct Hin as [->|Hin]; [congruence|].
    destruct IH as (y & Hy & Hiny & Hpy); [exists x; auto|].
    exists y. repeat split; auto.
Qed.

(** ** Test sending of a message template *)

(** C9 (as stated, refuted).  The path segment "welcome" names no stored
    template, yet the test send is not answered 404: the identifier cannot
    be cast, [findById] throws and the [catch] block answers 500. *)
Lemma sendTest_malformed_identifier_is_not_404 :
  let req := Sample.request POST ["welcome"; "test"] []
               (MessageTemplate.mkFields None None None None) in
  let result := MessageTemplates.sendTest [("id", "welcome")] req None Sample.withTemplate in
  (forall t, In t (messageTemplates Sample.withTemplate) -> TemplateDoc._id t <> "welcome")
  /\ status (fst result) = 500
  /\ status (fst result) <> 404.
Proof.
  intros req result. split; [|split; [reflexivity | discriminate]].
  intros t [<-|[]]. discriminate.
Qed.

(** C9 (amended).  [sendTest] never modifies the store.  When the
    identifier is well formed (24 hexadecimal digits, or 12 characters)
    and names no stored template the answer is 404 "Message template not
    found"; when it names one, the answer is 200 and carries exactly the
    subject and the content of that template; when it is not well formed
    the answer is 500 "Server error" with the message of the cast
    error. *)
Theorem sendTest_echoes_and_keeps_store params req user (st : Store) :
  snd (MessageTemplates.sendTest params req user st) = st
  /\ (castObjectId (param_id params) = None ->
      fst (MessageTemplates.sendTest params req user st)
      = mkResponse 500
          (Data (JObj [("message", JStr "Server error");
                       ("error", JErrorMessage (CastError "ObjectId"))])))
  /\ (forall oid,
        castObjectId (param_id params) = Some oid ->
        (forall t, In t (messageTemplates st) -> TemplateDoc._id t <> oid) ->
        fst (MessageTemplates.sendTest params req user st)
        = mkResponse 404 (Data (JObj [("message", JStr "Message template not found")])))
  /\ (forall oid,
        castObjectId (param_id params) = Some oid ->
        (exists t, In t (messageTemplates st) /\ TemplateDoc._id t = oid) ->
        exists t,
          In t (messageTemplates st) /\ TemplateDoc._id t = oid
          /\ fst (MessageTemplates.sendTest params req user st)
             = mkResponse 200
                 (Data (JObj
                    [("success", JBool true);
                     ("message", JStr "Test message sent successfully");
                     ("template",
                      JObj [("subject", JStr (TemplateDoc.subject t));
                            ("content", JStr (TemplateDoc.content t))])]))).
Proof.
  unfold MessageTemplates.sendTest, tryCatch, bind,
    MessageTemplate.findById, Query.findById.
  destruct (castObjectId (param_id params)) as [oid|] eqn:Hc.
  2:{ split; [reflexivity|]. split; [intros _; reflexivity|].
      split; intros; discriminate. }
  unfold Query.findOne. cbn [coll templates_coll].
  destruct (find (Query.hasId oid) (messageTemplates st)) as [t|] eqn:Hf; cbn.
  - split; [reflexivity|]. split; [discriminate|]. split.
    + intros oid' E Habs. injection E as <-.
      apply find_some in Hf. destruct Hf as [Hin Hid].
      apply hasId_true in Hid. exfalso. exact (Habs t Hin Hid).
    + intros oid' E _. injection E as <-.
      apply find_some in Hf. destruct Hf as [Hin Hid]. apply hasId_true in Hid.
      exists t. repeat split; assumption.
  - split; [reflexivity|]. split; [discriminate|]. split.
    + intros; reflexivity.
    + intros oid' E (t & Hin & Hid). injection E as <-.
      pose proof (find_none _ _ Hf t Hin) as Hn.
      assert (Query.hasId oid t = true) as Hy by (apply hasId_true; exact Hid).
      congruence.
Qed.

(** The property at work on the sample store: an unused identifier, a
    12-character one, then the identifier of "Welcome". *)
Lemma sendTest_echoes_and_keeps_store_sample :
  let req := Sample.request POST [Sample.templateId; "test"] []
               (MessageTemplate.mkFields None None None None) in
  fst (MessageTemplates.sendTest [("id", Sample.unusedId)] req None Sample.withTemplate)
  = MessageTemplates.notFound
  /\ status (fst (MessageTemplates.sendTest [("id", "abcdefghijkl")] req None
                    Sample.withTemplate)) = 404
  /\ snd (MessageTemplates.sendTest [("id", Sample.templateId)] req None Sample.withTemplate)
     = Sample.withTemplate
  /\ exists t,
       In t (messageTemplates Sample.withTemplate)
       /\ TemplateDoc._id t = Sample.templateId
       /\ fst (MessageTemplates.sendTest [("id", Sample.templateId)] req None
                 Sample.withTemplate)
          = mkResponse 200
              (Data (JObj
                 [("success", JBool true);
                  ("message", JStr "Test message sent successfully");
                  ("template",
                   JObj [("subject", JStr (TemplateDoc.subject t));
                         ("content", JStr (TemplateDoc.content t))])])).
Proof.
  intros req. split; [|split; [|split]].
  - refine (proj1 (proj2 (proj2 (sendTest_echoes_and_keeps_store
              [("id", Sample.unusedId)] req None Sample.withTemplate)))
              Sample.unusedId eq_refl _).
    intros t [<-|[]]. discriminate.
  - rewrite (proj1 (proj2 (proj2 (sendTest_echoes_and_keeps_store
               [("id", "abcdefghijkl")] req None Sample.withTemplate)))
               "6162636465666768696a6b6c" eq_refl); [reflexivity|].
    intros t [<-|[]]. discriminate.
  - exact (proj1 (sendTest_echoes_and_keeps_store
              [("id", Sample.templateId)] req None Sample.withTemplate)).
  - refine (proj2 (proj2 (proj2 (sendTest_echoes_and_keeps_store
              [("id", Sample.templateId)] req None Sample.withTemplate)))
              Sample.templateId eq_refl _).
    exists Sample.welcome. split; [left; reflexivity | reflexivity].
Defined.

(** ** The access guard *)

Lemma split_without_separator (sep : ascii) (s : string) :
  ~ In sep (list_ascii_of_string s) -> JS.split sep s = [s].
Proof.
  induction s as [|c r IH]; intros H; cbn [JS.split]; [reflexivity|].
  cbn [list_ascii_of_string In] in H.
  destruct (Ascii.eqb_spec c sep) as [->|Hne].
  - exfalso. apply H. left. reflexivity.
  - rewrite IH; [reflexivity|]. intros Hin. apply H. right. exact Hin.
Qed.





Section Guard.
Variable jwt_verify : string -> option JwtPayload.
Variable changedPasswordAfter : UserDoc.t -> Z -> bool.




End Guard.



(** ** Updating a message template *)

(** C5 (as stated, refuted).  A PUT whose body carries [subject: ""] does
    exactly what a PUT with an empty body does: the stored subject stays
    "Hello".  The field that is present in the request is not applied, and
    "set to empty" is not told apart from "not provided". *)
Lemma template_update_ignores_empty_string :
  let params := [("id", Sample.templateId)] in
  let emptySubject := Sample.request PUT [Sample.templateId] []
                        (MessageTemplate.mkFields None (Some "") None None) in
  let nothing := Sample.request PUT [Sample.templateId] []
                   (MessageTemplate.mkFields None None None None) in
  MessageTemplate.subject (body emptySubject) = Some ""
  /\ MessageTemplates.update params emptySubject None Sample.withTemplate
     = MessageTemplates.update params nothing None Sample.withTemplate
  /\ List.map TemplateDoc.subject
       (messageTemplates
          (snd (MessageTemplates.update params emptySubject None Sample.withTemplate)))
     = ["Hello"].
Proof. repeat split. Qed.

(** C5 (amended).  For an update whose values pass the validators of the
    schema: when the identifier names no stored template the answer is
    404 and the store is unchanged; when it names one, each of name,
    subject and content whose value in the request is a non-empty string
    is replaced by that value trimmed, type is replaced by a non-empty
    value as given, and every field that is absent from the request or is
    the empty string keeps its stored value, as do the identifier and the
    creation date. *)
Theorem template_update_applies_nonempty_fields params req user (st : Store)
  (oid : ObjectId) :
  let b := body req in
  let given :=
    MessageTemplate.mkFields
      (MessageTemplates.provided (MessageTemplate.name b))
      (MessageTemplates.provided (MessageTemplate.subject b))
      (MessageTemplates.provided (MessageTemplate.content b))
      (MessageTemplates.provided (MessageTemplate.type b)) in
  let result := MessageTemplates.update params req user st in
  castObjectId (param_id params) = Some oid ->
  MessageTemplate.validateUpdate (MessageTemplate.cast given) = [] ->
  ((forall t, In t (messageTemplates st) -> TemplateDoc._id t <> oid) ->
   result = (MessageTemplates.notFound, st)
   /\ status MessageTemplates.notFound = 404)
  /\ ((exists t, In t (messageTemplates st) /\ TemplateDoc._id t = oid) ->
      exists t t',
        In t (messageTemplates st) /\ TemplateDoc._id t = oid
        /\ result
           = (json (OneTemplate t'),
              mkStore (users st) (formCategories st) (formSubCategories st)
                (forms st) (customers st)
                (List.map (fun x => if (TemplateDoc._id x =? TemplateDoc._id t')%string
                                    then t' else x)
                   (messageTemplates st)))
        /\ TemplateDoc._id t' = TemplateDoc._id t
        /\ TemplateDoc.name t'
           = (if JS.truthy (MessageTemplate.name b)
              then JS.trim (Schema.valueOf (MessageTemplate.name b))
              else TemplateDoc.name t)
        /\ TemplateDoc.subject t'
           = (if JS.truthy (MessageTemplate.subject b)
              then JS.trim (Schema.valueOf (MessageTemplate.subject b))
              else TemplateDoc.subject t)
        /\ TemplateDoc.content t'
           = (if JS.truthy (MessageTemplate.content b)
              then JS.trim (Schema.valueOf (MessageTemplate.content b))
              else TemplateDoc.content t)
        /\ TemplateDoc.type t'
           = (if JS.truthy (MessageTemplate.type b)
              then Schema.valueOf (MessageTemplate.type b)
              else TemplateDoc.type t)
        /\ TemplateDoc.createdAt t' = TemplateDoc.createdAt t).
Proof.
  intros b given result Hc Hv. subst result.
  unfold MessageTemplates.update, tryCatch, bind, MessageTemplate.findByIdAndUpdate.
  fold b. fold given. rewrite Hc. rewrite Hv.
  unfold bind, Query.findOne. cbn [coll templates_coll].
  destruct (find (Query.hasId oid) (messageTemplates st)) as [t|] eqn:Hf.
  - apply find_some in Hf. destruct Hf as [Hin Hid]. apply hasId_true in Hid.
    cbn [idOf templates_coll] in Hid. split.
    + intros Habs. exfalso. exact (Habs t Hin Hid).
    + intros _. exists t, (MessageTemplate.applyUpdate (MessageTemplate.cast given) t).
      split; [exact Hin|]. split; [exact Hid|]. split; [reflexivity|].
      subst given. unfold MessageTemplate.applyUpdate, MessageTemplate.cast,
        MessageTemplates.provided, Schema.trimmed, MessageTemplate.orKeep.
      cbn [TemplateDoc._id TemplateDoc.name TemplateDoc.subject TemplateDoc.content
           TemplateDoc.type TemplateDoc.createdAt TemplateDoc.updatedAt
           MessageTemplate.name MessageTemplate.subject MessageTemplate.content
           MessageTemplate.type].
      repeat split;
        match goal with
        | |- context [JS.truthy ?v] =>
            destruct v as [x|]; cbn [JS.truthy]; [destruct (x =? "")%string|];
            reflexivity
        end.
  - split.
    + intros _. split; reflexivity.
    + intros (t & Hin & Hid). pose proof (find_none _ _ Hf t Hin) as Hn.
      assert (Query.hasId oid t = true) as Hy by (apply hasId_true; exact Hid).
      congruence.
Qed.

(** The amended property on the sample store: an unused identifier, then
    "Welcome" with a new subject. *)
Lemma template_update_applies_nonempty_fields_sample :
  let req := Sample.request PUT [Sample.templateId] []
               (MessageTemplate.mkFields None (Some " new ") None None) in
  MessageTemplates.update [("id", Sample.unusedId)] req None Sample.withTemplate
  = (MessageTemplates.notFound, Sample.withTemplate)
  /\ exists t t',
       In t (messageTemplates Sample.withTemplate)
       /\ fst (MessageTemplates.update [("id", Sample.templateId)] req None
                 Sample.withTemplate) = json (OneTemplate t')
       /\ TemplateDoc.name t' = TemplateDoc.name t
       /\ TemplateDoc.subject t' = "new"
       /\ TemplateDoc.createdAt t' = TemplateDoc.createdAt t.
Proof.
  intros req. split.
  - refine (proj1 (proj1 (template_update_applies_nonempty_fields
              [("id", Sample.unusedId)] req None Sample.withTemplate Sample.unusedId
              eq_refl eq_refl) _)).
    intros t [<-|[]]. discriminate.
  - destruct (proj2 (template_update_applies_nonempty_fields
                [("id", Sample.templateId)] req None Sample.withTemplate
                Sample.templateId eq_refl eq_refl))
      as (t & t' & Hin & _ & Hres & _ & Hname & Hsubject & _ & _ & Hupd).
    + exists Sample.welcome. split; [left; reflexivity | reflexivity].
    + exists t, t'. split; [exact Hin|]. split; [rewrite Hres; reflexivity|].
      split; [exact Hname|]. split; [exact Hsubject | exact Hupd].
Defined.

(** ** Normalisation of a customer's [serviceCategoryUrl] *)


Section CustomerUrl.
Variable validateSync : Customers.ReqBody -> CustomerDoc.t -> list (string * string).
Variable validateUpdate : Customers.ReqBody -> list (string * string).
Variable uniqueClash : CustomerDoc.t -> list CustomerDoc.t -> option string.
Variable setToUndefined : option string -> option string.
Variable onCreate : list (string * JS.Value) -> ObjectId * Z -> ObjectId * Z.
Variable onUpdate : list (string * JS.Value) -> CustomerDoc.t -> Outcome Z.


End CustomerUrl.


(** The empty string itself goes through the create handler untouched:
    its guard is the truthiness of the value, so the branch that deletes
    the key is reached by blank strings only. *)
Lemma empty_serviceCategoryUrl_survives_create :
  Customers.normalizeOnCreate (Some "") = Some ""
  /\ Customers.normalizeOnCreate (Some "  ") = None
  /\ Customers.normalizeOnUpdate (Some "") = Customers.Undefined.
Proof. repeat split. Qed.

(** ** Creating a subcategory *)


Lemma castObjectId_nonempty (c : string) (oid : ObjectId) :
  castObjectId c = Some oid -> JS.truthy (Some c) = true.
Proof. destruct c; [discriminate | reflexivity]. Qed.





(** * Further properties of the routes *)

(** ** White space and identifiers *)

Lemma trimEnd_idempotent (s : string) : JS.trimEnd (JS.trimEnd s) = JS.trimEnd s.
Proof.
  induction s as [|c r IH]; [reflexivity|]. cbn [JS.trimEnd].
  destruct ((JS.trimEnd r =? "")%string && JS.is_ws c) eqn:E; [reflexivity|].
  cbn [JS.trimEnd]. rewrite IH, E. reflexivity.
Qed.

Lemma trimStart_head (s : string) :
  match JS.trimStart s with
  | EmptyString => True
  | String c _ => JS.is_ws c = false
  end.
Proof.
  induction s as [|c r IH]; cbn [JS.trimStart]; [exact I|].
  destruct (JS.is_ws c) eqn:E; [exact IH | exact E].
Qed.

Lemma trimEnd_keeps_head (c : ascii) (r : string) :
  JS.is_ws c = false -> JS.trimEnd (String c r) = String c (JS.trimEnd r).
Proof. intros H. cbn [JS.trimEnd]. rewrite H, andb_false_r. reflexivity. Qed.

Lemma trimStart_fixed (c : ascii) (r : string) :
  JS.is_ws c = false -> JS.trimStart (String c r) = String c r.
Proof. intros H. cbn [JS.trimStart]. rewrite H. reflexivity. Qed.

Lemma trim_idempotent (s : string) : JS.trim (JS.trim s) = JS.trim s.
Proof.
  unfold JS.trim. pose proof (trimStart_head s) as H.
  destruct (JS.trimStart s) as [|c r]; [reflexivity|].
  rewrite (trimEnd_keeps_head c r H), (trimStart_fixed c _ H).
  rewrite <- (trimEnd_keeps_head c r H). apply trimEnd_idempotent.
Qed.

Lemma trim_https (t : string) :
  JS.trim t = t -> JS.trim ("https://" ++ t) = "https://" ++ t.
Proof.
  intros H. unfold JS.trim in *. cbn [append].
  rewrite trimStart_fixed by reflexivity.
  repeat (rewrite trimEnd_keeps_head by reflexivity).
  destruct t as [|c r]; [reflexivity|].
  pose proof (trimStart_head (String c r)) as Hh.
  destruct (JS.is_ws c) eqn:Hc.
  - (* a trimmed string does not start with white space *)
    exfalso. cbn [JS.trimStart] in H, Hh. rewrite Hc in H, Hh.
    assert (JS.trimEnd (JS.trimStart r) = JS.trim r) as E by reflexivity.
    pose proof (f_equal String.length H) as Hl. cbn [String.length] in Hl.
    clear -Hl. revert Hl.
    assert (forall x, String.length (JS.trimEnd x) <= String.length x)%nat as Le.
    { induction x as [|a x IHx]; cbn [JS.trimEnd String.length]; [lia|].
      destruct ((JS.trimEnd x =? "")%string && JS.is_ws a); cbn [String.length]; lia. }
    assert (forall x, String.length (JS.trimStart x) <= String.length x)%nat as Ls.
    { induction x as [|a x IHx]; cbn [JS.trimStart String.length]; [lia|].
      destruct (JS.is_ws a); cbn [String.length]; lia. }
    intros Hl. pose proof (Le (JS.trimStart r)). pose proof (Ls r). lia.
  - rewrite trimStart_fixed in H by exact Hc. rewrite H. reflexivity.
Qed.

(** ** The two normalisation blocks of the customer routes *)

(** X1.  What the create and the update block leave as
    [serviceCategoryUrl] is already normal: it is trimmed and begins with
    "http" (on create it may also be the empty string, which the block
    lets through), so running the block again on its own result changes
    nothing and never prefixes "https://" twice. *)
Theorem serviceCategoryUrl_normalisation_is_stable (v : option string) :
  Customers.normalizeOnCreate (Customers.normalizeOnCreate v)
  = Customers.normalizeOnCreate v
  /\ match Customers.normalizeOnCreate v with
     | Some u => u = "" \/ (JS.startsWith u "http" = true /\ JS.trim u = u)
     | None => True
     end
  /\ match Customers.normalizeOnUpdate v with
     | Customers.Value u =>
         u <> "" /\ JS.startsWith u "http" = true /\ JS.trim u = u
         /\ Customers.normalizeOnUpdate (Some u) = Customers.Value u
     | _ => True
     end.
Proof.
  assert (forall t, JS.trim t = t -> t <> "" ->
            JS.startsWith t "http" = true ->
            Customers.normalizeOnCreate (Some t) = Some t) as Hc.
  { intros t Ht Hne Hs. unfold Customers.normalizeOnCreate, JS.truthy.
    destruct (String.eqb_spec t ""); [contradiction|]. cbn [negb Schema.valueOf].
    rewrite Ht. destruct (String.eqb_spec t ""); [contradiction|].
    rewrite Hs. reflexivity. }
  assert (forall t, JS.trim t = t -> t <> "" ->
            JS.startsWith t "http" = true ->
            Customers.normalizeOnUpdate (Some t) = Customers.Value t) as Hu.
  { intros t Ht Hne Hs. unfold Customers.normalizeOnUpdate, JS.truthy.
    rewrite Ht. destruct (String.eqb_spec t ""); [contradiction|]. cbn [negb andb].
    rewrite Hs. reflexivity. }
  assert (forall t, JS.startsWith ("https://" ++ t) "http" = true) as Hp by reflexivity.
  assert (forall t, "https://" ++ t <> "") as Hn by (intros t; discriminate).
  destruct v as [s|]; [|repeat split].
  destruct (String.eqb_spec s "") as [->|Hs].
  { repeat split. left. reflexivity. }
  assert (Customers.normalizeOnCreate (Some s)
          = if (JS.trim s =? "")%string then None
            else if JS.startsWith (JS.trim s) "http" then Some (JS.trim s)
                 else Some ("https://" ++ JS.trim s)) as Ec.
  { unfold Customers.normalizeOnCreate, JS.truthy.
    destruct (String.eqb_spec s ""); [contradiction|]. cbn [negb Schema.valueOf].
    destruct (JS.trim s =? "")%string; [reflexivity|].
    destruct (JS.startsWith (JS.trim s) "http"); reflexivity. }
  assert (Customers.normalizeOnUpdate (Some s)
          = if (JS.trim s =? "")%string then Customers.Undefined
            else if JS.startsWith (JS.trim s) "http" then Customers.Value (JS.trim s)
                 else Customers.Value ("https://" ++ JS.trim s)) as Eu.
  { unfold Customers.normalizeOnUpdate, JS.truthy.
    destruct (String.eqb_spec s ""); [contradiction|]. cbn [negb andb].
    destruct (JS.trim s =? "")%string; cbn [negb]; [reflexivity|].
    destruct (JS.startsWith (JS.trim s) "http"); reflexivity. }
  rewrite Ec, Eu. clear Ec Eu.
  pose proof (trim_idempotent s) as Hi.
  destruct (String.eqb_spec (JS.trim s) "") as [He|He].
  { repeat split. }
  destruct (JS.startsWith (JS.trim s) "http") eqn:Hh.
  - split; [apply Hc; assumption|]. split; [right; split; assumption|].
    repeat split; try assumption. apply Hu; assumption.
  - pose proof (trim_https _ Hi) as Ht.
    split; [apply Hc; auto|]. split; [right; split; auto|].
    repeat split; auto.
Qed.

Lemma lowerHex_stable (c : ascii) :
  ObjectIdCast.isHex c = true ->
  ObjectIdCast.isHex (ObjectIdCast.lowerHex c) = true
  /\ ObjectIdCast.lowerHex (ObjectIdCast.lowerHex c) = ObjectIdCast.lowerHex c.
Proof.
  destruct c as [[] [] [] [] [] [] [] []]; intros H; try discriminate H;
    vm_compute; split; reflexivity.
Qed.

Lemma hexOfByte_stable (c : ascii) :
  let n := nat_of_ascii c in
  let hi := ObjectIdCast.hexDigit (n / 16) in
  let lo := ObjectIdCast.hexDigit (n mod 16) in
  ObjectIdCast.isHex hi = true /\ ObjectIdCast.isHex lo = true
  /\ ObjectIdCast.lowerHex hi = hi /\ ObjectIdCast.lowerHex lo = lo.
Proof.
  destruct c as [[] [] [] [] [] [] [] []]; vm_compute; repeat split.
Qed.

Lemma hexOfBytes_canonical (s : string) :
  String.length (ObjectIdCast.hexOfBytes s) = (2 * String.length s)%nat
  /\ ObjectIdCast.allHex (ObjectIdCast.hexOfBytes s) = true
  /\ ObjectIdCast.lower (ObjectIdCast.hexOfBytes s) = ObjectIdCast.hexOfBytes s.
Proof.
  induction s as [|c s (I1 & I2 & I3)]; [repeat split|].
  destruct (hexOfByte_stable c) as (H1 & H2 & H3 & H4).
  cbn [ObjectIdCast.hexOfBytes ObjectIdCast.allHex ObjectIdCast.lower String.length].
  cbv zeta. rewrite I1, I2, I3, H1, H2, H3, H4. repeat split. lia.
Qed.

Lemma lower_canonical (x : string) :
  ObjectIdCast.allHex x = true ->
  String.length (ObjectIdCast.lower x) = String.length x
  /\ ObjectIdCast.allHex (ObjectIdCast.lower x) = true
  /\ ObjectIdCast.lower (ObjectIdCast.lower x) = ObjectIdCast.lower x.
Proof.
  induction x as [|c x IH]; cbn [ObjectIdCast.allHex ObjectIdCast.lower String.length];
    [auto|].
  intros Hx. apply andb_prop in Hx. destruct Hx as [Hc Hx].
  destruct (IH Hx) as (I1 & I2 & I3). destruct (lowerHex_stable c Hc) as [L1 L2].
  rewrite I1, I2, I3, L1, L2. auto.
Qed.

(** What the cast gives is an identifier in its own right: 24
    hexadecimal digits in lower case, which the cast leaves as they
    are. *)
Lemma castObjectId_canonical (s : string) (oid : ObjectId) :
  castObjectId s = Some oid -> castObjectId oid = Some oid.
Proof.
  unfold castObjectId.
  destruct (Nat.eqb (String.length s) 24 && ObjectIdCast.allHex s) eqn:E.
  - intros H. injection H as <-. apply andb_prop in E. destruct E as [El Eh].
    destruct (lower_canonical s Eh) as (L1 & L2 & L3). rewrite L1, El, L2, L3. reflexivity.
  - destruct (Nat.eqb (String.length s) 12) eqn:E12; [|discriminate].
    intros H. injection H as <-. apply Nat.eqb_eq in E12.
    destruct (hexOfBytes_canonical s) as (L1 & L2 & L3).
    rewrite L1, E12, L2, L3. reflexivity.
Qed.

Lemma filter_all {A} (p : A -> bool) (l : list A) :
  (forall x, In x l -> p x = true) -> List.filter p l = l.
Proof.
  induction l as [|a l IH]; intros H; cbn [List.filter]; [reflexivity|].
  rewrite (H a (or_introl eq_refl)). f_equal. apply IH. intros x Hx. apply H. right. exact Hx.
Qed.

Lemma find_filter_out {A} (p : A -> bool) (l : list A) :
  List.find p (List.filter (fun x => negb (p x)) l) = None.
Proof.
  apply find_absent. intros x Hx. apply filter_In in Hx. destruct Hx as [_ Hx].
  destruct (p x); [discriminate | reflexivity].
Qed.

Lemma find_last_fresh {A} (p : A -> bool) (l : list A) (d : A) :
  (forall x, In x l -> p x = false) -> p d = true -> List.find p (l ++ [d]) = Some d.
Proof.
  induction l as [|a l IH]; intros H Hd; cbn [app List.find].
  - rewrite Hd. reflexivity.
  - rewrite (H a (or_introl eq_refl)). apply IH; [|exact Hd].
    intros x Hx. apply H. right. exact Hx.
Qed.

Lemma fresh_hasId {D} `{Collection D} (id : ObjectId) (st : Store) :
  Invariant.fresh id st -> forall x, In x (coll st) -> Query.hasId id x = false.
Proof.
  intros Hf x Hx. destruct (Query.hasId id x) eqn:E; [|reflexivity].
  apply hasId_true in E. exfalso. apply Hf. rewrite <- E. apply in_map. exact Hx.
Qed.

(** ** Message templates: creation, test sending and deletion *)

(** X2.  Creating a template: a request in which name, subject or content
    is missing or empty is answered 400 and nothing is stored.  When the
    three are there, the template is stored (201) with the three values
    trimmed, the given type or "ALERT" when none is given, and both dates
    set to the time of the request, provided no trimmed value is empty and
    the type is one of ALERT, NOTIFICATION, PROMOTIONAL; otherwise the
    answer is 500 and nothing is stored. *)
Theorem template_create_outcomes params req user (st : Store) :
  let b := body req in
  let result := MessageTemplates.create params req user st in
  (JS.truthy (MessageTemplate.name b) && JS.truthy (MessageTemplate.subject b)
   && JS.truthy (MessageTemplate.content b) = false ->
   result
   = (statusJson 400
        (Data (JObj [("message", JStr "Name, subject, and content are required")])),
      st))
  /\ (forall n s c,
        MessageTemplate.name b = Some n -> n <> "" ->
        MessageTemplate.subject b = Some s -> s <> "" ->
        MessageTemplate.content b = Some c -> c <> "" ->
        let ty := match MessageTemplate.type b with Some t => t | None => "ALERT" end in
        let doc := TemplateDoc.mk (freshId req) (JS.trim n) (JS.trim s) (JS.trim c) ty
                     (now req) (now req) in
        if negb (JS.trim n =? "")%string && negb (JS.trim s =? "")%string
           && negb (JS.trim c =? "")%string && JS.includes MessageTemplate.typeEnum ty
        then result
             = (statusJson 201 (OneTemplate doc),
                mkStore (users st) (formCategories st) (formSubCategories st)
                  (forms st) (customers st) (messageTemplates st ++ [doc]))
        else status (fst result) = 500 /\ snd result = st).
Proof.
  intros b result. split.
  - intros H. subst result. unfold MessageTemplates.create, tryCatch. fold b.
    destruct (JS.truthy (MessageTemplate.name b)),
             (JS.truthy (MessageTemplate.subject b)),
             (JS.truthy (MessageTemplate.content b)); try discriminate H; reflexivity.
  - intros n s c Hn Hnn Hs Hsn Hc Hcn ty doc. subst doc ty result.
    unfold MessageTemplates.create, tryCatch. fold b.
    rewrite Hn, Hs, Hc. unfold JS.truthy.
    destruct (String.eqb_spec n ""); [contradiction|].
    destruct (String.eqb_spec s ""); [contradiction|].
    destruct (String.eqb_spec c ""); [contradiction|].
    cbn [negb orb]. unfold bind, MessageTemplate.save, MessageTemplate.cast,
      MessageTemplate.validate, Schema.requiredError, Schema.enumError, Schema.trimmed,
      JS.truthy.
    cbn [MessageTemplate.name MessageTemplate.subject MessageTemplate.content
         MessageTemplate.type option_map].
    destruct (MessageTemplate.type b) as [t|];
      destruct (JS.trim n =? "")%string, (JS.trim s =? "")%string,
               (JS.trim c =? "")%string;
      cbn [negb andb app];
      try (destruct (JS.includes MessageTemplate.typeEnum t));
      cbn [negb andb app]; try (split; reflexivity); reflexivity.
Qed.

(** The outcomes on three requests: no subject; a blank name; a full
    template without a type. *)
Lemma template_create_outcomes_sample :
  let post b := Sample.request POST [] [] b in
  let run b := MessageTemplates.create [] (post b) None emptyStore in
  run (MessageTemplate.mkFields (Some "Welcome") None (Some "Welcome aboard") None)
  = (statusJson 400
       (Data (JObj [("message", JStr "Name, subject, and content are required")])),
     emptyStore)
  /\ (status (fst (run (MessageTemplate.mkFields (Some "  ") (Some "Hello")
                         (Some "Welcome aboard") None))) = 500
      /\ snd (run (MessageTemplate.mkFields (Some "  ") (Some "Hello")
                     (Some "Welcome aboard") None)) = emptyStore)
  /\ run (MessageTemplate.mkFields (Some " Welcome ") (Some "Hello")
            (Some "Welcome aboard") None)
     = (statusJson 201
          (OneTemplate (TemplateDoc.mk Sample.unusedId "Welcome" "Hello"
                          "Welcome aboard" "ALERT" 200 200)),
        mkStore [] [] [] [] []
          [TemplateDoc.mk Sample.unusedId "Welcome" "Hello" "Welcome aboard"
             "ALERT" 200 200]).
Proof.
  intros post run. split; [|split].
  - exact (proj1 (template_create_outcomes []
             (post (MessageTemplate.mkFields (Some "Welcome") None
                      (Some "Welcome aboard") None)) None emptyStore) eq_refl).
  - exact (proj2 (template_create_outcomes []
             (post (MessageTemplate.mkFields (Some "  ") (Some "Hello")
                      (Some "Welcome aboard") None)) None emptyStore)
             "  " "Hello" "Welcome aboard" eq_refl ltac:(discriminate)
             eq_refl ltac:(discriminate) eq_refl ltac:(discriminate)).
  - exact (proj2 (template_create_outcomes []
             (post (MessageTemplate.mkFields (Some " Welcome ") (Some "Hello")
                      (Some "Welcome aboard") None)) None emptyStore)
             " Welcome " "Hello" "Welcome aboard" eq_refl ltac:(discriminate)
             eq_refl ltac:(discriminate) eq_refl ltac:(discriminate)).
Defined.

(** A create that was answered 201 stored exactly one new template, the
    one it answers with. *)
Lemma template_created params req user (st : Store) :
  status (fst (MessageTemplates.create params req user st)) = 201 ->
  exists doc,
    MessageTemplates.create params req user st
    = (statusJson 201 (OneTemplate doc),
       mkStore (users st) (formCategories st) (formSubCategories st)
         (forms st) (customers st) (messageTemplates st ++ [doc]))
    /\ TemplateDoc._id doc = freshId req
    /\ TemplateDoc.subject doc
       = JS.trim (Schema.valueOf (MessageTemplate.subject (body req)))
    /\ TemplateDoc.content doc
       = JS.trim (Schema.valueOf (MessageTemplate.content (body req))).
Proof.
  intros H201.
  destruct (template_create_outcomes params req user st) as [Hmiss Hfull].
  cbv zeta in Hmiss, Hfull.
  destruct (JS.truthy (MessageTemplate.name (body req))
            && JS.truthy (MessageTemplate.subject (body req))
            && JS.truthy (MessageTemplate.content (body req))) eqn:Ht.
  2:{ rewrite (Hmiss eq_refl) in H201. discriminate H201. }
  apply andb_prop in Ht. destruct Ht as [Ht Hc]. apply andb_prop in Ht.
  destruct Ht as [Hn Hs].
  apply truthy_present in Hn, Hs, Hc.
  destruct Hn as (n & En & Hn), Hs as (s & Es & Hs), Hc as (c & Ec & Hc).
  specialize (Hfull n s c En Hn Es Hs Ec Hc).
  destruct (negb (JS.trim n =? "")%string && negb (JS.trim s =? "")%string
            && negb (JS.trim c =? "")%string
            && JS.includes MessageTemplate.typeEnum
                 match MessageTemplate.type (body req) with
                 | Some t => t
                 | None => "ALERT"
                 end).
  - eexists. split; [exact Hfull|]. rewrite Es, Ec. repeat split.
  - destruct Hfull as [H500 _]. rewrite H500 in H201. discriminate H201.
Qed.

(** X3.  After a create that was answered 201 with a new identifier, a
    test send of that identifier is answered 200 with the subject and the
    content of the request, trimmed; the store is the one the create
    left. *)
Theorem template_create_then_sendTest params req user (st : Store) :
  status (fst (MessageTemplates.create params req user st)) = 201 ->
  Invariant.fresh (D := TemplateDoc.t) (freshId req) st ->
  castObjectId (freshId req) = Some (freshId req) ->
  forall params' req' user',
    param_id params' = freshId req ->
    MessageTemplates.sendTest params' req' user'
      (snd (MessageTemplates.create params req user st))
    = (json (Data (JObj
         [("success", JBool true);
          ("message", JStr "Test message sent successfully");
          ("template",
           JObj [("subject",
                  JStr (JS.trim (Schema.valueOf (MessageTemplate.subject (body req)))));
                 ("content",
                  JStr (JS.trim (Schema.valueOf (MessageTemplate.content (body req)))))])])),
       snd (MessageTemplates.create params req user st)).
Proof.
  intros H201 Hfresh Hcan params' req' user' Hid.
  destruct (template_created params req user st H201) as (doc & -> & Hd & Hs & Hc).
  cbn [snd]. unfold MessageTemplates.sendTest, tryCatch, bind,
    MessageTemplate.findById, Query.findById, Query.findOne.
  rewrite Hid, Hcan. cbn [coll templates_coll messageTemplates].
  pose proof (fresh_hasId (D := TemplateDoc.t) _ _ Hfresh) as Hno.
  cbn [coll templates_coll] in Hno.
  rewrite (find_last_fresh _ _ doc Hno).
  - rewrite Hs, Hc. reflexivity.
  - apply hasId_true. exact Hd.
Qed.

(** X4.  Deleting the template that a create has just stored under a new
    identifier is answered 200 and gives back the store as it was before
    the create. *)
Theorem template_create_then_delete params req user (st : Store) :
  status (fst (MessageTemplates.create params req user st)) = 201 ->
  Invariant.fresh (D := TemplateDoc.t) (freshId req) st ->
  castObjectId (freshId req) = Some (freshId req) ->
  forall params' req' user',
    param_id params' = freshId req ->
    MessageTemplates.remove params' req' user'
      (snd (MessageTemplates.create params req user st))
    = (json (Data (JObj [("message", JStr "Message template deleted successfully")])),
       st).
Proof.
  intros H201 Hfresh Hcan params' req' user' Hid.
  destruct (template_created params req user st H201) as (doc & -> & Hd & _ & _).
  cbn [snd]. unfold MessageTemplates.remove, tryCatch, bind,
    MessageTemplate.findByIdAndDelete, Query.findByIdAndDelete.
  rewrite Hid, Hcan. cbn [coll setColl templates_coll messageTemplates users
    formCategories formSubCategories forms customers].
  pose proof (fresh_hasId (D := TemplateDoc.t) _ _ Hfresh) as Hno.
  cbn [coll templates_coll] in Hno.
  assert (Query.hasId (freshId req) doc = true) as Hyes by (apply hasId_true; exact Hd).
  rewrite (find_last_fresh _ _ doc Hno Hyes).
  rewrite filter_app. cbn [List.filter]. rewrite Hyes. cbn [negb].
  rewrite filter_all, app_nil_r.
  - destruct st; reflexivity.
  - intros x Hx. rewrite (Hno x Hx). reflexivity.
Qed.

(** X5.  Once a delete has been served for a well-formed identifier,
    whatever its answer, the identifier names no template any more: a
    second delete and a test send are both answered 404 and change
    nothing. *)
Theorem template_delete_is_final params req user (st : Store) (oid : ObjectId) :
  castObjectId (param_id params) = Some oid ->
  let st' := snd (MessageTemplates.remove params req user st) in
  forall req' user',
    MessageTemplates.remove params req' user' st' = (MessageTemplates.notFound, st')
    /\ MessageTemplates.sendTest params req' user' st' = (MessageTemplates.notFound, st').
Proof.
  intros Hc st' req' user'.
  assert (List.find (Query.hasId oid) (messageTemplates st') = None) as Hgone.
  { subst st'. unfold MessageTemplates.remove, tryCatch, bind,
      MessageTemplate.findByIdAndDelete, Query.findByIdAndDelete.
    rewrite Hc. cbn [coll templates_coll].
    destruct (find (Query.hasId oid) (messageTemplates st)) eqn:Hf;
      cbn [snd setColl templates_coll messageTemplates].
    - apply find_filter_out.
    - exact Hf. }
  unfold MessageTemplates.remove, MessageTemplates.sendTest, tryCatch, bind,
    MessageTemplate.findByIdAndDelete, Query.findByIdAndDelete,
    MessageTemplate.findById, Query.findById, Query.findOne.
  rewrite Hc. cbn [coll templates_coll]. rewrite Hgone. split; reflexivity.
Qed.

(** "Welcome" is created in an empty store and test-sent. *)
Lemma template_create_then_sendTest_sample :
  let post := Sample.request POST [] []
                (MessageTemplate.mkFields (Some "Welcome") (Some " Hello ")
                   (Some "Welcome aboard") None) in
  let other := Sample.request POST [Sample.unusedId; "test"] []
                 (MessageTemplate.mkFields None None None None) in
  let created := snd (MessageTemplates.create [] post None emptyStore) in
  fst (MessageTemplates.sendTest [("id", Sample.unusedId)] other None created)
  = json (Data (JObj
      [("success", JBool true);
       ("message", JStr "Test message sent successfully");
       ("template",
        JObj [("subject", JStr "Hello"); ("content", JStr "Welcome aboard")])])).
Proof.
  intros post other created.
  assert (Invariant.fresh (D := TemplateDoc.t) (freshId post) emptyStore) as Hf
    by (intros []).
  subst created.
  rewrite (template_create_then_sendTest [] post None emptyStore eq_refl Hf eq_refl
             [("id", Sample.unusedId)] other None eq_refl).
  reflexivity.
Defined.

(** "Welcome" is created in an empty store and deleted again. *)
Lemma template_create_then_delete_sample :
  let post := Sample.request POST [] []
                (MessageTemplate.mkFields (Some "Welcome") (Some " Hello ")
                   (Some "Welcome aboard") None) in
  let other := Sample.request DELETE [Sample.unusedId] []
                 (MessageTemplate.mkFields None None None None) in
  let created := snd (MessageTemplates.create [] post None emptyStore) in
  created <> emptyStore
  /\ snd (MessageTemplates.remove [("id", Sample.unusedId)] other None created)
     = emptyStore.
Proof.
  intros post other created.
  assert (Invariant.fresh (D := TemplateDoc.t) (freshId post) emptyStore) as Hf
    by (intros []).
  split; [discriminate|]. subst created.
  rewrite (template_create_then_delete [] post None emptyStore eq_refl Hf eq_refl
             [("id", Sample.unusedId)] other None eq_refl).
  reflexivity.
Defined.

(** The stored "Welcome" is deleted twice. *)
Lemma template_delete_is_final_sample :
  let other := Sample.request DELETE [Sample.templateId] []
                 (MessageTemplate.mkFields None None None None) in
  let once := MessageTemplates.remove [("id", Sample.templateId)] other None
                Sample.withTemplate in
  status (fst once) = 200
  /\ fst (MessageTemplates.remove [("id", Sample.templateId)] other None (snd once))
     = MessageTemplates.notFound.
Proof.
  intros other once. split; [reflexivity|]. subst once.
  rewrite (proj1 (template_delete_is_final [("id", Sample.templateId)] other None
             Sample.withTemplate Sample.templateId eq_refl other None)).
  reflexivity.
Defined.

(** ** The access guard: who is admitted *)

Section Admission.
Variable jwt_verify : string -> option JwtPayload.
Variable changedPasswordAfter : UserDoc.t -> Z -> bool.

(** X6.  [protect] calls [next()] with user [u] exactly when the request
    yields a non-empty token, [jwt.verify] accepts it, the identifier in
    its payload is well formed and names the stored user [u], and [u] has
    not changed the password since the token was issued. *)
Theorem protect_admits_exactly {B} (req : Request B) (st : Store) (u : UserDoc.t) :
  protect jwt_verify changedPasswordAfter req st = Next u
  <-> exists token decoded oid,
        getToken req = Some token /\ token <> ""
        /\ jwt_verify token = Some decoded
        /\ castObjectId (jwt_id decoded) = Some oid
        /\ List.find (Query.hasId oid) (users st) = Some u
        /\ changedPasswordAfter u (jwt_iat decoded) = false.
Proof.
  unfold protect, User.findById, Query.findById. split.
  - destruct (getToken req) as [token|] eqn:Ht; cbn [JS.truthy negb]; [|discriminate].
    destruct (String.eqb_spec token "") as [->|Hne]; cbn [negb JS.orElse]; [discriminate|].
    destruct (String.eqb_spec token ""); [contradiction|].
    destruct (jwt_verify token) as [decoded|] eqn:Hv; [|discriminate].
    destruct (castObjectId (jwt_id decoded)) as [oid|] eqn:Hc; cbn [throw fst];
      [|discriminate].
    unfold Query.findOne. cbn [fst coll users_coll].
    destruct (find (Query.hasId oid) (users st)) as [cu|] eqn:Hf; [|discriminate].
    destruct (changedPasswordAfter cu (jwt_iat decoded)) eqn:Hp; [discriminate|].
    intros E. injection E as <-. exists token, decoded, oid. repeat split; auto.
  - intros (token & decoded & oid & Ht & Hne & Hv & Hc & Hf & Hp).
    rewrite Ht. cbn [JS.truthy JS.orElse].
    destruct (String.eqb_spec token ""); [contradiction|]. cbn [negb].
    rewrite Hv, Hc. unfold Query.findOne. cbn [fst coll users_coll].
    rewrite Hf, Hp. reflexivity.
Qed.

(** X7.  An Authorization header that begins with "Bearer" and holds no
    blank carries no token; the cookie is then not consulted, and the
    request is refused with 401 whatever the cookie holds. *)
Theorem bearer_header_without_token_is_refused {B} (req : Request B) (st : Store)
  (header : string) :
  authorization req = Some header ->
  JS.startsWith header "Bearer" = true ->
  ~ In " "%char (list_ascii_of_string header) ->
  protect jwt_verify changedPasswordAfter req st
  = Halt (unauthorized "Not authorized to access this route. No token provided.").
Proof.
  intros Ha Hs Hb. unfold protect, getToken. rewrite Ha, Hs.
  assert (JS.truthy (Some header) = true) as Ht.
  { destruct header; [discriminate Hs | reflexivity]. }
  rewrite Ht. cbn [andb]. rewrite (split_without_separator _ _ Hb). reflexivity.
Qed.

(** X8.  For a request that [protect] admits as user [u], the forms
    router runs the handler of the route with [req.user = u]: GET / is
    the list handler, POST / the create-or-update handler and DELETE /:id
    the delete handler, with [req.params.id] the path segment. *)
Theorem admitted_requests_reach_handlers (req : Request Forms.ReqBody) (st : Store)
  (u : UserDoc.t) :
  protect jwt_verify changedPasswordAfter req st = Next u ->
  (method req = GET -> path req = [] ->
   dispatch (Forms.router jwt_verify changedPasswordAfter) req st
   = Forms.list [] req (Some u) st)
  /\ (method req = POST -> path req = [] ->
      dispatch (Forms.router jwt_verify changedPasswordAfter) req st
      = Forms.createOrUpdate [] req (Some u) st)
  /\ (forall id, method req = DELETE -> path req = [id] -> id <> "" ->
      dispatch (Forms.router jwt_verify changedPasswordAfter) req st
      = Forms.remove [("id", id)] req (Some u) st).
Proof.
  intros Hg. repeat split; intros;
    match goal with
    | Hm : method req = _, Hp : path req = _ |- _ =>
        unfold dispatch, Forms.router, runRoute;
        cbn [r_method r_path r_guards r_handler runGuards];
        rewrite Hm, Hp; cbn [Method_eqb matchPath]
    end;
    try match goal with
        | Hne : ?id <> "" |- _ =>
            destruct (String.eqb_spec id ""); [contradiction|]
        end;
    rewrite Hg; reflexivity.
Qed.

End Admission.

(** The admin's token in the header admits the admin. *)
Lemma protect_admits_exactly_sample :
  protect Sample.adminToken Sample.neverChanged
    (Sample.requestWith (Some "Bearer admin-token") None DELETE [Sample.categoryId]
       (FormCategories.mkBody None None None))
    Sample.oneCategory
  = Next Sample.admin.
Proof.
  apply (proj2 (protect_admits_exactly Sample.adminToken Sample.neverChanged _
                  Sample.oneCategory Sample.admin)).
  exists "admin-token", (mkJwt Sample.adminId 50), Sample.adminId.
  repeat split. discriminate.
Defined.

(** The bare header "Bearer" is refused although the cookie holds the
    admin's token, which alone would admit the admin. *)
Lemma bearer_header_without_token_is_refused_sample :
  let withHeader := Sample.requestWith (Some "Bearer") (Some "admin-token") DELETE
                      [Sample.categoryId] (FormCategories.mkBody None None None) in
  let cookieOnly := Sample.requestWith None (Some "admin-token") DELETE
                      [Sample.categoryId] (FormCategories.mkBody None None None) in
  protect Sample.adminToken Sample.neverChanged withHeader Sample.oneCategory
  = Halt (unauthorized "Not authorized to access this route. No token provided.")
  /\ protect Sample.adminToken Sample.neverChanged cookieOnly Sample.oneCategory
     = Next Sample.admin.
Proof.
  intros withHeader cookieOnly. split; [|reflexivity].
  apply (bearer_header_without_token_is_refused Sample.adminToken Sample.neverChanged
           withHeader Sample.oneCategory "Bearer" eq_refl eq_refl).
  cbn. intros [H|[H|[H|[H|[H|[H|[]]]]]]]; discriminate H.
Defined.

(** The admin posts a form through the router. *)
Lemma admitted_requests_reach_handlers_sample :
  let req := Sample.requestWith (Some "Bearer admin-token") None POST []
               (Forms.mkBody (Some "Intake") (Some "/intake") None) in
  dispatch (Forms.router Sample.adminToken Sample.neverChanged) req Sample.oneCategory
  = Forms.createOrUpdate [] req (Some Sample.admin) Sample.oneCategory
  /\ status (fst (dispatch (Forms.router Sample.adminToken Sample.neverChanged) req
                    Sample.oneCategory)) = 200.
Proof.
  intros req.
  pose proof (proj1 (proj2 (admitted_requests_reach_handlers Sample.adminToken
                Sample.neverChanged req Sample.oneCategory Sample.admin eq_refl))
                eq_refl eq_refl) as H.
  split; [exact H | rewrite H; reflexivity].
Defined.

(** ** Lists of documents with unique keys *)

Lemma NoDup_map_filter {A K} (key : A -> K) (p : A -> bool) (l : list A) :
  NoDup (List.map key l) -> NoDup (List.map key (List.filter p l)).
Proof.
  induction l as [|a l IH]; cbn [List.map List.filter]; intros H; [constructor|].
  inversion H as [|? ? Hn Hd]; subst.
  destruct (p a); cbn [List.map]; [|apply IH; exact Hd].
  constructor; [|apply IH; exact Hd].
  intros Hin. apply Hn. apply in_map_iff in Hin. destruct Hin as (x & Hx & Hf).
  apply filter_In in Hf. rewrite <- Hx. apply in_map. apply Hf.
Qed.

Lemma NoDup_map_snoc {A K} (key : A -> K) (l : list A) (d : A) :
  NoDup (List.map key l) -> (forall x, In x l -> key x <> key d) ->
  NoDup (List.map key (l ++ [d])).
Proof.
  intros Hl Hd. rewrite map_app. cbn [List.map].
  apply NoDup_app; [exact Hl | repeat constructor; intros [] |].
  intros k Hk [<-|[]]. apply in_map_iff in Hk. destruct Hk as (x & Hx & Hin).
  exact (Hd x Hin Hx).
Qed.

Section Replace.
Context {A : Type} (id : A -> string) (oid : string) (d : A).
Hypothesis id_d : id d = oid.

Let replaced (l : list A) : list A :=
  List.map (fun x => if (id x =? oid)%string then d else x) l.

Lemma replace_keeps_ids (l : list A) : List.map id (replaced l) = List.map id l.
Proof.
  induction l as [|a l IH]; [reflexivity|]. subst replaced. cbn [List.map] in *.
  rewrite IH. destruct (String.eqb_spec (id a) oid) as [E|E]; [|reflexivity].
  rewrite id_d, E. reflexivity.
Qed.

Lemma replace_absent (l : list A) :
  ~ In oid (List.map id l) -> replaced l = l.
Proof.
  induction l as [|a l IH]; [reflexivity|]. subst replaced. cbn [List.map In] in *.
  intros H. destruct (String.eqb_spec (id a) oid) as [E|E].
  - exfalso. apply H. left. exact E.
  - rewrite IH; [reflexivity|]. intros Hin. apply H. right. exact Hin.
Qed.

Lemma replace_In (l : list A) (x : A) :
  In x (replaced l) -> (In x l /\ id x <> oid) \/ x = d.
Proof.
  subst replaced. intros H. apply in_map_iff in H. destruct H as (y & Hy & Hin).
  destruct (String.eqb_spec (id y) oid) as [E|E].
  - right. symmetry. exact Hy.
  - left. subst x. split; assumption.
Qed.

(** Replacing the document that has identifier [oid] keeps a key unique
    when no other document holds the key of the replacement. *)
Lemma NoDup_map_replace {K} (key : A -> K) (l : list A) :
  NoDup (List.map id l) -> NoDup (List.map key l) ->
  (forall x, In x l -> id x <> oid -> key x <> key d) ->
  NoDup (List.map key (replaced l)).
Proof.
  induction l as [|a l IH]; intros Hid Hkey Hother; [constructor|].
  cbn [List.map] in Hid, Hkey.
  apply NoDup_cons_iff in Hid. destruct Hid as [Hida Hidl].
  apply NoDup_cons_iff in Hkey. destruct Hkey as [Hka Hkl].
  change (replaced (a :: l))
    with ((if (id a =? oid)%string then d else a) :: replaced l).
  destruct (String.eqb_spec (id a) oid) as [E|E].
  - rewrite replace_absent by (rewrite <- E; exact Hida).
    cbn [List.map]. constructor; [|exact Hkl].
    intros Hin. apply in_map_iff in Hin. destruct Hin as (x & Hx & Hin).
    apply (Hother x (or_intror Hin)); [|exact Hx].
    intros Ex. apply Hida. rewrite E, <- Ex. apply in_map. exact Hin.
  - cbn [List.map]. constructor.
    + intros Hin. apply in_map_iff in Hin. destruct Hin as (x & Hx & Hin).
      destruct (replace_In l x Hin) as [[Hxl _] | ->].
      * apply Hka. rewrite <- Hx. apply in_map. exact Hxl.
      * apply (Hother a (or_introl eq_refl) E). symmetry. exact Hx.
    + apply IH; [exact Hidl | exact Hkl |].
      intros x Hx. apply Hother. right. exact Hx.
Qed.

End Replace.

(** ** The forms router *)

Lemma form_clash_none (self : ObjectId) (n u : string) (l : list FormDoc.t) :
  Form.clash self n u l = None ->
  forall x, In x l -> FormDoc._id x <> self -> FormDoc.name x <> n /\ FormDoc.url x <> u.
Proof.
  unfold Form.clash. intros H x Hx Hid.
  destruct (existsb _ l) eqn:En; [discriminate|].
  destruct (existsb (fun f => negb (Query.hasId self f) && (FormDoc.url f =? u)%string) l)
    eqn:Eu; [discriminate|].
  assert (Query.hasId self x = false) as Hh.
  { destruct (Query.hasId self x) eqn:E; [|reflexivity].
    apply hasId_true in E. contradiction. }
  split; intros E.
  - assert (existsb (fun f => negb (Query.hasId self f) && (FormDoc.name f =? n)%string) l
            = true) as C.
    { apply existsb_exists. exists x. split; [exact Hx|].
      rewrite Hh, E, String.eqb_refl. reflexivity. }
    congruence.
  - assert (existsb (fun f => negb (Query.hasId self f) && (FormDoc.url f =? u)%string) l
            = true) as C.
    { apply existsb_exists. exists x. split; [exact Hx|].
      rewrite Hh, E, String.eqb_refl. reflexivity. }
    congruence.
Qed.

(** What POST / can do to the store: nothing, one insertion under the new
    identifier, or the replacement of one stored form, and then only with
    a name and a url that no other form holds. *)
Lemma forms_post_store params req user (st : Store) :
  let st' := snd (Forms.createOrUpdate params req user st) in
  st' = st
  \/ (exists f,
        FormDoc._id f = freshId req
        /\ Form.clash (freshId req) (FormDoc.name f) (FormDoc.url f) (forms st) = None
        /\ st' = setColl (forms st ++ [f]) st)
  \/ (exists old f,
        In old (forms st) /\ FormDoc._id f = FormDoc._id old
        /\ Form.clash (FormDoc._id f) (FormDoc.name f) (FormDoc.url f) (forms st) = None
        /\ st' = setColl
                   (List.map (fun x => if (FormDoc._id x =? FormDoc._id f)%string
                                       then f else x) (forms st)) st).
Proof.
  cbv zeta. unfold Forms.createOrUpdate, tryCatch, bind, Form.findOne, Query.findOne,
    ret.
  cbn [coll forms_coll]. cbv beta iota.
  destruct (JS.truthy (Forms.id (body req))).
  - unfold Form.findById, Query.findById.
    destruct (castObjectId _) as [oid|]; [|left; reflexivity].
    unfold Query.findOne. cbn [coll forms_coll]. cbv beta iota.
    destruct (find (Query.hasId oid) (forms st)) as [form|] eqn:Hf; [|left; reflexivity].
    cbv beta iota.
    destruct (find (fun f => negb (Query.hasId (FormDoc._id form) f) && _) (forms st));
      [left; reflexivity|].
    unfold Form.assignAndSave.
    destruct (Form.validate _); [|left; reflexivity].
    unfold Form.store.
    match goal with
    | |- context [Form.clash ?i ?n ?u ?l] => destruct (Form.clash i n u l) eqn:Hc
    end; [left; reflexivity|].
    right. right. apply find_some in Hf. destruct Hf as [Hin _].
    match goal with
    | |- context [Query.replaceOne ?d] => exists form, d
    end.
    split; [exact Hin|]. split; [reflexivity|]. split; [exact Hc | reflexivity].
  - destruct (find (Form.nameOrUrl _ _) (forms st)); [left; reflexivity|].
    unfold Form.save.
    destruct (Form.validate _); [|left; reflexivity].
    unfold Form.store.
    match goal with
    | |- context [Form.clash ?i ?n ?u ?l] => destruct (Form.clash i n u l) eqn:Hc
    end; [left; reflexivity|].
    right. left.
    match goal with
    | |- context [Query.insertOne ?d] => exists d
    end.
    split; [reflexivity|]. split; [exact Hc | reflexivity].
Qed.

Lemma forms_delete_store params req user (st : Store) :
  exists p,
    snd (Forms.remove params req user st) = setColl (List.filter p (forms st)) st.
Proof.
  unfold Forms.remove, tryCatch, bind, Form.findById, Form.findByIdAndDelete,
    Query.findById, Query.findByIdAndDelete.
  assert (exists p, st = setColl (List.filter p (forms st)) st) as Same.
  { exists (fun _ => true). rewrite filter_all by reflexivity. destruct st; reflexivity. }
  destruct (castObjectId (param_id params)) as [oid|]; [|exact Same].
  unfold Query.findOne. cbn [coll forms_coll]. cbv beta iota.
  destruct (find (Query.hasId oid) (forms st)) eqn:Hf; [|exact Same].
  cbv beta iota. cbn [coll forms_coll]. rewrite Hf.
  eexists. reflexivity.
Qed.

(** Routes preserve what each of their handlers preserves. *)
Lemma dispatch_preserves {B} (router : Router B)
  (pre : Request B -> Store -> Prop) (post : Store -> Prop) :
  (forall req st, pre req st -> post st) ->
  Forall (fun r => forall params req user st,
                     pre req st -> post (snd (r_handler r params req user st))) router ->
  forall req st, pre req st -> post (snd (dispatch router req st)).
Proof.
  intros Hsame Hall req st Hpre.
  induction Hall as [|r rest Hr _ IH]; cbn [dispatch snd]; [apply (Hsame req); exact Hpre|].
  destruct (Method_eqb (r_method r) (method req)); [|exact IH].
  destruct (matchPath (r_path r) (path req)) as [params|]; [|exact IH].
  unfold runRoute. destruct (runGuards (r_guards r) req None st) as [resp|user].
  - apply (Hsame req). exact Hpre.
  - apply Hr. exact Hpre.
Qed.

Section FormsRouter.
Variable jwt_verify : string -> option JwtPayload.
Variable changedPasswordAfter : UserDoc.t -> Z -> bool.

(** X9.  Whatever the request, the forms router keeps the identifiers,
    the names and the urls of the stored forms unique, as long as the
    identifier offered for a new form is not in use; and it touches no
    other collection. *)
Theorem forms_router_keeps_names_and_urls_unique (req : Request Forms.ReqBody)
  (st : Store) :
  Invariant.formsUnique st ->
  Invariant.fresh (D := FormDoc.t) (freshId req) st ->
  let st' := snd (dispatch (Forms.router jwt_verify changedPasswordAfter) req st) in
  Invariant.formsUnique st'
  /\ users st' = users st /\ formCategories st' = formCategories st
  /\ formSubCategories st' = formSubCategories st
  /\ customers st' = customers st /\ messageTemplates st' = messageTemplates st.
Proof.
  intros Hu Hf st'. subst st'.
  apply (dispatch_preserves (Forms.router jwt_verify changedPasswordAfter)
           (fun req0 st0 => req0 = req /\ st0 = st)
           (fun st' => Invariant.formsUnique st'
                       /\ users st' = users st /\ formCategories st' = formCategories st
                       /\ formSubCategories st' = formSubCategories st
                       /\ customers st' = customers st
                       /\ messageTemplates st' = messageTemplates st));
    [ intros ? ? [-> ->]; repeat split; apply Hu | | split; reflexivity ].
  destruct Hu as (Hid & Hname & Hurl).
  pose proof (fresh_hasId (D := FormDoc.t) _ _ Hf) as Hno. cbn [coll forms_coll] in Hno.
  unfold Forms.router.
  apply Forall_cons; [|apply Forall_cons; [|apply Forall_cons; [|apply Forall_nil]]];
    cbn [r_handler]; intros params ? user ? [-> ->]; unfold Invariant.formsUnique.
  - (* GET / *)
    repeat split; assumption.
  - (* POST / *)
    destruct (forms_post_store params req user st)
      as [-> | [(f & Hfid & Hc & ->) | (old & f & Hin & Hfid & Hc & ->)]];
      cbn [setColl forms_coll users formCategories formSubCategories forms customers
           messageTemplates].
    + repeat split; assumption.
    + pose proof (form_clash_none _ _ _ _ Hc) as Hother.
      assert (forall x, In x (forms st) -> FormDoc._id x <> freshId req) as Hne.
      { intros x Hx E. pose proof (Hno x Hx) as Hx'.
        assert (Query.hasId (freshId req) x = true) by (apply hasId_true; exact E).
        congruence. }
      repeat split; try reflexivity; apply NoDup_map_snoc; try assumption.
      * intros x Hx. rewrite Hfid. apply Hne. exact Hx.
      * intros x Hx. apply (Hother x Hx (Hne x Hx)).
      * intros x Hx. apply (Hother x Hx (Hne x Hx)).
    + pose proof (form_clash_none _ _ _ _ Hc) as Hother.
      repeat split; try reflexivity.
      * rewrite (replace_keeps_ids FormDoc._id (FormDoc._id f) f eq_refl). exact Hid.
      * apply (NoDup_map_replace FormDoc._id (FormDoc._id f) f); try assumption.
        intros x Hx Hx'. apply (Hother x Hx Hx').
      * apply (NoDup_map_replace FormDoc._id (FormDoc._id f) f); try assumption.
        intros x Hx Hx'. apply (Hother x Hx Hx').
  - (* DELETE /:id *)
    destruct (forms_delete_store params req user st) as (p & ->).
    cbn [setColl forms_coll users formCategories formSubCategories forms customers
         messageTemplates].
    repeat split; try reflexivity; apply NoDup_map_filter; assumption.
Qed.

End FormsRouter.

(** One form is stored; the admin posts a second one. *)
Lemma forms_router_keeps_names_and_urls_unique_sample :
  let st := mkStore [Sample.admin] [] [] [FormDoc.mk Sample.customerId "Intake" "/intake" 1 1]
              [] [] in
  let req := Sample.requestWith (Some "Bearer admin-token") None POST []
               (Forms.mkBody (Some "Renewal") (Some "/renewal") None) in
  let st' := snd (dispatch (Forms.router Sample.adminToken Sample.neverChanged) req st) in
  Invariant.formsUnique st'
  /\ List.map FormDoc.name (forms st') = ["Intake"; "Renewal"].
Proof.
  intros st req st'. split; [|reflexivity].
  refine (proj1 (forms_router_keeps_names_and_urls_unique Sample.adminToken
                   Sample.neverChanged req st _ _)).
  - repeat split; repeat constructor; intros [].
  - intros [H|[]]. discriminate H.
Defined.

Lemma form_matches_eq (v : option string) (stored : string) :
  Form.matches v stored = true <-> Schema.trimmed v = Some stored.
Proof.
  unfold Form.matches. destruct (Schema.trimmed v) as [s|].
  - rewrite String.eqb_eq. split; [intros ->; reflexivity | intros E; injection E; auto].
  - split; discriminate.
Qed.

Lemma form_clash_free (self : ObjectId) (n u : string) (l : list FormDoc.t) :
  (forall f, In f l -> FormDoc._id f <> self -> FormDoc.name f <> n /\ FormDoc.url f <> u) ->
  Form.clash self n u l = None.
Proof.
  intros H. unfold Form.clash.
  assert (forall k (v : string),
            (forall f, In f l -> FormDoc._id f <> self -> k f <> v) ->
            existsb (fun f => negb (Query.hasId self f) && (k f =? v)%string) l = false) as E.
  { intros k v Hk. destruct (existsb _ l) eqn:Ex; [|reflexivity].
    apply existsb_exists in Ex. destruct Ex as (f & Hf & Hb).
    apply andb_prop in Hb. destruct Hb as [Hid Hkv]. apply String.eqb_eq in Hkv.
    exfalso. apply (Hk f Hf); [|exact Hkv].
    intros Eid. assert (Query.hasId self f = true) as Hh by (apply hasId_true; exact Eid).
    rewrite Hh in Hid. discriminate Hid. }
  rewrite (E FormDoc.name n), (E FormDoc.url u); [reflexivity | |];
    intros f Hf Hid; apply (H f Hf Hid).
Qed.

(** X10.  POST / without an [id] creates a form.  When a stored form has
    the trimmed name or the trimmed url of the request the answer is 400
    and nothing changes.  Otherwise a request whose name or url is
    missing or blank is answered 500 (the handler does not read the
    validation result) and nothing changes; and a request with both is
    answered 200 and stores the form with name and url trimmed and both
    dates set to the time of the request. *)
Theorem form_create_outcomes params req user (st : Store) :
  JS.truthy (Forms.id (body req)) = false ->
  let name := Schema.trimmed (Forms.name (body req)) in
  let url := Schema.trimmed (Forms.url (body req)) in
  let taken := exists f, In f (forms st)
                         /\ (name = Some (FormDoc.name f) \/ url = Some (FormDoc.url f)) in
  let result := Forms.createOrUpdate params req user st in
  (taken -> result = (Forms.duplicate, st) /\ status Forms.duplicate = 400)
  /\ (~ taken -> JS.truthy name && JS.truthy url = false ->
      result = (statusJson 500 (Text "Server Error"), st))
  /\ (~ taken -> forall n u,
        name = Some n -> n <> "" -> url = Some u -> u <> "" ->
        let doc := FormDoc.mk (freshId req) n u (now req) (now req) in
        result
        = (json (OneForm doc),
           mkStore (users st) (formCategories st) (formSubCategories st)
             (forms st ++ [doc]) (customers st) (messageTemplates st))).
Proof.
  intros Hid name url taken result. subst result.
  unfold Forms.createOrUpdate, tryCatch, bind, Form.findOne, Query.findOne, ret.
  rewrite Hid. cbn [coll forms_coll]. cbv beta iota.
  destruct (find (Form.nameOrUrl (Forms.name (body req)) (Forms.url (body req))) (forms st))
    as [f|] eqn:Hf.
  - assert taken as Ht.
    { apply find_some in Hf. destruct Hf as [Hin Hm]. exists f. split; [exact Hin|].
      unfold Form.nameOrUrl in Hm. apply orb_prop in Hm.
      destruct Hm as [Hm|Hm]; apply form_matches_eq in Hm; auto. }
    repeat split; intros; try contradiction; reflexivity.
  - assert (~ taken) as Ht.
    { intros (f & Hin & Hm). pose proof (find_none _ _ Hf f Hin) as Hn.
      unfold Form.nameOrUrl in Hn. apply orb_false_elim in Hn. destruct Hn as [H1 H2].
      destruct Hm as [Hm|Hm]; apply form_matches_eq in Hm; congruence. }
    split; [intros; contradiction|].
    unfold Form.save, Form.validate, Schema.requiredError.
    cbn [Form.name Form.url]. fold name. fold url. split.
    + intros _ Hblank.
      destruct (JS.truthy name), (JS.truthy url); try discriminate Hblank; reflexivity.
    + intros _ n u Hn Hnn Hu Hun. rewrite Hn, Hu. unfold JS.truthy.
      destruct (String.eqb_spec n ""); [contradiction|].
      destruct (String.eqb_spec u ""); [contradiction|].
      cbn [negb app Schema.valueOf]. unfold Form.store, Form.preSave.
      cbn [FormDoc._id FormDoc.name FormDoc.url FormDoc.createdAt].
      rewrite form_clash_free; [reflexivity|].
      intros f Hin _. split; intros E; apply Ht; exists f; (split; [exact Hin|]);
        [left | right]; congruence.
Qed.

(** The outcomes on a store that holds "Intake": the same name again, a
    request without a url, and a new form. *)
Lemma form_create_outcomes_sample :
  let st := mkStore [] [] [] [FormDoc.mk Sample.customerId "Intake" "/intake" 1 1] [] [] in
  let post name url := Sample.request POST [] [] (Forms.mkBody name url None) in
  let run name url := Forms.createOrUpdate [] (post name url) (Some Sample.admin) st in
  run (Some " Intake ") (Some "/other") = (Forms.duplicate, st)
  /\ run (Some "Renewal") None = (statusJson 500 (Text "Server Error"), st)
  /\ status (fst (run (Some "Renewal") (Some "/renewal"))) = 200.
Proof.
  intros st post run.
  assert (forall name url,
            Schema.trimmed name <> Some "Intake" -> Schema.trimmed url <> Some "/intake" ->
            ~ (exists f, In f (forms st)
                         /\ (Schema.trimmed name = Some (FormDoc.name f)
                             \/ Schema.trimmed url = Some (FormDoc.url f)))) as Hfree.
  { intros name url Hn Hu (f & [<-|[]] & [H|H]); contradiction. }
  split; [|split].
  - apply (proj1 (form_create_outcomes [] (post (Some " Intake ") (Some "/other"))
                    (Some Sample.admin) st eq_refl)).
    eexists. split; [left; reflexivity|]. left. reflexivity.
  - apply (proj1 (proj2 (form_create_outcomes [] (post (Some "Renewal") None)
                           (Some Sample.admin) st eq_refl))); [|reflexivity].
    apply Hfree; intros H; vm_compute in H; discriminate H.
  - unfold run.
    rewrite (proj2 (proj2 (form_create_outcomes [] (post (Some "Renewal") (Some "/renewal"))
               (Some Sample.admin) st eq_refl))
               (Hfree (Some "Renewal") (Some "/renewal")
                  ltac:(intros H; vm_compute in H; discriminate H)
                  ltac:(intros H; vm_compute in H; discriminate H))
               "Renewal" "/renewal" eq_refl ltac:(discriminate) eq_refl
               ltac:(discriminate)).
    reflexivity.
Defined.

(** X11.  POST / with an [id] updates that form in place.  An identifier
    that names no form is answered 404; a name or url that another form
    holds, 400; a missing or blank name or url, 500; in these cases
    nothing changes.  Otherwise the form keeps its identifier and its
    [createdAt], takes the trimmed name and url, and its [updatedAt]
    becomes the time of the request. *)
Theorem form_update_outcomes params req user (st : Store) (i : string) (oid : ObjectId) :
  Forms.id (body req) = Some i -> i <> "" -> castObjectId i = Some oid ->
  let name := Schema.trimmed (Forms.name (body req)) in
  let url := Schema.trimmed (Forms.url (body req)) in
  let result := Forms.createOrUpdate params req user st in
  ((forall f, In f (forms st) -> FormDoc._id f <> oid) ->
   result = (statusJson 404 (Data (JObj [("msg", JStr "Form not found")])), st))
  /\ (forall old,
        List.find (Query.hasId oid) (forms st) = Some old ->
        let taken :=
          exists f, In f (forms st) /\ FormDoc._id f <> FormDoc._id old
                    /\ (name = Some (FormDoc.name f) \/ url = Some (FormDoc.url f)) in
        (taken -> result = (Forms.duplicate, st))
        /\ (~ taken -> JS.truthy name && JS.truthy url = false ->
            result = (statusJson 500 (Text "Server Error"), st))
        /\ (~ taken -> forall n u,
              name = Some n -> n <> "" -> url = Some u -> u <> "" ->
              let doc := FormDoc.mk (FormDoc._id old) n u (FormDoc.createdAt old)
                           (now req) in
              result
              = (json (OneForm doc),
                 mkStore (users st) (formCategories st) (formSubCategories st)
                   (List.map (fun x => if (FormDoc._id x =? FormDoc._id old)%string
                                       then doc else x) (forms st))
                   (customers st) (messageTemplates st)))).
Proof.
  intros Hi Hne Hc name url result.
  assert (result
          = tryCatch
              (form <- Form.findById i ;;
               match form with
               | None => ret (statusJson 404 (Data (JObj [("msg", JStr "Form not found")])))
               | Some form =>
                   existingForm <-
                     Form.findOne (fun f => negb (Query.hasId (FormDoc._id form) f)
                                            && Form.nameOrUrl (Forms.name (body req))
                                                 (Forms.url (body req)) f) ;;
                   match existingForm with
                   | Some _ => ret Forms.duplicate
                   | None =>
                       form <- Form.assignAndSave form
                                 (Form.mkFields (Forms.name (body req))
                                    (Forms.url (body req))) (now req) ;;
                       ret (json (OneForm form))
                   end
               end) Forms.serverError st) as Hr.
  { subst result. unfold Forms.createOrUpdate, tryCatch, bind, Form.findOne,
      Query.findOne, ret. rewrite Hi. unfold JS.truthy, Schema.valueOf.
    destruct (String.eqb_spec i ""); [contradiction|]. reflexivity. }
  rewrite Hr. clear Hr result.
  unfold tryCatch, bind, Form.findById, Query.findById, Form.findOne, Query.findOne, ret.
  rewrite Hc. cbn [coll forms_coll]. cbv beta iota. split.
  - intros Habs. rewrite find_absent; [reflexivity|].
    intros f Hf. destruct (Query.hasId oid f) eqn:E; [|reflexivity].
    apply hasId_true in E. exfalso. exact (Habs f Hf E).
  - intros old Hold. rewrite Hold. cbv beta iota.
    destruct (find (fun f => negb (Query.hasId (FormDoc._id old) f) && _) (forms st))
      as [f|] eqn:Hf.
    + assert (exists f, In f (forms st) /\ FormDoc._id f <> FormDoc._id old
                        /\ (name = Some (FormDoc.name f) \/ url = Some (FormDoc.url f)))
        as Ht.
      { apply find_some in Hf. destruct Hf as [Hin Hm]. apply andb_prop in Hm.
        destruct Hm as [Hid Hm]. exists f. split; [exact Hin|]. split.
        - intros E. assert (Query.hasId (FormDoc._id old) f = true) as Hh
            by (apply hasId_true; exact E).
          rewrite Hh in Hid. discriminate Hid.
        - unfold Form.nameOrUrl in Hm. apply orb_prop in Hm.
          destruct Hm as [Hm|Hm]; apply form_matches_eq in Hm; auto. }
      repeat split; intros; try contradiction; reflexivity.
    + assert (~ (exists f, In f (forms st) /\ FormDoc._id f <> FormDoc._id old
                           /\ (name = Some (FormDoc.name f) \/ url = Some (FormDoc.url f))))
        as Ht.
      { intros (f & Hin & Hid & Hm). pose proof (find_none _ _ Hf f Hin) as Hn.
        assert (Query.hasId (FormDoc._id old) f = false) as Hh.
        { destruct (Query.hasId (FormDoc._id old) f) eqn:E; [|reflexivity].
          apply hasId_true in E. contradiction. }
        cbv beta in Hn. rewrite Hh in Hn. cbn [negb andb] in Hn.
        unfold Form.nameOrUrl in Hn. apply orb_false_elim in Hn. destruct Hn as [H1 H2].
        destruct Hm as [Hm|Hm]; apply form_matches_eq in Hm; congruence. }
      split; [intros; contradiction|].
      unfold Form.assignAndSave, Form.validate, Schema.requiredError.
      cbn [Form.name Form.url]. fold name. fold url. split.
      * intros _ Hblank.
        destruct (JS.truthy name), (JS.truthy url); try discriminate Hblank; reflexivity.
      * intros _ n u Hn Hnn Hu Hun. rewrite Hn, Hu. unfold JS.truthy.
        destruct (String.eqb_spec n ""); [contradiction|].
        destruct (String.eqb_spec u ""); [contradiction|].
        cbn [negb app Schema.valueOf]. unfold Form.store, Form.preSave.
        cbn [FormDoc._id FormDoc.name FormDoc.url FormDoc.createdAt].
        rewrite form_clash_free; [reflexivity|].
        intros f Hin Hid. split; intros E; apply Ht; exists f;
          (split; [exact Hin|]); (split; [exact Hid|]); [left | right]; congruence.
Qed.

(** "Intake" is renamed at time 200: the dates before and after. *)
Lemma form_update_outcomes_sample :
  let st := mkStore [] [] [] [FormDoc.mk Sample.customerId "Intake" "/intake" 1 1] [] [] in
  let req := Sample.request POST [] []
               (Forms.mkBody (Some "Admission") (Some "/intake") (Some Sample.customerId)) in
  Forms.createOrUpdate [] req (Some Sample.admin) st
  = (json (OneForm (FormDoc.mk Sample.customerId "Admission" "/intake" 1 200)),
     mkStore [] [] [] [FormDoc.mk Sample.customerId "Admission" "/intake" 1 200] [] []).
Proof.
  intros st req.
  refine (proj2 (proj2 (proj2 (form_update_outcomes [] req (Some Sample.admin) st
            Sample.customerId Sample.customerId eq_refl _ eq_refl) _ eq_refl)) _
            "Admission" "/intake" eq_refl _ eq_refl _); try discriminate.
  intros (f & [<-|[]] & Hid & _). apply Hid. reflexivity.
Defined.

(** ** The form-categories router *)

Lemma category_clash_iff (self : ObjectId) (n : string) (l : list CategoryDoc.t) :
  FormCategory.clash self n l = false
  <-> (forall c, In c l -> CategoryDoc._id c <> self -> CategoryDoc.name c <> n).
Proof.
  unfold FormCategory.clash. split.
  - intros H c Hc Hid E.
    assert (existsb (fun c => negb (Query.hasId self c) && (CategoryDoc.name c =? n)%string) l
            = true) as C; [|congruence].
    apply existsb_exists. exists c. split; [exact Hc|].
    destruct (Query.hasId self c) eqn:Hh.
    + apply hasId_true in Hh. contradiction.
    + rewrite E, String.eqb_refl. reflexivity.
  - intros H. destruct (existsb _ l) eqn:E; [|reflexivity].
    apply existsb_exists in E. destruct E as (c & Hc & Hb).
    apply andb_prop in Hb. destruct Hb as [Hid Hn]. apply String.eqb_eq in Hn.
    exfalso. apply (H c Hc); [|exact Hn].
    intros E. assert (Query.hasId self c = true) as Hh by (apply hasId_true; exact E).
    rewrite Hh in Hid. discriminate Hid.
Qed.






Lemma category_create_store params req user (st : Store) :
  let st' := snd (FormCategories.create params req user st) in
  st' = st
  \/ exists c,
       CategoryDoc._id c = freshId req
       /\ FormCategory.clash (freshId req) (CategoryDoc.name c) (formCategories st) = false
       /\ st' = setColl (formCategories st ++ [c]) st.
Proof.
  cbv zeta. unfold FormCategories.create.
  destruct (negb (Validator.isEmpty _)); [left; reflexivity|].
  unfold tryCatch, bind, FormCategory.findOne, Query.findOne, ret.
  cbn [FormCategories.resolve FormCategories.moduleScope JS.includes existsb
       String.eqb Ascii.eqb Bool.eqb orb ret coll categories_coll].
  cbv beta iota.
  destruct (find _ (formCategories st)); [left; reflexivity|].
  destruct user as [u|]; cbn [currentUser ret throw]; cbv beta iota; [|left; reflexivity].
  unfold FormCategory.save.
  destruct (Schema.requiredError _ _); [|left; reflexivity].
  match goal with
  | |- context [FormCategory.clash ?i ?n ?l] => destruct (FormCategory.clash i n l) eqn:Hc
  end; [left; reflexivity|].
  right.
  match goal with
  | |- context [Query.insertOne ?d] => exists d
  end.
  split; [reflexivity|]. split; [exact Hc | reflexivity].
Qed.

Lemma category_update_store params req user (st : Store) :
  let st' := snd (FormCategories.update params req user st) in
  st' = st
  \/ exists old c,
       In old (formCategories st) /\ CategoryDoc._id c = CategoryDoc._id old
       /\ FormCategory.clash (CategoryDoc._id c) (CategoryDoc.name c) (formCategories st)
          = false
       /\ st' = setColl
                  (List.map (fun x => if (CategoryDoc._id x =? CategoryDoc._id c)%string
                                      then c else x) (formCategories st)) st.
Proof.
  cbv zeta. unfold FormCategories.update.
  destruct (negb (Validator.isEmpty _)); [left; reflexivity|].
  unfold tryCatch, FormCategory.findById, Query.findById, FormCategory.findOne,
    FormCategory.findByIdAndUpdate.
  cbn [FormCategories.resolve FormCategories.moduleScope JS.includes existsb
       String.eqb Ascii.eqb Bool.eqb orb].
  destruct (castObjectId (param_id params)) as [oid|];
    unfold bind, Query.findOne, ret, throw; cbn [coll categories_coll]; cbv beta iota;
    [|left; reflexivity].
  destruct (find (Query.hasId oid) (formCategories st)) as [old|] eqn:Hold;
    cbv beta iota; [|left; reflexivity].
  assert (CategoryDoc._id old = oid /\ In old (formCategories st)) as [Hoid Hin].
  { apply find_some in Hold. destruct Hold as [Hin H]. apply hasId_true in H. auto. }
  destruct (negb _); cbv beta iota;
    [destruct (find (FormCategory.named _) (formCategories st)); [left; reflexivity|]|];
    (destruct user as [u|]; cbn [currentUser ret throw]; cbv beta iota;
     [|left; reflexivity]);
    cbn [coll categories_coll]; rewrite Hold; cbv beta iota;
    match goal with
    | |- context [FormCategory.clash ?i ?n ?l] => destruct (FormCategory.clash i n l) eqn:Hc
    end; try (left; reflexivity);
    right;
    match goal with
    | |- context [Query.replaceOne ?d] => exists old, d
    end;
    (split; [exact Hin|]); (split; [reflexivity|]);
    (split; [cbn [FormCategory.applyUpdate CategoryDoc._id]; rewrite Hoid; exact Hc
            | reflexivity]).
Qed.

Lemma each_resolves {A B} (f : A -> Async B) (g : Store -> A -> B) :
  (forall a st, f a st = (Resolved (g st a), st)) ->
  forall l st, Populate.each f l st = (Resolved (List.map (g st) l), st).
Proof.
  intros Hf. induction l as [|a l IH]; intros st; cbn [Populate.each List.map];
    [reflexivity|].
  unfold bind. rewrite Hf, IH. reflexivity.
Qed.

Lemma category_list_store params req user (st : Store) :
  snd (FormCategories.list params req user st) = st.
Proof.
  unfold FormCategories.list, tryCatch, bind, FormCategory.find, Query.find, ret.
  cbn [FormCategories.resolve FormCategories.moduleScope JS.includes existsb
       String.eqb Ascii.eqb Bool.eqb orb ret coll categories_coll].
  cbv beta iota.
  rewrite (each_resolves Populate.category
             (fun st c => (c, mkPopulated None
                                (Populate.userRef st (CategoryDoc.createdBy c))
                                (Populate.optUser st (CategoryDoc.updatedBy c)))))
    by reflexivity.
  reflexivity.
Qed.

Section CategoriesRouter.
Variable guard : Middleware FormCategories.ReqBody.

(** X14.  Whatever middleware function stands for [auth], the routes of
    the form-categories module are registered, and whatever the request,
    that router keeps the identifiers and the names of the stored
    categories unique, as long as the identifier offered for a new
    category is not in use; it removes no category, so every subcategory
    that belonged to a stored category still does; and it touches no
    other collection. *)
Theorem categories_router_keeps_names_unique (req : Request FormCategories.ReqBody)
  (st : Store) :
  Invariant.categoriesUnique st ->
  Invariant.fresh (D := CategoryDoc.t) (freshId req) st ->
  exists router,
    mount (FormCategories.registrations (Callable guard)) = Exported router
    /\ let st' := snd (dispatch router req st) in
       Invariant.categoriesUnique st'
       /\ (Invariant.referential st -> Invariant.referential st')
       /\ users st' = users st /\ formSubCategories st' = formSubCategories st
       /\ forms st' = forms st /\ customers st' = customers st
       /\ messageTemplates st' = messageTemplates st.
Proof.
  intros Hu Hf.
  exists [ mkRoute GET [] [guard] FormCategories.list;
           mkRoute POST [] [guard] FormCategories.create;
           mkRoute PUT [Param "id"] [guard] FormCategories.update;
           mkRoute DELETE [Param "id"] [guard] FormCategories.remove ].
  split; [reflexivity|]. intros st'. subst st'.
  assert (forall ids : list CategoryDoc.t,
            incl (List.map CategoryDoc._id (formCategories st)) (List.map CategoryDoc._id ids) ->
            Invariant.referential st ->
            forall s, In s (formSubCategories st) ->
                      exists c, In c ids /\ CategoryDoc._id c = SubCategoryDoc.categoryId s)
    as Href.
  { intros ids Hincl Hr s Hs. destruct (Hr s Hs) as (c & Hc & E).
    assert (In (CategoryDoc._id c) (List.map CategoryDoc._id ids)) as Hin
      by (apply Hincl, in_map, Hc).
    apply in_map_iff in Hin. destruct Hin as (c' & E' & Hc'). exists c'. split; congruence. }
  apply (dispatch_preserves _
           (fun req0 st0 => req0 = req /\ st0 = st)
           (fun st' => Invariant.categoriesUnique st'
                       /\ (Invariant.referential st -> Invariant.referential st')
                       /\ users st' = users st
                       /\ formSubCategories st' = formSubCategories st
                       /\ forms st' = forms st /\ customers st' = customers st
                       /\ messageTemplates st' = messageTemplates st));
    [ intros ? ? [-> ->]; repeat split; solve [apply Hu | auto] | | split; reflexivity ].
  destruct Hu as (Hid & Hname).
  pose proof (fresh_hasId (D := CategoryDoc.t) _ _ Hf) as Hno.
  cbn [coll categories_coll] in Hno.
  apply Forall_cons; [|apply Forall_cons; [|apply Forall_cons; [|apply Forall_cons;
    [|apply Forall_nil]]]];
    cbn [r_handler]; intros params ? user ? [-> ->];
    unfold Invariant.categoriesUnique, Invariant.referential.
  - rewrite category_list_store. repeat split; auto.
  - destruct (category_create_store params req user st) as [-> | (c & Hcid & Hc & ->)];
      cbn [setColl categories_coll users formCategories formSubCategories forms customers
           messageTemplates].
    + repeat split; auto.
    + assert (forall x, In x (formCategories st) -> CategoryDoc._id x <> freshId req) as Hne.
      { intros x Hx E. pose proof (Hno x Hx) as Hx'.
        assert (Query.hasId (freshId req) x = true) by (apply hasId_true; exact E).
        congruence. }
      repeat split; try reflexivity.
      * apply NoDup_map_snoc; [exact Hid|]. intros x Hx. rewrite Hcid. apply Hne. exact Hx.
      * apply NoDup_map_snoc; [exact Hname|]. intros x Hx.
        apply (proj1 (category_clash_iff _ _ _) Hc x Hx (Hne x Hx)).
      * apply Href. rewrite map_app. apply incl_appl, incl_refl.
  - destruct (category_update_store params req user st)
      as [-> | (old & c & Hin & Hcid & Hc & ->)];
      cbn [setColl categories_coll users formCategories formSubCategories forms customers
           messageTemplates].
    + repeat split; auto.
    + repeat split; try reflexivity.
      * rewrite (replace_keeps_ids CategoryDoc._id (CategoryDoc._id c) c eq_refl). exact Hid.
      * apply (NoDup_map_replace CategoryDoc._id (CategoryDoc._id c) c); try assumption.
        intros x Hx Hx'. apply (proj1 (category_clash_iff _ _ _) Hc x Hx Hx').
      * apply Href.
        rewrite (replace_keeps_ids CategoryDoc._id (CategoryDoc._id c) c eq_refl).
        apply incl_refl.
  - rewrite (proj1 (remove_category_keeps_store params req user st)).
    repeat split; auto.
Qed.

End CategoriesRouter.

(** The admin renames "Licences" to "Permits" through the router; the
    subcategory "Renewals" still has its category. *)
Lemma categories_router_keeps_names_unique_sample :
  let req := Sample.requestWith (Some "Bearer admin-token") None PUT [Sample.categoryId]
               (FormCategories.mkBody (Some "Permits") None None) in
  exists router,
    mount (FormCategories.registrations
             (Callable (protect Sample.adminToken Sample.neverChanged)))
    = Exported router
    /\ let st' := snd (dispatch router req Sample.withSubCategory) in
       Invariant.categoriesUnique st' /\ Invariant.referential st'
       /\ List.map CategoryDoc.name (formCategories st') = ["Permits"].
Proof.
  intros req.
  destruct (categories_router_keeps_names_unique
              (protect Sample.adminToken Sample.neverChanged) req Sample.withSubCategory)
    as (router & Hm & Hu & Hr & _).
  - split; repeat constructor; intros [].
  - intros [H|[]]. discriminate H.
  - exists router. split; [exact Hm|]. intros st'.
    split; [exact Hu|]. split.
    + apply Hr. intros s [<-|[]]. exists Sample.licences.
      split; [left; reflexivity | reflexivity].
    + injection Hm as <-. reflexivity.
Defined.

(** ** The form-subcategories router *)

Lemma subcategory_clash_false (self : ObjectId) (n : string) (cat : ObjectId)
  (l : list SubCategoryDoc.t) :
  FormSubCategory.clash self n cat l = false ->
  forall s, In s l -> SubCategoryDoc._id s <> self ->
            (SubCategoryDoc.name s, SubCategoryDoc.categoryId s) <> (n, cat).
Proof.
  unfold FormSubCategory.clash. intros H s Hs Hid E. injection E as En Ec.
  assert (existsb (fun s => negb (Query.hasId self s) && (SubCategoryDoc.name s =? n)%string
                            && FormSubCategory.inCategory cat s) l = true) as C;
    [|congruence].
  apply existsb_exists. exists s. split; [exact Hs|].
  destruct (Query.hasId self s) eqn:Hh.
  - apply hasId_true in Hh. contradiction.
  - unfold FormSubCategory.inCategory. rewrite En, Ec, !String.eqb_refl. reflexivity.
Qed.

Lemma subcategory_create_store params req user (st : Store) :
  let st' := snd (FormSubCategories.create params req user st) in
  st' = st
  \/ exists s,
       SubCategoryDoc._id s = freshId req
       /\ FormSubCategory.clash (freshId req) (SubCategoryDoc.name s)
            (SubCategoryDoc.categoryId s) (formSubCategories st) = false
       /\ (exists c, In c (formCategories st)
                     /\ CategoryDoc._id c = SubCategoryDoc.categoryId s)
       /\ st' = setColl (formSubCategories st ++ [s]) st.
Proof.
  cbv zeta. unfold FormSubCategories.create.
  destruct (negb (Validator.isEmpty _)); [left; reflexivity|].
  unfold tryCatch, FormCategory.findById, Query.findById, FormSubCategory.findOne.
  destruct (FormSubCategories.categoryId (body req)) as [c|]; cbn [Schema.valueOf];
    [|left; reflexivity].
  destruct (castObjectId c) as [oid|] eqn:Hcast;
    unfold bind, Query.findOne, ret, throw; cbn [coll categories_coll subcategories_coll];
    cbv beta iota; [|left; reflexivity].
  destruct (find (Query.hasId oid) (formCategories st)) as [cat|] eqn:Hcat;
    cbv beta iota; [|left; reflexivity].
  assert (exists c, In c (formCategories st) /\ CategoryDoc._id c = oid) as Hknown.
  { apply find_some in Hcat. destruct Hcat as [Hin H]. apply hasId_true in H.
    exists cat. auto. }
  destruct (find _ (formSubCategories st)); cbv beta iota; [left; reflexivity|].
  destruct (FormSubCategories.validateFields _); cbv beta iota; [left; reflexivity|].
  destruct user as [u|]; cbn [currentUser ret throw]; cbv beta iota; [|left; reflexivity].
  unfold FormSubCategory.save. cbn [FormSubCategory.d_categoryId]. rewrite Hcast.
  match goal with
  | |- context [match ?e with [] => _ | _ :: _ => _ end] => destruct e
  end; cbv beta iota; [|left; reflexivity].
  match goal with
  | |- context [FormSubCategory.clash ?i ?n ?k ?l] =>
      destruct (FormSubCategory.clash i n k l) eqn:Hc
  end; [left; reflexivity|].
  right.
  match goal with
  | |- context [Query.insertOne ?d] => exists d
  end.
  split; [reflexivity|]. split; [exact Hc|]. split; [exact Hknown|].
  unfold Query.insertOne. cbn [coll setColl subcategories_coll]. cbv beta iota.
  match goal with
  | |- context [find ?p ?l] => destruct (find p l)
  end; reflexivity.
Qed.

Lemma subcategory_update_store params req user (st : Store) :
  let st' := snd (FormSubCategories.update params req user st) in
  st' = st
  \/ exists old s,
       In old (formSubCategories st) /\ SubCategoryDoc._id s = SubCategoryDoc._id old
       /\ FormSubCategory.clash (SubCategoryDoc._id s) (SubCategoryDoc.name s)
            (SubCategoryDoc.categoryId s) (formSubCategories st) = false
       /\ (exists c, In c (formCategories st)
                     /\ CategoryDoc._id c = SubCategoryDoc.categoryId s)
       /\ st' = setColl
                  (List.map (fun x => if (SubCategoryDoc._id x =? SubCategoryDoc._id s)%string
                                      then s else x) (formSubCategories st)) st.
Proof.
  cbv zeta. unfold FormSubCategories.update.
  destruct (negb (Validator.isEmpty _)); [left; reflexivity|].
  unfold tryCatch, FormSubCategory.findById, FormCategory.findById, Query.findById,
    FormSubCategory.findOne, FormSubCategory.findByIdAndUpdate.
  cbn [FormSubCategory.u_categoryId].
  destruct (castObjectId (param_id params)) as [oid|];
    unfold bind, Query.findOne, ret, throw; cbn [coll categories_coll subcategories_coll];
    cbv beta iota; [|left; reflexivity].
  destruct (find (Query.hasId oid) (formSubCategories st)) as [old|] eqn:Hold;
    cbv beta iota; [|left; reflexivity].
  assert (SubCategoryDoc._id old = oid /\ In old (formSubCategories st)) as [Hoid Hin].
  { apply find_some in Hold. destruct Hold as [Hin H]. apply hasId_true in H. auto. }
  destruct (castObjectId (Schema.valueOf (FormSubCategories.categoryId (body req))))
    as [cid|] eqn:Hcast; cbv beta iota; [|left; reflexivity].
  destruct (find (Query.hasId cid) (formCategories st)) as [cat|] eqn:Hcat;
    cbv beta iota; [|left; reflexivity].
  assert (exists c, In c (formCategories st) /\ CategoryDoc._id c = cid) as Hknown.
  { apply find_some in Hcat. destruct Hcat as [Hc H]. apply hasId_true in H.
    exists cat. auto. }
  destruct (negb _ || negb _); cbv beta iota;
    [destruct (find (fun s => FormSubCategory.nameAndCategory _ _ s && _)
                 (formSubCategories st)); cbv beta iota; [left; reflexivity|]|];
    (destruct (FormSubCategories.validateFields _); cbv beta iota; [left; reflexivity|]);
    (destruct user as [u|]; cbn [currentUser ret throw]; cbv beta iota;
     [|left; reflexivity]);
    cbn [coll subcategories_coll]; rewrite Hold; cbv beta iota;
    match goal with
    | |- context [FormSubCategory.clash ?i ?n ?k ?l] =>
        destruct (FormSubCategory.clash i n k l) eqn:Hc
    end; try (left; reflexivity);
    right;
    match goal with
    | |- context [Query.replaceOne ?d] => exists old, d
    end;
    (split; [exact Hin|]); (split; [reflexivity|]);
    (split; [cbn [FormSubCategory.applyUpdate SubCategoryDoc._id SubCategoryDoc.categoryId];
             rewrite Hoid; exact Hc|]);
    (split; [exact Hknown | reflexivity]).
Qed.

Lemma subcategory_reads_keep_store params req user (st : Store) :
  snd (FormSubCategories.list params req user st) = st
  /\ snd (FormSubCategories.get params req user st) = st.
Proof.
  split.
  - unfold FormSubCategories.list, tryCatch, bind.
    assert (forall (found : Async (list SubCategoryDoc.t)),
              (forall s, snd (found s) = s) ->
              snd (let (o, st') :=
                     let (o, st') := found st in
                     match o with
                     | Resolved a =>
                         let (o0, st'0) :=
                           Populate.each (Populate.subcategory true true) a st' in
                         match o0 with
                         | Resolved a0 =>
                             ret (json (ManySubCategories
                                    (newestFirst
                                       (fun p => SubCategoryDoc.createdAt (fst p)) a0)))
                               st'0
                         | Rejected e => (Rejected e, st'0)
                         end
                     | Rejected e => (Rejected e, st')
                     end in
                   match o with
                   | Resolved r => (r, st')
                   | Rejected e => (FormSubCategories.serverError e, st')
                   end) = st) as H.
    { intros found Hf. specialize (Hf st). destruct (found st) as [[a|e] s]; cbn [snd] in Hf;
        subst s; [|reflexivity].
      rewrite (each_resolves (Populate.subcategory true true)
                 (fun st s => (s, mkPopulated
                                    (Populate.categoryName st (SubCategoryDoc.categoryId s))
                                    (Populate.userRef st (SubCategoryDoc.createdBy s))
                                    (Populate.optUser st (SubCategoryDoc.updatedBy s)))))
        by reflexivity.
      reflexivity. }
    apply H. intros s.
    destruct (JS.truthy _); [destruct (castObjectId _)|]; reflexivity.
  - unfold FormSubCategories.get, tryCatch, bind, FormSubCategory.findById, Query.findById.
    destruct (castObjectId (param_id params)); [|reflexivity].
    unfold Query.findOne. cbn [coll subcategories_coll].
    destruct (find _ (formSubCategories st)); reflexivity.
Qed.

Lemma subcategory_delete_store params req user (st : Store) :
  exists p,
    snd (FormSubCategories.remove params req user st)
    = setColl (List.filter p (formSubCategories st)) st.
Proof.
  unfold FormSubCategories.remove, tryCatch, bind, FormSubCategory.findById,
    FormSubCategory.findByIdAndRemove, Query.findById, Query.findByIdAndDelete.
  assert (exists p, st = setColl (List.filter p (formSubCategories st)) st) as Same.
  { exists (fun _ => true). rewrite filter_all by reflexivity. destruct st; reflexivity. }
  destruct (castObjectId (param_id params)) as [oid|]; [|exact Same].
  unfold Query.findOne. cbn [coll subcategories_coll]. cbv beta iota.
  destruct (find (Query.hasId oid) (formSubCategories st)) eqn:Hf; [|exact Same].
  cbv beta iota. cbn [coll subcategories_coll]. rewrite Hf.
  eexists. reflexivity.
Qed.

Section SubCategoriesRouter.
Variable guard : Middleware FormSubCategories.ReqBody.

(** X15.  Whatever middleware function stands for [auth], the routes of
    the form-subcategories module are registered, and whatever the
    request, that router keeps the identifiers of the stored
    subcategories unique and their (name, categoryId) pairs unique, as
    long as the identifier offered for a new subcategory is not in use;
    it keeps every stored subcategory in a stored category; and it
    touches no other collection. *)
Theorem subcategories_router_keeps_store_consistent
  (req : Request FormSubCategories.ReqBody) (st : Store) :
  Invariant.subCategoriesUnique st ->
  Invariant.referential st ->
  Invariant.fresh (D := SubCategoryDoc.t) (freshId req) st ->
  exists router,
    mount (FormSubCategories.registrations (Callable guard)) = Exported router
    /\ let st' := snd (dispatch router req st) in
       Invariant.subCategoriesUnique st' /\ Invariant.referential st'
       /\ users st' = users st /\ formCategories st' = formCategories st
       /\ forms st' = forms st /\ customers st' = customers st
       /\ messageTemplates st' = messageTemplates st.
Proof.
  intros Hu Hr Hf.
  exists [ mkRoute GET [] [guard] FormSubCategories.list;
           mkRoute GET [Param "id"] [guard] FormSubCategories.get;
           mkRoute POST [] [guard] FormSubCategories.create;
           mkRoute PUT [Param "id"] [guard] FormSubCategories.update;
           mkRoute DELETE [Param "id"] [guard] FormSubCategories.remove ].
  split; [reflexivity|]. intros st'. subst st'.
  apply (dispatch_preserves _
           (fun req0 st0 => req0 = req /\ st0 = st)
           (fun st' => Invariant.subCategoriesUnique st' /\ Invariant.referential st'
                       /\ users st' = users st /\ formCategories st' = formCategories st
                       /\ forms st' = forms st /\ customers st' = customers st
                       /\ messageTemplates st' = messageTemplates st));
    [ intros ? ? [-> ->]; repeat split; solve [apply Hu | auto] | | split; reflexivity ].
  destruct Hu as (Hid & Hpair).
  pose proof (fresh_hasId (D := SubCategoryDoc.t) _ _ Hf) as Hno.
  cbn [coll subcategories_coll] in Hno.
  apply Forall_cons; [|apply Forall_cons; [|apply Forall_cons; [|apply Forall_cons;
    [|apply Forall_cons; [|apply Forall_nil]]]]];
    cbn [r_handler]; intros params ? user ? [-> ->];
    unfold Invariant.subCategoriesUnique, Invariant.referential.
  - rewrite (proj1 (subcategory_reads_keep_store params req user st)).
    repeat split; auto.
  - rewrite (proj2 (subcategory_reads_keep_store params req user st)).
    repeat split; auto.
  - destruct (subcategory_create_store params req user st)
      as [-> | (s & Hsid & Hc & Hcat & ->)];
      cbn [setColl subcategories_coll users formCategories formSubCategories forms
           customers messageTemplates].
    + repeat split; auto.
    + assert (forall x, In x (formSubCategories st) -> SubCategoryDoc._id x <> freshId req)
        as Hne.
      { intros x Hx E. pose proof (Hno x Hx) as Hx'.
        assert (Query.hasId (freshId req) x = true) by (apply hasId_true; exact E).
        congruence. }
      repeat split; try reflexivity.
      * apply NoDup_map_snoc; [exact Hid|]. intros x Hx. rewrite Hsid. apply Hne. exact Hx.
      * apply NoDup_map_snoc; [exact Hpair|]. intros x Hx.
        apply (subcategory_clash_false _ _ _ _ Hc x Hx (Hne x Hx)).
      * intros x Hx. apply in_app_or in Hx. destruct Hx as [Hx|[<-|[]]]; auto.
  - destruct (subcategory_update_store params req user st)
      as [-> | (old & s & Hin & Hsid & Hc & Hcat & ->)];
      cbn [setColl subcategories_coll users formCategories formSubCategories forms
           customers messageTemplates].
    + repeat split; auto.
    + repeat split; try reflexivity.
      * rewrite (replace_keeps_ids SubCategoryDoc._id (SubCategoryDoc._id s) s eq_refl).
        exact Hid.
      * apply (NoDup_map_replace SubCategoryDoc._id (SubCategoryDoc._id s) s
                 (fun x => (SubCategoryDoc.name x, SubCategoryDoc.categoryId x)));
          try assumption.
        intros x Hx Hx'. apply (subcategory_clash_false _ _ _ _ Hc x Hx Hx').
      * intros x Hx.
        destruct (replace_In SubCategoryDoc._id (SubCategoryDoc._id s) s _ x Hx)
          as [[Hxl _] | ->]; auto.
  - destruct (subcategory_delete_store params req user st) as (p & ->).
    cbn [setColl subcategories_coll users formCategories formSubCategories forms
         customers messageTemplates].
    repeat split; try reflexivity; try (apply NoDup_map_filter; assumption).
    intros x Hx. apply filter_In in Hx. apply Hr. apply Hx.
Qed.

End SubCategoriesRouter.

(** The admin moves "Renewals" to another name through the router. *)
Lemma subcategories_router_keeps_store_consistent_sample :
  let req := Sample.requestWith (Some "Bearer admin-token") None PUT
               [Sample.subCategoryId]
               (FormSubCategories.mkBody (Some "Extensions") (Some Sample.categoryId)
                  None (Some [Sample.plainField]) None) in
  exists router,
    mount (FormSubCategories.registrations
             (Callable (protect Sample.adminToken Sample.neverChanged)))
    = Exported router
    /\ let st' := snd (dispatch router req Sample.withSubCategory) in
       Invariant.subCategoriesUnique st' /\ Invariant.referential st'
       /\ List.map SubCategoryDoc.name (formSubCategories st') = ["Extensions"].
Proof.
  intros req.
  destruct (subcategories_router_keeps_store_consistent
              (protect Sample.adminToken Sample.neverChanged) req Sample.withSubCategory)
    as (router & Hm & Hu & Hr & _).
  - split; repeat constructor; intros [].
  - intros s [<-|[]]. exists Sample.licences. split; [left; reflexivity | reflexivity].
  - intros [H|[]]. discriminate H.
  - exists router. split; [exact Hm|]. intros st'.
    split; [exact Hu|]. split; [exact Hr|].
    injection Hm as <-. reflexivity.
Defined.






(** X18.  Deleting a subcategory never looks at anything else: for a
    well-formed identifier that names one, the answer is 200 and the
    subcategories with that identifier, and only they, leave the store;
    afterwards the identifier names nothing, so GET and a second DELETE
    are answered 404.  An identifier that names none is answered 404 and
    changes nothing. *)
Theorem subcategory_delete_outcomes params req user (st : Store) (oid : ObjectId) :
  castObjectId (param_id params) = Some oid ->
  let result := FormSubCategories.remove params req user st in
  ((forall s, In s (formSubCategories st) -> SubCategoryDoc._id s <> oid) ->
   result = (FormSubCategories.notFound, st))
  /\ ((exists s, In s (formSubCategories st) /\ SubCategoryDoc._id s = oid) ->
      result
      = (json (Data (JObj [("msg", JStr "Form subcategory removed")])),
         mkStore (users st) (formCategories st)
           (List.filter (fun s => negb (SubCategoryDoc._id s =? oid)%string)
              (formSubCategories st))
           (forms st) (customers st) (messageTemplates st)))
  /\ (forall req' user',
        FormSubCategories.get params req' user' (snd result)
        = (FormSubCategories.notFound, snd result)
        /\ FormSubCategories.remove params req' user' (snd result)
           = (FormSubCategories.notFound, snd result)).
Proof.
  intros Hc result.
  assert (forall s0, List.find (Query.hasId oid) (formSubCategories s0) = None ->
            forall req' user',
              FormSubCategories.get params req' user' s0 = (FormSubCategories.notFound, s0)
              /\ FormSubCategories.remove params req' user' s0
                 = (FormSubCategories.notFound, s0)) as Hgone.
  { intros s0 Hf req' user'.
    unfold FormSubCategories.get, FormSubCategories.remove, tryCatch, bind,
      FormSubCategory.findById, Query.findById, Query.findOne.
    rewrite Hc. cbn [coll subcategories_coll]. rewrite Hf. split; reflexivity. }
  assert (result
          = match List.find (Query.hasId oid) (formSubCategories st) with
            | Some _ =>
                (json (Data (JObj [("msg", JStr "Form subcategory removed")])),
                 mkStore (users st) (formCategories st)
                   (List.filter (fun s => negb (SubCategoryDoc._id s =? oid)%string)
                      (formSubCategories st))
                   (forms st) (customers st) (messageTemplates st))
            | None => (FormSubCategories.notFound, st)
            end) as Hres.
  { subst result.
    unfold FormSubCategories.remove, tryCatch, bind, FormSubCategory.findById,
      FormSubCategory.findByIdAndRemove, Query.findById, Query.findByIdAndDelete,
      Query.findOne.
    rewrite Hc. cbn [coll subcategories_coll]. cbv beta iota.
    destruct (find (Query.hasId oid) (formSubCategories st)) as [s|] eqn:Hf;
      cbv beta iota; [|reflexivity].
    cbn [coll subcategories_coll]. rewrite Hf. reflexivity. }
  rewrite Hres. clear Hres.
  destruct (find (Query.hasId oid) (formSubCategories st)) as [s|] eqn:Hf.
  - split; [|split].
    + intros Habs. apply find_some in Hf. destruct Hf as [Hin Hid].
      apply hasId_true in Hid. exfalso. exact (Habs s Hin Hid).
    + intros _. reflexivity.
    + apply Hgone. cbn [snd formSubCategories].
      exact (find_filter_out (Query.hasId oid) (formSubCategories st)).
  - split; [|split].
    + intros _. reflexivity.
    + intros (s & Hin & Hid). pose proof (find_none _ _ Hf s Hin) as Hn.
      assert (Query.hasId oid s = true) by (apply hasId_true; exact Hid). congruence.
    + apply Hgone. exact Hf.
Qed.

(** "Renewals" is deleted; a second DELETE finds nothing. *)
Lemma subcategory_delete_outcomes_sample :
  let req := Sample.request DELETE [Sample.subCategoryId] []
               (FormSubCategories.mkBody None None None None None) in
  let once := FormSubCategories.remove [("id", Sample.subCategoryId)] req
                (Some Sample.admin) Sample.withSubCategory in
  once = (json (Data (JObj [("msg", JStr "Form subcategory removed")])),
          Sample.oneCategory)
  /\ FormSubCategories.remove [("id", Sample.subCategoryId)] req (Some Sample.admin)
       (snd once)
     = (FormSubCategories.notFound, snd once).
Proof.
  intros req once.
  destruct (subcategory_delete_outcomes [("id", Sample.subCategoryId)] req
              (Some Sample.admin) Sample.withSubCategory Sample.subCategoryId eq_refl)
    as (_ & Hdel & Hgone).
  split.
  - subst once. rewrite Hdel; [reflexivity|].
    exists Sample.renewals. split; [left; reflexivity | reflexivity].
  - apply Hgone.
Defined.

(** ** Listing: what [sort] returns *)

Section SortingFacts.
Context {D : Type} (before : D -> D -> bool).
Hypothesis before_total : forall a b, before a b = true \/ before b a = true.

Let ordered (a b : D) : Prop := before a b = true.

Lemma insertSorted_perm (x : D) (l : list D) :
  Permutation (insertSorted before x l) (x :: l).
Proof.
  induction l as [|y l IH]; cbn [insertSorted]; [reflexivity|].
  destruct (before x y); [reflexivity|].
  rewrite IH. apply perm_swap.
Qed.

Lemma sortWith_perm (l : list D) : Permutation (sortWith before l) l.
Proof.
  unfold sortWith. induction l as [|x l IH]; cbn [fold_right]; [reflexivity|].
  rewrite insertSorted_perm. constructor. exact IH.
Qed.

Lemma insertSorted_hd (a x : D) (l : list D) :
  ordered a x -> HdRel ordered a l -> HdRel ordered a (insertSorted before x l).
Proof.
  intros Hax Hl. destruct l as [|y l]; cbn [insertSorted]; [constructor; exact Hax|].
  destruct (before x y); constructor; [exact Hax|].
  inversion Hl; assumption.
Qed.

Lemma insertSorted_sorted (x : D) (l : list D) :
  Sorted ordered l -> Sorted ordered (insertSorted before x l).
Proof.
  induction l as [|y l IH]; intros Hs; cbn [insertSorted].
  - repeat constructor.
  - destruct (before x y) eqn:E.
    + constructor; [exact Hs | constructor; exact E].
    + inversion Hs as [|? ? Hl Hh]; subst. constructor; [apply IH; exact Hl|].
      apply insertSorted_hd; [|exact Hh].
      destruct (before_total x y) as [H|H]; [congruence | exact H].
Qed.

Lemma sortWith_sorted (l : list D) : Sorted ordered (sortWith before l).
Proof.
  unfold sortWith. induction l as [|x l IH]; cbn [fold_right]; [constructor|].
  apply insertSorted_sorted. exact IH.
Qed.

End SortingFacts.

Lemma newestFirst_sorted {D} (createdAt : D -> Z) (l : list D) :
  Permutation (newestFirst createdAt l) l
  /\ StronglySorted (fun a b => createdAt b <= createdAt a) (newestFirst createdAt l).
Proof.
  split; [apply sortWith_perm|].
  apply Sorted_StronglySorted.
  - intros a b c Hab Hbc. lia.
  - assert (forall l', Sorted (fun a b => (createdAt b <=? createdAt a) = true) l' ->
                       Sorted (fun a b => createdAt b <= createdAt a) l') as Conv.
    { induction 1 as [|a l' Hs IH Hh]; constructor; [exact IH|].
      destruct Hh; constructor. apply Z.leb_le. assumption. }
    apply Conv. apply (sortWith_sorted (fun a b => createdAt b <=? createdAt a)).
    intros a b. rewrite !Z.leb_le. lia.
Qed.

(** X19.  The list handlers of the customers and of the message-template
    router answer 200 with every stored document, each once, the newest
    first, and leave the store unchanged. *)
Theorem lists_return_everything_newest_first params user (st : Store) :
  (forall req : Request Customers.ReqBody,
      exists l,
        Customers.list params req user st = (json (ManyCustomers l), st)
        /\ Permutation l (customers st)
        /\ StronglySorted
             (fun a b => CustomerDoc.createdAt b <= CustomerDoc.createdAt a) l)
  /\ (forall req : Request MessageTemplate.Fields,
        exists l,
          MessageTemplates.list params req user st = (json (ManyTemplates l), st)
          /\ Permutation l (messageTemplates st)
          /\ StronglySorted
               (fun a b => TemplateDoc.createdAt b <= TemplateDoc.createdAt a) l).
Proof.
  split; intros req.
  - exists (newestFirst CustomerDoc.createdAt (customers st)).
    split; [|apply newestFirst_sorted].
    unfold Customers.list, tryCatch, bind, Query.find, ret. cbn [coll customers_coll].
    rewrite filter_all by reflexivity. reflexivity.
  - exists (newestFirst TemplateDoc.createdAt (messageTemplates st)).
    split; [|apply newestFirst_sorted].
    unfold MessageTemplates.list, tryCatch, bind, MessageTemplate.find, Query.find, ret.
    cbn [coll templates_coll]. rewrite filter_all by reflexivity. reflexivity.
Qed.

(** X20.  GET / of the forms router answers 200 with every stored form,
    each once, in ascending order of name, and leaves the store
    unchanged. *)
Theorem forms_list_is_sorted_by_name params req user (st : Store) :
  exists l,
    Forms.list params req user st = (json (ManyForms l), st)
    /\ Permutation l (forms st)
    /\ Sorted (fun a b => String.leb (FormDoc.name a) (FormDoc.name b) = true) l.
Proof.
  exists (sortWith (fun a b => String.leb (FormDoc.name a) (FormDoc.name b)) (forms st)).
  split; [|split].
  - unfold Forms.list, tryCatch, bind, Form.find, Query.find, ret. cbn [coll forms_coll].
    rewrite filter_all by reflexivity. reflexivity.
  - apply sortWith_perm.
  - apply (sortWith_sorted (fun a b => String.leb (FormDoc.name a) (FormDoc.name b))).
    intros a b. apply String.leb_total.
Qed.

(** X21.  GET / of the subcategories router with a well-formed
    [categoryId] in the query answers 200 with exactly the subcategories
    of that category, each once, the newest first, each with the name of
    its category and the name and e-mail of its creator as stored; a
    [categoryId] that cannot be cast to an identifier (neither 24
    hexadecimal digits nor 12 characters) is answered 500.  The store is
    unchanged. *)
Theorem subcategory_list_filters_and_populates params req user (st : Store) (c : string) :
  lookupStr "categoryId" (query req) = Some c -> c <> "" ->
  (castObjectId c = None ->
   FormSubCategories.list params req user st = (statusJson 500 (Text "Server Error"), st))
  /\ (forall oid,
        castObjectId c = Some oid ->
        exists l,
          FormSubCategories.list params req user st = (json (ManySubCategories l), st)
          /\ Permutation (List.map fst l)
               (List.filter (fun s => (SubCategoryDoc.categoryId s =? oid)%string)
                  (formSubCategories st))
          /\ StronglySorted
               (fun a b => SubCategoryDoc.createdAt (fst b)
                           <= SubCategoryDoc.createdAt (fst a)) l
          /\ (forall s p, In (s, p) l ->
                p_category p = Populate.categoryName st oid
                /\ p_createdBy p = Populate.userRef st (SubCategoryDoc.createdBy s))).
Proof.
  intros Hq Hne.
  unfold FormSubCategories.list, tryCatch, bind. rewrite Hq. unfold JS.truthy.
  destruct (String.eqb_spec c ""); [contradiction|]. cbn [negb Schema.valueOf]. split.
  - intros Hc. rewrite Hc. reflexivity.
  - intros oid Hc. rewrite Hc.
    unfold FormSubCategory.find, Query.find. cbn [coll subcategories_coll].
    set (found := List.filter (FormSubCategory.inCategory oid) (formSubCategories st)).
    set (populate := fun (st : Store) (s : SubCategoryDoc.t) =>
                       (s, mkPopulated
                             (Populate.categoryName st (SubCategoryDoc.categoryId s))
                             (Populate.userRef st (SubCategoryDoc.createdBy s))
                             (Populate.optUser st (SubCategoryDoc.updatedBy s)))).
    rewrite (each_resolves (Populate.subcategory true true) populate) by reflexivity.
    exists (newestFirst (fun p => SubCategoryDoc.createdAt (fst p))
              (List.map (populate st) found)).
    destruct (newestFirst_sorted (fun p : SubCategoryDoc.t * Populated =>
                                    SubCategoryDoc.createdAt (fst p))
                (List.map (populate st) found)) as [Hp Hs].
    split; [reflexivity|]. split; [|split; [exact Hs|]].
    + rewrite Hp, map_map. cbn [populate fst]. rewrite map_id. reflexivity.
    + intros s p Hin. apply (Permutation_in _ Hp) in Hin.
      apply in_map_iff in Hin. destruct Hin as (s' & E & Hs').
      unfold populate in E. injection E as <- <-.
      apply filter_In in Hs'. destruct Hs' as [_ Hcat].
      apply String.eqb_eq in Hcat. cbn [p_category p_createdBy]. rewrite Hcat.
      split; reflexivity.
Qed.

(** The subcategories of "Licences" on the sample store; a categoryId
    of twelve characters is an identifier too, and selects nothing. *)
Lemma subcategory_list_filters_and_populates_sample :
  let req c := Sample.request GET [] [("categoryId", c)]
                  (FormSubCategories.mkBody None None None None None) in
  let list c := FormSubCategories.list [] (req c) (Some Sample.admin)
                  Sample.withSubCategory in
  (exists l,
      list Sample.categoryId = (json (ManySubCategories l), Sample.withSubCategory)
      /\ Permutation (List.map fst l) [Sample.renewals]
      /\ (forall s p, In (s, p) l -> p_category p = Some "Licences"))
  /\ list "abcdefghijkl" = (json (ManySubCategories []), Sample.withSubCategory).
Proof.
  intros req list. split.
  - destruct (proj2 (subcategory_list_filters_and_populates [] (req Sample.categoryId)
                (Some Sample.admin)
                Sample.withSubCategory Sample.categoryId eq_refl ltac:(discriminate))
                Sample.categoryId eq_refl) as (l & Hl & Hp & _ & Hn).
    exists l. split; [exact Hl|]. split; [exact Hp|].
    intros s p Hin. destruct (Hn s p Hin) as [Hc _]. rewrite Hc. reflexivity.
  - destruct (proj2 (subcategory_list_filters_and_populates [] (req "abcdefghijkl")
                (Some Sample.admin)
                Sample.withSubCategory "abcdefghijkl" eq_refl ltac:(discriminate))
                "6162636465666768696a6b6c" eq_refl) as (l & Hl & Hp & _).
    unfold list. rewrite Hl. apply Permutation_sym, Permutation_nil in Hp.
    destruct l; [reflexivity | discriminate Hp].
Defined.

(** ** The customers router *)

Lemma firstn_incl {A} (n : nat) (l : list A) (x : A) : In x (firstn n l) -> In x l.
Proof.
  intros H. rewrite <- (firstn_skipn n l). apply in_or_app. left. exact H.
Qed.

(** A JSON value is a string or it is not. *)
Lemma value_is_string (v : JS.Value) : (exists s, v = JS.Str s) \/ (forall s, v <> JS.Str s).
Proof. destruct v; [left; eexists; reflexivity | right; discriminate ..]. Qed.

(** X22.  Creating a customer, whatever the validators and the unique
    indexes of the schema are.  A [serviceCategoryUrl] that is truthy and
    not a string (a non-zero number, [true], an array, an object) makes
    the handler throw on [trim]: the answer is 500 and nothing is stored,
    and this is the only way to a 500.  Otherwise the document is built
    from the body with the normalised url (a falsy value that is not a
    string is left to the cast of the schema); when it fails the
    validators the answer is 400 "Validation failed" with the messages by
    path; when it passes them but collides on a unique index the answer
    is 400 "Duplicate key error" naming the field; in both cases nothing
    is stored.  Otherwise the document is appended to the collection and
    returned with 201. *)
Theorem customer_create_outcomes
  (validateSync : Customers.ReqBody -> CustomerDoc.t -> list (string * string))
  (uniqueClash : CustomerDoc.t -> list CustomerDoc.t -> option string)
  (onCreate : list (string * JS.Value) -> ObjectId * Z -> ObjectId * Z)
  params req user (st : Store) :
  let b := body req in
  let result := Customers.create validateSync uniqueClash onCreate params req user st in
  let throws :=
    exists v, Customers.serviceCategoryUrl b = Some v
              /\ (forall s, v <> JS.Str s) /\ JS.truthyValue v = true in
  (throws ->
   result
   = (mkResponse 500
        (Data (JObj [("error", JStr "Server error");
                     ("message", JErrorMessage TypeError)])),
      st))
  /\ (status (fst result) = 500 -> throws)
  /\ (forall url,
        match Customers.serviceCategoryUrl b with
        | None => url = None
        | Some (JS.Str s) => url = Customers.normalizeOnCreate (Some s)
        | Some v => JS.truthyValue v = false /\ url = Customers.castFalsy v
        end ->
        let doc := Customers.construct onCreate b url (now req) (freshId req) in
        (validateSync b doc <> [] ->
         result = (Customers.validationFailed (validateSync b doc), st))
        /\ (forall field,
              validateSync b doc = [] -> uniqueClash doc (customers st) = Some field ->
              result
              = (statusJson 400
                   (Data (JObj [("error", JStr "Duplicate key error");
                                ("message", JStr (field ++ " already exists"));
                                ("field", JStr field)])),
                 st))
        /\ (validateSync b doc = [] -> uniqueClash doc (customers st) = None ->
            result
            = (statusJson 201 (OneCustomer doc),
               mkStore (users st) (formCategories st) (formSubCategories st) (forms st)
                 (customers st ++ [doc]) (messageTemplates st)))).
Proof.
  intros b result throws.
  assert (forall url,
             Customers.urlOnCreate (Customers.serviceCategoryUrl b) st = (Resolved url, st) ->
             let doc := Customers.construct onCreate b url (now req) (freshId req) in
             result
             = match validateSync b doc with
               | e :: errors => (Customers.validationFailed (e :: errors), st)
               | [] =>
                   match uniqueClash doc (customers st) with
                   | Some field => (Customers.onError (MongoServerError 11000 field), st)
                   | None =>
                       (statusJson 201 (OneCustomer doc),
                        mkStore (users st) (formCategories st) (formSubCategories st)
                          (forms st) (customers st ++ [doc]) (messageTemplates st))
                   end
               end) as Hr.
  { intros url Hurl doc. subst result. unfold Customers.create, tryCatch, bind. fold b.
    rewrite Hurl. fold doc.
    destruct (validateSync b doc) as [|e errors] eqn:Hv; [|reflexivity].
    unfold bind, Customers.save. rewrite Hv.
    destruct (uniqueClash doc (customers st)) as [field|]; reflexivity. }
  assert (throws ->
          result
          = (mkResponse 500
               (Data (JObj [("error", JStr "Server error");
                            ("message", JErrorMessage TypeError)])), st)) as Ht.
  { intros (v & Hv & Hns & Htr). subst result.
    unfold Customers.create, tryCatch, bind. fold b. rewrite Hv.
    destruct v as [s| | | |]; [exfalso; exact (Hns s eq_refl) | ..];
      unfold Customers.urlOnCreate; rewrite Htr; reflexivity. }
  split; [exact Ht|]. split.
  - intros H500.
    destruct (Customers.serviceCategoryUrl b) as [v|] eqn:Hv.
    + destruct (value_is_string v) as [(s & ->) | Hns].
      * exfalso. rewrite (Hr _ eq_refl) in H500.
        destruct (validateSync b _); [destruct (uniqueClash _ _)|]; discriminate H500.
      * destruct (JS.truthyValue v) eqn:Htr; [exists v; auto|].
        exfalso. rewrite (Hr (Customers.castFalsy v)) in H500.
        -- destruct (validateSync b _); [destruct (uniqueClash _ _)|]; discriminate H500.
        -- destruct v as [s| | | |]; [exfalso; exact (Hns s eq_refl) | ..];
             unfold Customers.urlOnCreate; rewrite Htr; reflexivity.
    + exfalso. rewrite (Hr None eq_refl) in H500.
      destruct (validateSync b _); [destruct (uniqueClash _ _)|]; discriminate H500.
  - intros url Hurl doc.
    assert (Customers.urlOnCreate (Customers.serviceCategoryUrl b) st = (Resolved url, st))
      as Hu.
    { destruct (Customers.serviceCategoryUrl b) as [v|]; [|subst url; reflexivity].
      destruct v; try (subst url; reflexivity);
        destruct Hurl as [Htr ->]; unfold Customers.urlOnCreate; try rewrite Htr;
        reflexivity. }
    rewrite (Hr url Hu). fold doc. repeat split.
    + intros Hne. destruct (validateSync b doc); [congruence | reflexivity].
    + intros field -> ->. reflexivity.
    + intros -> ->. reflexivity.
Qed.

(** X23.  Updating a customer.  A [serviceCategoryUrl] that is truthy and
    not a string makes the handler throw on [trim], and an identifier
    that cannot be cast (neither 24 hexadecimal digits nor 12 characters)
    makes the query throw: both are answered 500.  Otherwise a body that
    fails the update validators is answered 400 whether or not the
    customer exists; an identifier that names no customer is answered
    404; an error of the store on the other keys of the body is answered
    by the [catch] block; a collision on a unique index is answered 400.
    In all these cases the store is unchanged.  Otherwise the stored
    customer is replaced in place: it keeps its identifier; name, phone,
    e-mail and address are those of the body where it has them and the
    stored ones where it has not; [serviceCategoryUrl] is kept when the
    body does not mention it and is the normalised value when it has a
    non-blank string; the creation date is what the store makes of the
    other keys. *)
Theorem customer_update_outcomes
  (validateUpdate : Customers.ReqBody -> list (string * string))
  (uniqueClash : CustomerDoc.t -> list CustomerDoc.t -> option string)
  (setToUndefined : option string -> option string)
  (onUpdate : list (string * JS.Value) -> CustomerDoc.t -> Outcome Z)
  params req user (st : Store) :
  let b := body req in
  let result :=
    Customers.update validateUpdate uniqueClash setToUndefined onUpdate params req user st in
  let serverError (e : Exn) :=
    mkResponse 500
      (Data (JObj [("error", JStr "Server error"); ("message", JErrorMessage e)])) in
  ((exists v, Customers.serviceCategoryUrl b = Some v
              /\ (forall s, v <> JS.Str s) /\ JS.truthyValue v = true) ->
   result = (serverError TypeError, st))
  /\ (forall url,
        match Customers.serviceCategoryUrl b with
        | None => url = Customers.Missing
        | Some (JS.Str s) => url = Customers.normalizeOnUpdate (Some s)
        | Some v => JS.truthyValue v = false /\ url = Customers.Undefined
        end ->
        (castObjectId (param_id params) = None ->
         result = (serverError (CastError "ObjectId"), st))
        /\ (forall oid,
              castObjectId (param_id params) = Some oid ->
              (validateUpdate b <> [] ->
               result = (Customers.validationFailed (validateUpdate b), st))
              /\ (validateUpdate b = [] ->
                  (forall c, In c (customers st) -> CustomerDoc._id c <> oid) ->
                  result
                  = (mkResponse 404 (Data (JObj [("error", JStr "Customer not found")])),
                     st))
              /\ (validateUpdate b = [] ->
                  (exists c, In c (customers st) /\ CustomerDoc._id c = oid) ->
                  exists c,
                    In c (customers st) /\ CustomerDoc._id c = oid
                    /\ match onUpdate (Customers.rest b) c with
                       | Rejected e => result = (Customers.onError e, st)
                       | Resolved createdAt =>
                           exists c',
                             CustomerDoc._id c' = oid
                             /\ CustomerDoc.createdAt c' = createdAt
                             /\ CustomerDoc.name c'
                                = match Customers.name b with
                                  | Some n => Some n
                                  | None => CustomerDoc.name c
                                  end
                             /\ CustomerDoc.phone c'
                                = match Customers.phone b with
                                  | Some n => Some n
                                  | None => CustomerDoc.phone c
                                  end
                             /\ CustomerDoc.email c'
                                = match Customers.email b with
                                  | Some n => Some n
                                  | None => CustomerDoc.email c
                                  end
                             /\ CustomerDoc.address c'
                                = match Customers.address b with
                                  | Some a => a
                                  | None => CustomerDoc.address c
                                  end
                             /\ CustomerDoc.serviceCategoryUrl c'
                                = match url with
                                  | Customers.Missing => CustomerDoc.serviceCategoryUrl c
                                  | Customers.Undefined =>
                                      setToUndefined (CustomerDoc.serviceCategoryUrl c)
                                  | Customers.Value u => Some u
                                  end
                             /\ match uniqueClash c' (customers st) with
                                | Some field =>
                                    result
                                    = (statusJson 400
                                         (Data (JObj
                                            [("error", JStr "Duplicate key error");
                                             ("message", JStr (field ++ " already exists"));
                                             ("field", JStr field)])),
                                       st)
                                | None =>
                                    result
                                    = (json (OneCustomer c'),
                                       mkStore (users st) (formCategories st)
                                         (formSubCategories st) (forms st)
                                         (List.map
                                            (fun x => if (CustomerDoc._id x =? oid)%string
                                                      then c' else x)
                                            (customers st))
                                         (messageTemplates st))
                                end
                       end))).
Proof.
  intros b result serverError. split.
  - intros (v & Hv & Hns & Htr). subst result.
    unfold Customers.update, tryCatch, bind. fold b. rewrite Hv.
    destruct v as [s| | | |]; [exfalso; exact (Hns s eq_refl) | ..];
      unfold Customers.urlOnUpdate; rewrite Htr; reflexivity.
  - intros url Hurl.
    assert (Customers.urlOnUpdate (Customers.serviceCategoryUrl b) st = (Resolved url, st))
      as Hu.
    { destruct (Customers.serviceCategoryUrl b) as [v|]; [|subst url; reflexivity].
      destruct v; try (subst url; reflexivity);
        destruct Hurl as [Htr ->]; unfold Customers.urlOnUpdate; try rewrite Htr;
        reflexivity. }
    assert (result
            = tryCatch
                (customer <- Customers.findByIdAndUpdate validateUpdate uniqueClash
                               setToUndefined onUpdate (param_id params) b url ;;
                 match customer with
                 | None => ret Customers.notFound
                 | Some c => ret (json (OneCustomer c))
                 end)
                Customers.onError st) as Hr.
    { subst result. unfold Customers.update, tryCatch, bind. fold b. rewrite Hu.
      reflexivity. }
    rewrite Hr. clear Hr Hu Hurl. split.
    + intros Hc. unfold tryCatch, bind, Customers.findByIdAndUpdate. rewrite Hc. reflexivity.
    + intros oid Hc. split; [|split].
      * intros Hv. unfold tryCatch, bind, Customers.findByIdAndUpdate. rewrite Hc.
        destruct (validateUpdate b); [congruence | reflexivity].
      * intros Hv Hno. unfold tryCatch, bind, Customers.findByIdAndUpdate.
        rewrite Hc, Hv. unfold bind, Query.findOne, ret.
        cbn [coll customers_coll]. cbv beta iota.
        rewrite (find_absent (Query.hasId oid) (customers st)); [reflexivity|].
        intros x Hx. destruct (Query.hasId oid x) eqn:E; [|reflexivity].
        apply hasId_true in E. exfalso. exact (Hno x Hx E).
      * intros Hv Hex.
        assert (exists x, In x (customers st) /\ Query.hasId oid x = true) as Hex'.
        { destruct Hex as (x & Hx & E). exists x. split; [exact Hx|].
          apply hasId_true. exact E. }
        destruct (find_present (Query.hasId oid) (customers st) Hex')
          as (c & Hf & Hin & Hid).
        apply hasId_true in Hid. cbn [idOf customers_coll] in Hid.
        exists c. split; [exact Hin|]. split; [exact Hid|].
        unfold tryCatch, bind, Customers.findByIdAndUpdate.
        rewrite Hc, Hv. unfold bind, Query.findOne, ret.
        cbn [coll customers_coll]. cbv beta iota. rewrite Hf.
        destruct (onUpdate (Customers.rest b) c) as [createdAt|e]; [|reflexivity].
        exists (Customers.applyUpdate setToUndefined b url createdAt c).
        split; [exact Hid|]. split; [reflexivity|].
        unfold Customers.applyUpdate at 1 2 3 4 5, Customers.orKeep.
        cbn [CustomerDoc.name CustomerDoc.phone CustomerDoc.email CustomerDoc.address
             CustomerDoc.serviceCategoryUrl].
        split; [destruct (Customers.name b); reflexivity|].
        split; [destruct (Customers.phone b); reflexivity|].
        split; [destruct (Customers.email b); reflexivity|].
        split; [reflexivity|]. split; [reflexivity|].
        destruct (uniqueClash _ (customers st)) as [field|]; [reflexivity|].
        unfold Query.replaceOne, Query.hasId.
        cbn [coll setColl customers_coll idOf Customers.applyUpdate CustomerDoc._id].
        rewrite Hid. reflexivity.
Qed.

(** X24.  The search handler itself (which the router never reaches, see
    C3): without a non-empty [q] it answers 400; with a [q] that is not a
    regular expression it answers 500; otherwise it answers 200 with at
    most ten entries, in store order, each the projection on identifier,
    name, phone, e-mail and address of a stored customer one of whose six
    searched fields matches.  The store is never changed. *)
Theorem customer_search_results (regex_i : string -> option (string -> bool))
  params req user (st : Store) :
  let q := lookupStr "q" (query req) in
  let result := Customers.search regex_i params req user st in
  snd result = st
  /\ (JS.truthy q = false -> status (fst result) = 400)
  /\ (JS.truthy q = true -> regex_i (Schema.valueOf q) = None ->
      status (fst result) = 500)
  /\ (forall test,
        JS.truthy q = true -> regex_i (Schema.valueOf q) = Some test ->
        exists hits,
          fst result = json (ProjectedCustomers (List.map Customers.project hits))
          /\ hits = firstn 10 (List.filter (Customers.searchQuery test) (customers st))
          /\ (length hits <= 10)%nat
          /\ (forall c, In c hits ->
                In c (customers st)
                /\ (Customers.fieldMatches test (CustomerDoc.name c) = true
                    \/ Customers.fieldMatches test (CustomerDoc.phone c) = true
                    \/ Customers.fieldMatches test (CustomerDoc.email c) = true
                    \/ Customers.fieldMatches test
                         (AddressDoc.line1 (CustomerDoc.address c)) = true
                    \/ Customers.fieldMatches test
                         (AddressDoc.city (CustomerDoc.address c)) = true
                    \/ Customers.fieldMatches test
                         (AddressDoc.state (CustomerDoc.address c)) = true))
          /\ ((length (List.filter (Customers.searchQuery test) (customers st)) <= 10)%nat ->
              forall c, In c (customers st) -> Customers.searchQuery test c = true ->
                        In c hits)).
Proof.
  intros q result. subst result. unfold Customers.search, tryCatch. fold q.
  destruct (JS.truthy q) eqn:Hq; cbn [negb].
  - destruct (regex_i (Schema.valueOf q)) as [test|] eqn:Hr.
    + unfold bind, Query.find, ret. cbn [coll customers_coll fst snd].
      split; [reflexivity|]. split; [discriminate|]. split; [discriminate|].
      intros test' _ E. injection E as <-.
      eexists. split; [reflexivity|]. split; [reflexivity|].
      split; [apply firstn_le_length|]. split.
      * intros c Hin. apply firstn_incl in Hin. apply filter_In in Hin.
        destruct Hin as [Hin Hm]. split; [exact Hin|].
        unfold Customers.searchQuery in Hm.
        repeat (apply orb_true_iff in Hm; destruct Hm as [Hm|Hm]); tauto.
      * intros Hlen c Hin Hm. rewrite firstn_all2 by exact Hlen.
        apply filter_In. split; assumption.
    + cbn. split; [reflexivity|]. split; [discriminate|]. split; [reflexivity|].
      discriminate.
  - cbn. split; [reflexivity|]. split; [reflexivity|]. split; discriminate.
Qed.

(** A second customer is created under an unused identifier by a schema
    that accepts everything; the same request with the number 7 for
    [serviceCategoryUrl] is answered 500. *)
Lemma customer_create_outcomes_sample :
  let smith url := Sample.request POST [] []
                     (Customers.mkBody (Some "Smith") None None None (Some url) []) in
  let req := smith (JS.Str " example.org ") in
  let doc := Customers.construct Sample.noPath (body req) (Some "https://example.org") 200
               Sample.unusedId in
  Customers.create Sample.anyCustomer Sample.noClash Sample.noPath [] req None
    Sample.withCustomer
  = (statusJson 201 (OneCustomer doc), mkStore [Sample.admin] [] [] [] [Sample.smith; doc] [])
  /\ Customers.create Sample.anyCustomer Sample.noClash Sample.noPath []
       (smith (JS.Num 7)) None Sample.withCustomer
     = (mkResponse 500
          (Data (JObj [("error", JStr "Server error");
                       ("message", JErrorMessage TypeError)])),
        Sample.withCustomer).
Proof.
  intros smith req doc. split.
  - exact (proj2 (proj2 (proj2 (proj2 (customer_create_outcomes Sample.anyCustomer
                    Sample.noClash Sample.noPath [] req None Sample.withCustomer))
                    (Some "https://example.org") eq_refl)) eq_refl eq_refl).
  - apply (proj1 (customer_create_outcomes Sample.anyCustomer Sample.noClash Sample.noPath
                    [] (smith (JS.Num 7)) None Sample.withCustomer)).
    exists (JS.Num 7). split; [reflexivity|]. split; [discriminate | reflexivity].
Defined.

(** The phone number of the sample customer is replaced; the rest of the
    document stays.  An identifier of twelve characters is cast and
    names no customer. *)
Lemma customer_update_outcomes_sample :
  let req := Sample.request PUT [Sample.customerId] []
               (Customers.mkBody None (Some "5550199") None None None []) in
  (exists c',
      Customers.update Sample.anyUpdate Sample.noClash Sample.dropped Sample.untouched
        [("id", Sample.customerId)] req None Sample.withCustomer
      = (json (OneCustomer c'), mkStore [Sample.admin] [] [] [] [c'] [])
      /\ CustomerDoc.phone c' = Some "5550199"
      /\ CustomerDoc.name c' = Some "John Smith"
      /\ CustomerDoc.createdAt c' = 30)
  /\ status (fst (Customers.update Sample.anyUpdate Sample.noClash Sample.dropped
                    Sample.untouched [("id", "abcdefghijkl")] req None
                    Sample.withCustomer)) = 404.
Proof.
  intros req. split.
  - destruct (proj2 (proj2 (customer_update_outcomes Sample.anyUpdate Sample.noClash
                       Sample.dropped Sample.untouched [("id", Sample.customerId)] req None
                       Sample.withCustomer) Customers.Missing eq_refl)
                Sample.customerId eq_refl) as (_ & _ & Hup).
    destruct (Hup eq_refl (ex_intro _ Sample.smith (conj (or_introl eq_refl) eq_refl)))
      as (c & Hin & _ & Hc).
    destruct Hin as [<-|[]].
    destruct Hc as (c' & _ & Hat & Hname & Hphone & _ & _ & _ & Hres).
    exists c'. split; [|split; [|split]].
    + etransitivity; [exact Hres|]. reflexivity.
    + exact Hphone.
    + exact Hname.
    + exact Hat.
  - rewrite (proj1 (proj2 (proj2 (proj2 (customer_update_outcomes Sample.anyUpdate
               Sample.noClash Sample.dropped Sample.untouched [("id", "abcdefghijkl")] req
               None Sample.withCustomer) Customers.Missing eq_refl)
               "6162636465666768696a6b6c" eq_refl)) eq_refl); [reflexivity|].
    intros c [<-|[]]. discriminate.
Defined.

(** A matcher that takes a pattern as the whole string finds the sample
    customer by the phone number. *)
Lemma customer_search_results_sample :
  let req := Sample.request GET ["search"] [("q", "5550100")]
               (Customers.mkBody None None None None None []) in
  exists hits,
    fst (Customers.search (fun q => Some (String.eqb q)) [] req None Sample.withCustomer)
    = json (ProjectedCustomers (List.map Customers.project hits))
    /\ hits = [Sample.smith].
Proof.
  intros req.
  destruct (proj2 (proj2 (proj2 (customer_search_results (fun q => Some (String.eqb q))
                                   [] req None Sample.withCustomer)))
              (String.eqb "5550100") eq_refl eq_refl) as (hits & Hres & Hhits & _).
  exists hits. split; [exact Hres | exact Hhits].
Defined.

(** ** What the routers of the customers file keep *)

Lemma oneWrite_keeps {D K} (id : D -> ObjectId) (kept : D -> K) (freshId : ObjectId)
  (init : K) (old new : list D) :
  NoDup (List.map id old) -> ~ In freshId (List.map id old) ->
  Invariant.oneWrite id kept freshId init old new ->
  NoDup (List.map id new)
  /\ (forall d', In d' new ->
        (exists d, In d old /\ id d = id d' /\ kept d = kept d')
        \/ (id d' = freshId /\ kept d' = init)).
Proof.
  intros Hnd Hfresh [-> | [(d & Hid & Hk & ->) | [(d & d' & Hin & Hid & Hk & ->) | (p & ->)]]].
  - split; [exact Hnd|]. intros d' Hd'. left. exists d'. repeat split. exact Hd'.
  - split.
    + apply NoDup_map_snoc; [exact Hnd|]. intros x Hx E. apply Hfresh.
      rewrite <- Hid, <- E. apply in_map. exact Hx.
    + intros d' Hd'. apply in_app_or in Hd'. destruct Hd' as [Hd'|[<-|[]]].
      * left. exists d'. repeat split. exact Hd'.
      * right. split; assumption.
  - split.
    + rewrite (replace_keeps_ids id (id d) d' Hid). exact Hnd.
    + intros x Hx. left. destruct (replace_In id (id d) d' old x Hx) as [[Hxl _] | ->].
      * exists x. repeat split. exact Hxl.
      * exists d. repeat split; [exact Hin | symmetry; exact Hid | symmetry; exact Hk].
  - split; [apply NoDup_map_filter; exact Hnd|].
    intros d' Hd'. apply filter_In in Hd'. left. exists d'. repeat split. apply Hd'.
Qed.

Lemma store_eta (st : Store) :
  mkStore (users st) (formCategories st) (formSubCategories st) (forms st)
    (customers st) (messageTemplates st) = st.
Proof. destruct st; reflexivity. Qed.

Lemma templates_router_writes (req : Request MessageTemplate.Fields) (st : Store) :
  exists new,
    snd (dispatch MessageTemplates.router req st) = setColl new st
    /\ Invariant.oneWrite TemplateDoc._id
         (fun t => (TemplateDoc.createdAt t, TemplateDoc.updatedAt t))
         (freshId req) (now req, now req) (messageTemplates st) new.
Proof.
  assert (exists new,
             st = setColl new st
             /\ Invariant.oneWrite TemplateDoc._id
                  (fun t => (TemplateDoc.createdAt t, TemplateDoc.updatedAt t))
                  (freshId req) (now req, now req) (messageTemplates st) new) as Same.
  { exists (messageTemplates st). cbn [setColl templates_coll]. rewrite store_eta.
    split; [reflexivity | left; reflexivity]. }
  apply (dispatch_preserves MessageTemplates.router
           (fun req0 st0 => req0 = req /\ st0 = st)
           (fun st' => exists new,
                st' = setColl new st
                /\ Invariant.oneWrite TemplateDoc._id
                     (fun t => (TemplateDoc.createdAt t, TemplateDoc.updatedAt t))
                     (freshId req) (now req, now req) (messageTemplates st) new));
    [ intros ? ? [-> ->]; exact Same | | split; reflexivity ].
  unfold MessageTemplates.router.
  repeat (apply Forall_cons; [cbn [r_handler]; intros params ? user ? [-> ->]|]);
    [ | | | | | apply Forall_nil ].
  - (* GET / *)
    unfold MessageTemplates.list, tryCatch, bind, MessageTemplate.find, Query.find, ret.
    exact Same.
  - (* POST / *)
    unfold MessageTemplates.create, tryCatch.
    destruct (negb _ || negb _ || negb _); [exact Same|].
    unfold bind, MessageTemplate.save.
    destruct (MessageTemplate.validate _); [|exact Same].
    unfold Query.insertOne. cbn [snd ret]. eexists. split; [reflexivity|].
    right. left. eexists. split; [|split]. 3: reflexivity. all: reflexivity.
  - (* PUT /:id *)
    unfold MessageTemplates.update, tryCatch, bind, MessageTemplate.findByIdAndUpdate.
    destruct (castObjectId (param_id params)) as [oid|]; [|exact Same].
    destruct (MessageTemplate.validateUpdate _); [|exact Same].
    unfold bind, Query.findOne, ret. cbn [coll templates_coll]. cbv beta iota.
    destruct (find (Query.hasId oid) (messageTemplates st)) as [t|] eqn:Hf; [|exact Same].
    apply find_some in Hf. destruct Hf as [Hin Hid]. apply hasId_true in Hid.
    match goal with |- context [Query.replaceOne ?d] => set (t' := d) end.
    unfold Query.replaceOne. cbn [snd coll templates_coll idOf]. eexists.
    split; [reflexivity|]. right. right. left.
    exists t, t'. split; [exact Hin|]. split; [reflexivity|]. split; [reflexivity|].
    reflexivity.
  - (* DELETE /:id *)
    unfold MessageTemplates.remove, tryCatch, bind, MessageTemplate.findByIdAndDelete,
      Query.findByIdAndDelete.
    destruct (castObjectId (param_id params)) as [oid|]; [|exact Same].
    cbn [coll templates_coll].
    destruct (find (Query.hasId oid) (messageTemplates st)); [|exact Same].
    cbn [snd ret]. eexists. split; [reflexivity|]. right. right. right.
    eexists. reflexivity.
  - (* POST /:id/test *)
    unfold MessageTemplates.sendTest, tryCatch, bind, MessageTemplate.findById,
      Query.findById.
    destruct (castObjectId (param_id params)) as [oid|]; [|exact Same].
    unfold Query.findOne. cbn [coll templates_coll]. cbv beta iota.
    destruct (find (Query.hasId oid) (messageTemplates st)); exact Same.
Qed.

(** X25.  Whatever the request, the message-templates router keeps the
    identifiers of the stored templates unique, as long as the identifier
    offered for a new template is not in use; every template stored
    afterwards either was stored before under the same identifier with
    the same two dates, or is the new one with both dates at the time of
    the request; and no other collection is touched. *)
Theorem templates_router_keeps_identifiers_and_dates
  (req : Request MessageTemplate.Fields) (st : Store) :
  NoDup (List.map TemplateDoc._id (messageTemplates st)) ->
  Invariant.fresh (D := TemplateDoc.t) (freshId req) st ->
  let st' := snd (dispatch MessageTemplates.router req st) in
  NoDup (List.map TemplateDoc._id (messageTemplates st'))
  /\ (forall t', In t' (messageTemplates st') ->
        (exists t, In t (messageTemplates st)
                   /\ TemplateDoc._id t = TemplateDoc._id t'
                   /\ TemplateDoc.createdAt t = TemplateDoc.createdAt t'
                   /\ TemplateDoc.updatedAt t = TemplateDoc.updatedAt t')
        \/ (TemplateDoc._id t' = freshId req
            /\ TemplateDoc.createdAt t' = now req
            /\ TemplateDoc.updatedAt t' = now req))
  /\ users st' = users st /\ formCategories st' = formCategories st
  /\ formSubCategories st' = formSubCategories st
  /\ forms st' = forms st /\ customers st' = customers st.
Proof.
  intros Hnd Hfresh st'. subst st'.
  destruct (templates_router_writes req st) as (new & -> & Hw).
  cbn [setColl templates_coll users formCategories formSubCategories forms customers
       messageTemplates].
  destruct (oneWrite_keeps _ _ _ _ _ _ Hnd Hfresh Hw) as [Hnd' Hfrom].
  split; [exact Hnd'|]. split; [|repeat split].
  intros t' Ht'. destruct (Hfrom t' Ht') as [(t & Hin & Hid & Hk) | [Hid Hk]].
  - left. exists t. injection Hk as Hc Hu. repeat split; assumption.
  - right. injection Hk as Hc Hu. repeat split; assumption.
Qed.

(** A second template is posted to the sample store. *)
Lemma templates_router_keeps_identifiers_and_dates_sample :
  let req := Sample.request POST [] []
               (MessageTemplate.mkFields (Some "Due") (Some "Payment due")
                  (Some "Please pay") None) in
  let st' := snd (dispatch MessageTemplates.router req Sample.withTemplate) in
  NoDup (List.map TemplateDoc._id (messageTemplates st'))
  /\ length (messageTemplates st') = 2%nat.
Proof.
  intros req st'. split; [|reflexivity].
  apply (templates_router_keeps_identifiers_and_dates req Sample.withTemplate).
  - repeat constructor. intros [].
  - intros [E|[]]. discriminate E.
Defined.

Lemma customers_router_writes
  (validateSync : Customers.ReqBody -> CustomerDoc.t -> list (string * string))
  (validateUpdate : Customers.ReqBody -> list (string * string))
  (uniqueClash : CustomerDoc.t -> list CustomerDoc.t -> option string)
  (regex_i : string -> option (string -> bool))
  (setToUndefined : option string -> option string)
  (onCreate : list (string * JS.Value) -> ObjectId * Z -> ObjectId * Z)
  (onUpdate : list (string * JS.Value) -> CustomerDoc.t -> Outcome Z)
  (req : Request Customers.ReqBody) (st : Store) :
  (forall c d, onUpdate (Customers.rest (body req)) c = Resolved d ->
               d = CustomerDoc.createdAt c) ->
  let stamp := onCreate (Customers.rest (body req)) (freshId req, now req) in
  exists new,
    snd (dispatch (Customers.router validateSync validateUpdate uniqueClash regex_i
                     setToUndefined onCreate onUpdate) req st)
    = setColl new st
    /\ Invariant.oneWrite CustomerDoc._id CustomerDoc.createdAt
         (fst stamp) (snd stamp) (customers st) new.
Proof.
  intros Hkeep stamp.
  assert (exists new,
             st = setColl new st
             /\ Invariant.oneWrite CustomerDoc._id CustomerDoc.createdAt
                  (fst stamp) (snd stamp) (customers st) new) as Same.
  { exists (customers st). cbn [setColl customers_coll]. rewrite store_eta.
    split; [reflexivity | left; reflexivity]. }
  apply (dispatch_preserves
           (Customers.router validateSync validateUpdate uniqueClash regex_i setToUndefined
              onCreate onUpdate)
           (fun req0 st0 => req0 = req /\ st0 = st)
           (fun st' => exists new,
                st' = setColl new st
                /\ Invariant.oneWrite CustomerDoc._id CustomerDoc.createdAt
                     (fst stamp) (snd stamp) (customers st) new));
    [ intros ? ? [-> ->]; exact Same | | split; reflexivity ].
  unfold Customers.router.
  repeat (apply Forall_cons; [cbn [r_handler]; intros params ? user ? [-> ->]|]);
    [ | | | | | | apply Forall_nil ].
  - (* GET / *)
    unfold Customers.list, tryCatch, bind, Query.find, ret. exact Same.
  - (* GET /:id *)
    unfold Customers.get, tryCatch, bind, Query.findById.
    destruct (castObjectId (param_id params)) as [oid|]; [|exact Same].
    unfold Query.findOne. cbn [coll customers_coll]. cbv beta iota.
    destruct (find (Query.hasId oid) (customers st)); exact Same.
  - (* GET /search *)
    unfold Customers.search, tryCatch.
    destruct (negb _); [exact Same|].
    destruct (regex_i _); [|exact Same].
    unfold bind, Query.find, ret. exact Same.
  - (* POST / *)
    unfold Customers.create, tryCatch, bind.
    destruct (Customers.urlOnCreate _ st) as [[url|e] st0] eqn:Hurl.
    2:{ assert (st0 = st) as ->; [|exact Same].
        unfold Customers.urlOnCreate in Hurl.
        destruct (Customers.serviceCategoryUrl (body req)) as [[]|];
          try destruct (JS.truthyValue _); inversion Hurl; reflexivity. }
    assert (st0 = st) as ->.
    { unfold Customers.urlOnCreate in Hurl.
      destruct (Customers.serviceCategoryUrl (body req)) as [[]|];
        try destruct (JS.truthyValue _); inversion Hurl; reflexivity. }
    destruct (validateSync _ _) eqn:Hv; [|exact Same].
    unfold bind, Customers.save. rewrite Hv.
    destruct (uniqueClash _ (customers st)); [exact Same|].
    unfold Query.insertOne. cbn [snd ret]. eexists. split; [reflexivity|].
    right. left. eexists. split; [|split]. 3: reflexivity. all: reflexivity.
  - (* PUT /:id *)
    unfold Customers.update, tryCatch, bind.
    destruct (Customers.urlOnUpdate _ st) as [[url|e] st0] eqn:Hurl.
    2:{ assert (st0 = st) as ->; [|exact Same].
        unfold Customers.urlOnUpdate in Hurl.
        destruct (Customers.serviceCategoryUrl (body req)) as [[]|];
          try destruct (JS.truthyValue _); inversion Hurl; reflexivity. }
    assert (st0 = st) as ->.
    { unfold Customers.urlOnUpdate in Hurl.
      destruct (Customers.serviceCategoryUrl (body req)) as [[]|];
        try destruct (JS.truthyValue _); inversion Hurl; reflexivity. }
    unfold Customers.findByIdAndUpdate.
    destruct (castObjectId (param_id params)) as [oid|]; [|exact Same].
    destruct (validateUpdate _); [|exact Same].
    unfold bind, Query.findOne, ret. cbn [coll customers_coll]. cbv beta iota.
    destruct (find (Query.hasId oid) (customers st)) as [c|] eqn:Hf; [|exact Same].
    apply find_some in Hf. destruct Hf as [Hin Hid]. apply hasId_true in Hid.
    destruct (onUpdate (Customers.rest (body req)) c) as [d|e] eqn:Hd; [|exact Same].
    apply Hkeep in Hd. subst d.
    destruct (uniqueClash _ (customers st)); [exact Same|].
    match goal with |- context [Query.replaceOne ?d] => set (c' := d) end.
    unfold Query.replaceOne. cbn [snd coll customers_coll idOf]. eexists.
    split; [reflexivity|]. right. right. left.
    exists c, c'. split; [exact Hin|]. split; [reflexivity|]. split; [reflexivity|].
    reflexivity.
  - (* DELETE /:id *)
    unfold Customers.remove, tryCatch, bind, Query.findByIdAndDelete.
    destruct (castObjectId (param_id params)) as [oid|]; [|exact Same].
    cbn [coll customers_coll].
    destruct (find (Query.hasId oid) (customers st)); [|exact Same].
    cbn [snd ret]. eexists. split; [reflexivity|]. right. right. right.
    eexists. reflexivity.
Qed.

(** X26.  Whatever the validators and unique indexes of the customer
    schema are, and whatever the schema makes of the other keys of a new
    customer's data: for a request on whose other keys the store leaves
    the creation date of a stored customer alone, the customers router
    keeps the identifiers of the stored customers unique, as long as the
    identifier of a new customer is not in use; every customer stored
    afterwards either was stored before under the same identifier with
    the same creation date, or is the new one, with the identifier and
    the creation date that the schema gives it; and no other collection
    is touched. *)
Theorem customers_router_keeps_identifiers_and_creation_dates
  (validateSync : Customers.ReqBody -> CustomerDoc.t -> list (string * string))
  (validateUpdate : Customers.ReqBody -> list (string * string))
  (uniqueClash : CustomerDoc.t -> list CustomerDoc.t -> option string)
  (regex_i : string -> option (string -> bool))
  (setToUndefined : option string -> option string)
  (onCreate : list (string * JS.Value) -> ObjectId * Z -> ObjectId * Z)
  (onUpdate : list (string * JS.Value) -> CustomerDoc.t -> Outcome Z)
  (req : Request Customers.ReqBody) (st : Store) :
  let stamp := onCreate (Customers.rest (body req)) (freshId req, now req) in
  NoDup (List.map CustomerDoc._id (customers st)) ->
  Invariant.fresh (D := CustomerDoc.t) (fst stamp) st ->
  (forall c d, onUpdate (Customers.rest (body req)) c = Resolved d ->
               d = CustomerDoc.createdAt c) ->
  let st' := snd (dispatch (Customers.router validateSync validateUpdate uniqueClash
                              regex_i setToUndefined onCreate onUpdate) req st) in
  NoDup (List.map CustomerDoc._id (customers st'))
  /\ (forall c', In c' (customers st') ->
        (exists c, In c (customers st)
                   /\ CustomerDoc._id c = CustomerDoc._id c'
                   /\ CustomerDoc.createdAt c = CustomerDoc.createdAt c')
        \/ (CustomerDoc._id c' = fst stamp /\ CustomerDoc.createdAt c' = snd stamp))
  /\ users st' = users st /\ formCategories st' = formCategories st
  /\ formSubCategories st' = formSubCategories st
  /\ forms st' = forms st /\ messageTemplates st' = messageTemplates st.
Proof.
  intros stamp Hnd Hfresh Hkeep st'. subst st'.
  destruct (customers_router_writes validateSync validateUpdate uniqueClash regex_i
              setToUndefined onCreate onUpdate req st Hkeep) as (new & -> & Hw).
  cbn [setColl customers_coll users formCategories formSubCategories forms customers
       messageTemplates].
  destruct (oneWrite_keeps _ _ _ _ _ _ Hnd Hfresh Hw) as [Hnd' Hfrom].
  split; [exact Hnd'|]. split; [exact Hfrom | repeat split].
Qed.

(** The sample customer is updated through the router, by a body that
    also carries a [createdAt], under a strict schema. *)
Lemma customers_router_keeps_identifiers_and_creation_dates_sample :
  let req := Sample.request PUT [Sample.customerId] []
               (Customers.mkBody (Some "J. Smith") None None None (Some (JS.Str ""))
                  [("createdAt", JS.Num 1)]) in
  let st' := snd (dispatch (Customers.router Sample.anyCustomer Sample.anyUpdate
                              Sample.noClash Sample.noPattern Sample.dropped
                              Sample.noPath Sample.untouched)
                    req Sample.withCustomer) in
  NoDup (List.map CustomerDoc._id (customers st'))
  /\ List.map CustomerDoc.name (customers st') = [Some "J. Smith"]
  /\ List.map CustomerDoc.createdAt (customers st') = [30].
Proof.
  intros req st'. split; [|split; reflexivity].
  apply (customers_router_keeps_identifiers_and_creation_dates Sample.anyCustomer
           Sample.anyUpdate Sample.noClash Sample.noPattern Sample.dropped
           Sample.noPath Sample.untouched req Sample.withCustomer).
  - repeat constructor. intros [].
  - intros [E|[]]. discriminate E.
  - intros c d E. injection E as <-. reflexivity.
Defined.

(** X27.  A customer that POST / has stored under a new, well-formed
    identifier is served by the router afterwards: GET /<id> answers 200
    with the stored document and changes nothing, and DELETE /<id>
    answers 200 and gives back the store as it was before the POST. *)
Theorem customer_created_then_served_by_router
  (validateSync : Customers.ReqBody -> CustomerDoc.t -> list (string * string))
  (validateUpdate : Customers.ReqBody -> list (string * string))
  (uniqueClash : CustomerDoc.t -> list CustomerDoc.t -> option string)
  (regex_i : string -> option (string -> bool))
  (setToUndefined : option string -> option string)
  (onCreate : list (string * JS.Value) -> ObjectId * Z -> ObjectId * Z)
  (onUpdate : list (string * JS.Value) -> CustomerDoc.t -> Outcome Z)
  (post : Request Customers.ReqBody) (st : Store) (url : option string) :
  let router := Customers.router validateSync validateUpdate uniqueClash regex_i
                  setToUndefined onCreate onUpdate in
  let doc := Customers.construct onCreate (body post) url (now post) (freshId post) in
  let id := CustomerDoc._id doc in
  method post = POST -> path post = [] ->
  match Customers.serviceCategoryUrl (body post) with
  | None => url = None
  | Some (JS.Str s) => url = Customers.normalizeOnCreate (Some s)
  | Some v => JS.truthyValue v = false /\ url = Customers.castFalsy v
  end ->
  validateSync (body post) doc = [] -> uniqueClash doc (customers st) = None ->
  Invariant.fresh (D := CustomerDoc.t) id st ->
  castObjectId id = Some id ->
  let st1 := snd (dispatch router post st) in
  fst (dispatch router post st) = statusJson 201 (OneCustomer doc)
  /\ (forall get, method get = GET -> path get = [id] ->
        dispatch router get st1 = (json (OneCustomer doc), st1))
  /\ (forall del, method del = DELETE -> path del = [id] ->
        dispatch router del st1
        = (json (Data (JObj [("message", JStr "Customer deleted successfully")])), st)).
Proof.
  intros router doc id Hm Hp Hurl Hv Hu Hfresh Hcan st1.
  assert (Customers.urlOnCreate (Customers.serviceCategoryUrl (body post)) st
          = (Resolved url, st)) as Hurl'.
  { destruct (Customers.serviceCategoryUrl (body post)) as [v|]; [|subst url; reflexivity].
    destruct v; try (subst url; reflexivity);
      destruct Hurl as [Htr ->]; unfold Customers.urlOnCreate; try rewrite Htr;
      reflexivity. }
  assert (dispatch router post st
          = (statusJson 201 (OneCustomer doc),
             mkStore (users st) (formCategories st) (formSubCategories st) (forms st)
               (customers st ++ [doc]) (messageTemplates st))) as Hpost.
  { subst router. unfold Customers.router.
    cbn [dispatch r_method r_path r_guards r_handler]. rewrite Hm, Hp.
    cbn [Method_eqb matchPath]. unfold runRoute. cbn [r_guards runGuards r_handler].
    unfold Customers.create, tryCatch, bind. rewrite Hurl'. fold doc. rewrite Hv.
    unfold bind, Customers.save. rewrite Hv, Hu. reflexivity. }
  subst st1. rewrite Hpost. cbn [fst snd]. split; [reflexivity|].
  assert ((id =? "")%string = false) as Hne.
  { pose proof (castObjectId_nonempty _ _ Hcan) as Ht. unfold JS.truthy in Ht.
    destruct (id =? "")%string; [discriminate Ht | reflexivity]. }
  pose proof (fresh_hasId (D := CustomerDoc.t) _ _ Hfresh) as Hno.
  cbn [coll customers_coll] in Hno.
  assert (Query.hasId id doc = true) as Hyes by (apply hasId_true; reflexivity).
  split.
  - intros get Hgm Hgp. subst router. unfold Customers.router.
    cbn [dispatch r_method r_path r_guards r_handler]. rewrite Hgm, Hgp.
    cbn [Method_eqb matchPath]. rewrite Hne. unfold runRoute.
    cbn [r_guards runGuards r_handler].
    unfold Customers.get, tryCatch, bind, Query.findById.
    change (param_id [("id", id)]) with id. rewrite Hcan.
    unfold Query.findOne. cbn [coll customers_coll customers].
    rewrite (find_last_fresh _ _ doc Hno Hyes). reflexivity.
  - intros del Hdm Hdp. subst router. unfold Customers.router.
    cbn [dispatch r_method r_path r_guards r_handler]. rewrite Hdm, Hdp.
    cbn [Method_eqb matchPath]. rewrite Hne. unfold runRoute.
    cbn [r_guards runGuards r_handler].
    unfold Customers.remove, tryCatch, bind, Query.findByIdAndDelete.
    change (param_id [("id", id)]) with id. rewrite Hcan.
    cbn [coll setColl customers_coll customers users formCategories formSubCategories
         forms messageTemplates].
    rewrite (find_last_fresh _ _ doc Hno Hyes).
    rewrite filter_app. cbn [List.filter]. rewrite Hyes. cbn [negb].
    rewrite filter_all, app_nil_r.
    + destruct st; reflexivity.
    + intros x Hx. rewrite (Hno x Hx). reflexivity.
Qed.

(** A second customer is posted to the sample store and read back. *)
Lemma customer_created_then_served_by_router_sample :
  let router := Customers.router Sample.anyCustomer Sample.anyUpdate Sample.noClash
                  Sample.noPattern Sample.dropped Sample.noPath Sample.untouched in
  let b := Customers.mkBody (Some "Ada") None None None None [] in
  let post := Sample.request POST [] [] b in
  let get := Sample.request GET [Sample.unusedId] [] b in
  fst (dispatch router get (snd (dispatch router post Sample.withCustomer)))
  = json (OneCustomer (Customers.construct Sample.noPath b None 200 Sample.unusedId)).
Proof.
  intros router b post get.
  destruct (customer_created_then_served_by_router Sample.anyCustomer Sample.anyUpdate
              Sample.noClash Sample.noPattern Sample.dropped Sample.noPath Sample.untouched
              post Sample.withCustomer None
              eq_refl eq_refl eq_refl eq_refl eq_refl) as (_ & Hget & _).
  - intros [E|[]]. discriminate E.
  - reflexivity.
  - subst router. rewrite (Hget get eq_refl eq_refl). reflexivity.
Defined.

(** ** Message templates: updates that are refused *)

Lemma validateSet_provided (p : string) (v : option string) :
  MessageTemplate.validateSet p (Schema.trimmed (MessageTemplates.provided v)) = []
  <-> match v with
      | Some s => negb (s =? "")%string && (JS.trim s =? "")%string
      | None => false
      end = false.
Proof.
  unfold MessageTemplates.provided, JS.truthy. destruct v as [s|]; [|split; reflexivity].
  destruct (String.eqb_spec s ""); cbn [negb andb Schema.trimmed option_map];
    [split; reflexivity|].
  unfold MessageTemplate.validateSet, Schema.requiredError, JS.truthy.
  destruct (JS.trim s =? "")%string; cbn [negb]; split; intros H;
    try reflexivity; discriminate H.
Qed.

Lemma enumError_provided (p : string) (v : option string) :
  Schema.enumError p MessageTemplate.typeEnum (MessageTemplates.provided v) = []
  <-> match v with
      | Some s => negb (s =? "")%string && negb (JS.includes MessageTemplate.typeEnum s)
      | None => false
      end = false.
Proof.
  unfold MessageTemplates.provided, JS.truthy. destruct v as [s|]; [|split; reflexivity].
  destruct (String.eqb_spec s ""); cbn [negb andb]; [split; reflexivity|].
  unfold Schema.enumError.
  destruct (JS.includes MessageTemplate.typeEnum s); cbn [negb]; split; intros H;
    try reflexivity; discriminate H.
Qed.

(** X28.  Updating a template under a well-formed identifier is answered
    500 exactly when the request gives a name, subject or content that is
    not empty but consists of white space only, or a non-empty type that
    is not one of ALERT, NOTIFICATION, PROMOTIONAL; this does not depend
    on whether the template exists.  An identifier that cannot be cast
    (neither 24 hexadecimal digits nor 12 characters) is answered 500 as
    well.  In every such case the store is unchanged. *)
Theorem template_update_refusals params req user (st : Store) :
  let b := body req in
  let blank (v : option string) :=
    match v with
    | Some s => negb (s =? "")%string && (JS.trim s =? "")%string
    | None => false
    end in
  let offEnum (v : option string) :=
    match v with
    | Some s => negb (s =? "")%string && negb (JS.includes MessageTemplate.typeEnum s)
    | None => false
    end in
  let result := MessageTemplates.update params req user st in
  (castObjectId (param_id params) = None -> status (fst result) = 500)
  /\ (forall oid,
        castObjectId (param_id params) = Some oid ->
        (status (fst result) = 500
         <-> blank (MessageTemplate.name b) || blank (MessageTemplate.subject b)
             || blank (MessageTemplate.content b) || offEnum (MessageTemplate.type b)
             = true))
  /\ (status (fst result) = 500 -> snd result = st).
Proof.
  intros b blank offEnum result.
  assert (castObjectId (param_id params) = None ->
          result = (MessageTemplates.serverError (CastError "ObjectId"), st)) as Hbad.
  { intros Hc. subst result.
    unfold MessageTemplates.update, tryCatch, bind, MessageTemplate.findByIdAndUpdate.
    rewrite Hc. reflexivity. }
  set (given := MessageTemplate.mkFields
                  (MessageTemplates.provided (MessageTemplate.name b))
                  (MessageTemplates.provided (MessageTemplate.subject b))
                  (MessageTemplates.provided (MessageTemplate.content b))
                  (MessageTemplates.provided (MessageTemplate.type b))).
  assert (forall oid, castObjectId (param_id params) = Some oid ->
          match MessageTemplate.validateUpdate (MessageTemplate.cast given) with
          | [] => status (fst result) <> 500
          | e :: errs =>
              result = (MessageTemplates.serverError (ValidationError (e :: errs)), st)
          end) as Hgood.
  { intros oid Hc. subst result.
    unfold MessageTemplates.update, tryCatch, bind, MessageTemplate.findByIdAndUpdate.
    fold b. fold given. rewrite Hc.
    destruct (MessageTemplate.validateUpdate (MessageTemplate.cast given));
      [|reflexivity].
    unfold bind, Query.findOne, ret. cbn [coll templates_coll]. cbv beta iota.
    destruct (find (Query.hasId oid) (messageTemplates st)); cbn; discriminate. }
  assert (MessageTemplate.validateUpdate (MessageTemplate.cast given) = []
          <-> blank (MessageTemplate.name b) || blank (MessageTemplate.subject b)
              || blank (MessageTemplate.content b) || offEnum (MessageTemplate.type b)
              = false) as Hv.
  { unfold MessageTemplate.validateUpdate, MessageTemplate.cast. subst given.
    cbn [MessageTemplate.name MessageTemplate.subject MessageTemplate.content
         MessageTemplate.type].
    pose proof (validateSet_provided "name" (MessageTemplate.name b)) as H1.
    pose proof (validateSet_provided "subject" (MessageTemplate.subject b)) as H2.
    pose proof (validateSet_provided "content" (MessageTemplate.content b)) as H3.
    pose proof (enumError_provided "type" (MessageTemplate.type b)) as H4.
    fold (blank (MessageTemplate.name b)) in H1.
    fold (blank (MessageTemplate.subject b)) in H2.
    fold (blank (MessageTemplate.content b)) in H3.
    fold (offEnum (MessageTemplate.type b)) in H4.
    rewrite !orb_false_iff, <- H1, <- H2, <- H3, <- H4.
    split.
    - intros H. apply app_eq_nil in H. destruct H as [Ha H].
      apply app_eq_nil in H. destruct H as [Hb H].
      apply app_eq_nil in H. destruct H as [Hc Hd]. repeat split; assumption.
    - intros [[[-> ->] ->] ->]. reflexivity. }
  split; [|split].
  - intros Hc. rewrite (Hbad Hc). reflexivity.
  - intros oid Hc. specialize (Hgood oid Hc).
    destruct (MessageTemplate.validateUpdate (MessageTemplate.cast given)) eqn:E.
    + split; [intros H; contradiction|]. intros H.
      rewrite (proj1 Hv eq_refl) in H. discriminate H.
    + split; [|intros _; rewrite Hgood; reflexivity].
      intros _. apply not_false_is_true. intros F. apply Hv in F. discriminate F.
  - intros H500. destruct (castObjectId (param_id params)) as [oid|] eqn:Hc.
    + specialize (Hgood oid eq_refl).
      destruct (MessageTemplate.validateUpdate (MessageTemplate.cast given));
        [contradiction | rewrite Hgood; reflexivity].
    + rewrite (Hbad eq_refl). reflexivity.
Qed.

(** A type that is not in the enum, sent for an identifier that names no
    template of the sample store; and a type of the enum, sent for an
    identifier of twelve characters, which is not answered 500. *)
Lemma template_update_refusals_sample :
  let req ty := Sample.request PUT [Sample.unusedId] []
                  (MessageTemplate.mkFields None None None (Some ty)) in
  status (fst (MessageTemplates.update [("id", Sample.unusedId)] (req "REMINDER") None
                 Sample.withTemplate)) = 500
  /\ status (fst (MessageTemplates.update [("id", "abcdefghijkl")] (req "ALERT") None
                    Sample.withTemplate)) <> 500.
Proof.
  intros req. split.
  - apply (proj1 (proj2 (template_update_refusals [("id", Sample.unusedId)]
                           (req "REMINDER") None Sample.withTemplate))
             Sample.unusedId eq_refl).
    reflexivity.
  - intros H.
    apply (proj1 (proj2 (template_update_refusals [("id", "abcdefghijkl")]
                           (req "ALERT") None Sample.withTemplate))
             "6162636465666768696a6b6c" eq_refl) in H.
    discriminate H.
Defined.

(** ** Registration of the taxonomy routes *)

(** X29.  Express registers the routes of a module exactly when every
    callback of every [router.METHOD] call is a function, and the router
    then has one route for each call, in the order of the calls, with the
    method and the path of the call.  The form-subcategories and the
    form-categories module hand [auth] to each of their calls, which is
    the namespace object of middleware/auth.js and not a function: their
    first call throws, and neither module exports a router. *)
Theorem taxonomy_modules_export_no_router :
  (forall B (calls : list (Registration B)),
      (forall router,
          mount calls = Exported router ->
          List.map (fun r => (r_method r, r_path r)) router
          = List.map (fun g => (g_method g, g_path g)) calls)
      /\ ((exists router, mount calls = Exported router)
          <-> Forall (fun g => exists guards, functions (g_callbacks g) = Some guards)
                calls))
  /\ FormSubCategories.router = Thrown GET []
  /\ FormCategories.router = Thrown GET [].
Proof.
  split; [|repeat split].
  intros B calls. induction calls as [|g calls [IH1 IH2]]; cbn [mount List.map].
  - split; [intros router E; injection E as <-; reflexivity|].
    split; [constructor | intros _; eexists; reflexivity].
  - destruct (functions (g_callbacks g)) as [guards|] eqn:Hf.
    + destruct (mount calls) as [router0|m p] eqn:Hm.
      * split.
        -- intros router E. injection E as <-. cbn [List.map r_method r_path].
           rewrite (IH1 router0 eq_refl). reflexivity.
        -- split; [|intros _; eexists; reflexivity].
           intros _. constructor; [exists guards; exact Hf|].
           apply IH2. exists router0. reflexivity.
      * split; [intros router E; discriminate E|].
        split; [intros (router & E); discriminate E|].
        intros H. apply Forall_cons_iff in H. destruct H as [_ H].
        apply IH2 in H. destruct H as (router & E). discriminate E.
    + split; [intros router E; discriminate E|].
      split; [intros (router & E); discriminate E|].
      intros H. apply Forall_cons_iff in H. destruct H as [(guards & E) _]. congruence.
Qed.

(** With the guard itself in the place of [auth], the four routes of the
    categories module are registered. *)
Lemma taxonomy_modules_export_no_router_sample :
  exists router,
    mount (FormCategories.registrations
             (Callable (protect Sample.noToken Sample.neverChanged)))
    = Exported router.
Proof.
  apply (proj2 (proj2 (proj1 taxonomy_modules_export_no_router _
                         (FormCategories.registrations
                            (Callable (protect Sample.noToken Sample.neverChanged)))))).
  repeat constructor; eexists; reflexivity.
Defined.
